(** * mesonbuild/modules/cmake.py: the CMake module of Meson

    A shallow embedding of [src/mesonbuild/modules/cmake.py] and the
    properties of its template rendering, install-path resolution,
    argument validation, probe cache and subproject bridge. *)

From Stdlib Require Import ZArith Ascii String List Bool Lia DecimalString.
From stdpp Require Import base option list gmap strings.

Local Open Scope string_scope.
Local Open Scope nat_scope.
Local Open Scope list_scope.
Local Open Scope stdpp_scope.

Set Warnings "-register-all".

#[local] Arguments String.append !s1 s2 : simpl nomatch.
#[local] Arguments Ascii.eqb : simpl never.

(** ** Strings as Python handles them *)

Module Str.

(** The one-character strings that a Rocq literal cannot spell directly. *)
Definition nl : string := String (ascii_of_nat 10) "".
Definition dq : string := String (ascii_of_nat 34) "".

(** [s.startswith(p)]. *)
Fixpoint startswith (p s : string) : bool :=
  match p, s with
  | "", _ => true
  | String a p', String b s' => if Ascii.eqb a b then startswith p' s' else false
  | String _ _, "" => false
  end.

(** [s[n:]]. *)
Fixpoint drop (n : nat) (s : string) : string :=
  match n, s with
  | O, _ => s
  | S k, String _ s' => drop k s'
  | S _, "" => ""
  end.

(** [s[:n]]. *)
Fixpoint take (n : nat) (s : string) : string :=
  match n, s with
  | O, _ => ""
  | S k, String c s' => String c (take k s')
  | S _, "" => ""
  end.

(** [s.endswith(c)] for a single character [c]. *)
Fixpoint endswith_char (c : ascii) (s : string) : bool :=
  match s with
  | "" => false
  | String a "" => Ascii.eqb a c
  | String _ s' => endswith_char c s'
  end.

(** [c * n]. *)
Fixpoint repeat_char (c : ascii) (n : nat) : string :=
  match n with
  | O => ""
  | S k => String c (repeat_char c k)
  end.

(** [sub in s]. *)
Fixpoint contains (sub s : string) : bool :=
  startswith sub s ||
  match s with
  | "" => false
  | String _ s' => contains sub s'
  end.

(** [s.replace(old, new)] for a non-empty [old]: the occurrences of
    [old] are found left to right and do not overlap; what [new] brings
    in is not looked at again.  [skip] counts the characters of a found
    occurrence that are still to be passed over. *)
Fixpoint replace_from (old new : string) (skip : nat) (s : string) : string :=
  match s with
  | "" => ""
  | String c s' =>
      match skip with
      | S k => replace_from old new k s'
      | O =>
          if startswith old s
          then new +:+ replace_from old new (String.length old - 1) s'
          else String c (replace_from old new 0 s')
      end
  end.

(** With an empty [old] Python puts [new] around every character. *)
Fixpoint intersperse_all (new s : string) : string :=
  match s with
  | "" => new
  | String c s' => new +:+ String c (intersperse_all new s')
  end.

Definition replace (old new s : string) : string :=
  match old with
  | "" => intersperse_all new s
  | _ => replace_from old new 0 s
  end.

(** [s.split(sep)] for a one-character separator. *)
Fixpoint split (sep : ascii) (s : string) : list string :=
  match s with
  | "" => [""]
  | String c s' =>
      if Ascii.eqb c sep then "" :: split sep s'
      else match split sep s' with
           | [] => [String c ""]
           | w :: ws => String c w :: ws
           end
  end.

(** [sep.join(ws)]. *)
Fixpoint join (sep : string) (ws : list string) : string :=
  match ws with
  | [] => ""
  | [w] => w
  | w :: ws' => w +:+ sep +:+ join sep ws'
  end.

(** [''.join(ws)], as [writelines] lays lines out. *)
Definition concat (ws : list string) : string := fold_right String.append "" ws.

Definition is_space (c : ascii) : bool :=
  let n := nat_of_ascii c in
  (((9 <=? n) && (n <=? 13)) || ((28 <=? n) && (n <=? 32)))%nat.

Fixpoint lstrip (s : string) : string :=
  match s with
  | String c s' => if is_space c then lstrip s' else s
  | "" => ""
  end.

Fixpoint rstrip (s : string) : string :=
  match s with
  | "" => ""
  | String c s' =>
      match rstrip s' with
      | "" => if is_space c then "" else String c ""
      | r => String c r
      end
  end.

(** [s.strip()]. *)
Definition strip (s : string) : string := rstrip (lstrip s).

End Str.

(** ** Regular expressions of the module

    A match object keeps what the module reads from it: the whole match
    and the first group.  A pattern is a function that tries to match at
    the very start of what it is given, as [re] does at each position. *)

Module Re.

Record re_match := mk_match { group0 : string; group1 : option string }.

Definition pattern := string -> option re_match.

(** [re.sub(regex, repl, line)] with a callable [repl] that also gathers
    names on the side: the line is scanned left to right, at each
    position the pattern is tried, a match is replaced by what [repl]
    gives and the scan resumes behind it. *)
Fixpoint sub_from (regex : pattern) (repl : re_match -> string * list string)
    (skip : nat) (s : string) : string * list string :=
  match s with
  | "" => ("", [])
  | String c s' =>
      match skip with
      | S k => sub_from regex repl k s'
      | O =>
          match regex s with
          | Some m =>
              let '(r, names) := repl m in
              match String.length (group0 m) with
              | O =>
                  let '(out, names') := sub_from regex repl 0 s' in
                  (r +:+ String c out, names ++ names')
              | S k =>
                  let '(out, names') := sub_from regex repl k s' in
                  (r +:+ out, names ++ names')
              end
          | None =>
              let '(out, names') := sub_from regex repl 0 s' in
              (String c out, names')
          end
      end
  end.

Definition sub (regex : pattern) (repl : re_match -> string * list string)
    (s : string) : string * list string :=
  sub_from regex repl 0 s.

(** [[-a-zA-Z0-9_]]. *)
Definition is_name_char (c : ascii) : bool :=
  let n := nat_of_ascii c in
  ((n =? 45) || ((97 <=? n) && (n <=? 122)) || ((65 <=? n) && (n <=? 90))
   || ((48 <=? n) && (n <=? 57)) || (n =? 95))%nat.

(** The lookahead [(?=\\?@)]: an [@], or a backslash and an [@]. *)
Definition lookahead_at (s : string) : bool :=
  Str.startswith "@" s || Str.startswith "\@" s.

(** [(?:\\\\)+(?=\\?@)]: pairs of backslashes, as many as possible
    first, giving one back at a time while the lookahead fails.  The
    result is the length of the match. *)
Fixpoint alt_pairs (s : string) : option nat :=
  match s with
  | String a (String b rest) =>
      if Ascii.eqb a "\" && Ascii.eqb b "\" then
        match alt_pairs rest with
        | Some n => Some (2 + n)
        | None => if lookahead_at rest then Some 2 else None
        end
      else None
  | _ => None
  end.

(** [\\@]. *)
Definition alt_escaped (s : string) : bool := Str.startswith "\@" s.

(** [cls+] followed by what [k] accepts: characters of the class, as
    many as possible first, giving one back at a time while [k] refuses
    what follows.  The result is what [cls+] matched. *)
Fixpoint plus_then (cls : ascii -> bool) (k : string -> bool) (s : string)
    : option string :=
  match s with
  | String c rest =>
      if cls c then
        match plus_then cls k rest with
        | Some n => Some (String c n)
        | None => if k rest then Some (String c "") else None
        end
      else None
  | "" => None
  end.

(** [([-a-zA-Z0-9_]+)@]; the result is the group. *)
Definition name_then_at (s : string) : option string :=
  plus_then is_name_char (Str.startswith "@") s.

(** [@([-a-zA-Z0-9_]+)@]. *)
Definition alt_token (s : string) : option string :=
  match s with
  | String c rest => if Ascii.eqb c "@" then name_then_at rest else None
  | "" => None
  end.

(** The pattern compiled in [create_package_file]:
    [(?:\\\\)+(?=\\?@)|\\@|@([-a-zA-Z0-9_]+)@], the alternatives tried
    in the order they are written. *)
Definition placeholder_regex : pattern := fun s =>
  match alt_pairs s with
  | Some n => Some (mk_match (Str.take n s) None)
  | None =>
      if alt_escaped s then Some (mk_match "\@" None)
      else match alt_token s with
           | Some name => Some (mk_match ("@" +:+ name +:+ "@") (Some name))
           | None => None
           end
  end.


(** [re.match(pattern, s)]: a match at the start. *)
Definition match_ (regex : pattern) (s : string) : option re_match := regex s.

(** [re.search(pattern, s)]: the leftmost match. *)
Fixpoint search (regex : pattern) (s : string) : option re_match :=
  match regex s with
  | Some m => Some m
  | None =>
      match s with
      | "" => None
      | String _ s' => search regex s'
      end
  end.

(** [.]: any character but a newline. *)
Definition is_dot (c : ascii) : bool := negb (Ascii.eqb c (ascii_of_nat 10)).

(** [/.+] at the end of the library pattern. *)
Definition slash_any (s : string) : bool :=
  match s with
  | String a (String c _) => Ascii.eqb a "/" && is_dot c
  | _ => false
  end.

(** [/lib(64)?/.+]: the optional group is tried first, then skipped. *)
Definition lib_tail (s : string) : bool :=
  Str.startswith "/lib" s &&
  (let r := Str.drop 4 s in
   (Str.startswith "64" r && slash_any (Str.drop 2 r)) || slash_any r).

(** [re.match('^(/usr)?/lib(64)?/.+', s)] as a truth value. *)
Definition lib_regex (s : string) : bool :=
  (Str.startswith "/usr" s && lib_tail (Str.drop 4 s)) || lib_tail s.

(** Any character but a double quote. *)
Definition not_quote (c : ascii) : bool := negb (Ascii.eqb c (ascii_of_nat 34)).

(** The pattern of [detect_cmake]: a newline, [CMAKE_ROOT ], a quote,
    one or more characters that are not quotes (the group), a quote and
    a newline. *)
Definition cmake_root_regex : pattern := fun s =>
  let head := Str.nl +:+ "CMAKE_ROOT " +:+ Str.dq in
  if Str.startswith head s then
    match plus_then not_quote (Str.startswith (Str.dq +:+ Str.nl))
                    (Str.drop (String.length head) s) with
    | Some g => Some (mk_match (head +:+ g +:+ Str.dq +:+ Str.nl) (Some g))
    | None => None
    end
  else None.

End Re.

(** ** [os.path] and [pathlib], POSIX flavour *)

Module OsPath.

Definition sep : ascii := "/"%char.

(** [os.path.isabs]. *)
Definition isabs (s : string) : bool := Str.startswith "/" s.

(** One round of the loop of [os.path.join]. *)
Definition join_step (path b : string) : string :=
  if Str.startswith "/" b then b
  else if String.eqb path "" || Str.endswith_char sep path then path +:+ b
  else path +:+ "/" +:+ b.

(** [os.path.join(a, *p)]. *)
Definition join (a : string) (p : list string) : string := fold_left join_step p a.

(** The number of leading slashes that [normpath] keeps: two when there
    are exactly two, one when there are one or at least three. *)
Definition initial_slashes (path : string) : nat :=
  if Str.startswith "/" path then
    if Str.startswith "//" path && negb (Str.startswith "///" path) then 2 else 1
  else 0.

(** One round of the loop of [normpath]; [new_comps] is kept with its
    last component first. *)
Definition norm_step (slashes : nat) (new_comps : list string) (comp : string)
    : list string :=
  if String.eqb comp "" || String.eqb comp "." then new_comps
  else if negb (String.eqb comp "..")
          || ((slashes =? 0) && (match new_comps with [] => true | _ => false end))
          || (match new_comps with
              | last :: _ => String.eqb last ".."
              | [] => false
              end)
       then comp :: new_comps
       else match new_comps with
            | _ :: rest => rest
            | [] => []
            end.

Definition norm_comps (slashes : nat) (comps : list string) : list string :=
  rev (fold_left (norm_step slashes) comps []).

(** [os.path.normpath]. *)
Definition normpath (path : string) : string :=
  if String.eqb path "" then "."
  else
    let slashes := initial_slashes path in
    let comps := norm_comps slashes (Str.split sep path) in
    let path := Str.repeat_char sep slashes +:+ Str.join "/" comps in
    if String.eqb path "" then "." else path.

(** [os.path.abspath], the working directory being [cwd]. *)
Definition abspath (cwd path : string) : string :=
  normpath (if isabs path then path else join cwd [path]).

Definition nonempty (x : string) : bool := negb (String.eqb x "").

(** [len(os.path.commonprefix([l1, l2]))] on two lists of components. *)
Fixpoint common_prefix_len (l1 l2 : list string) : nat :=
  match l1, l2 with
  | a :: l1', b :: l2' => if String.eqb a b then S (common_prefix_len l1' l2') else 0
  | _, _ => 0
  end.

(** [os.path.relpath(path, start)]; [None] stands for its [ValueError]
    on an empty [path]. *)
Definition relpath (cwd path start : string) : option string :=
  if String.eqb path "" then None
  else
    let start_list := filter (fun x => nonempty x = true) (Str.split sep (abspath cwd start)) in
    let path_list := filter (fun x => nonempty x = true) (Str.split sep (abspath cwd path)) in
    let i := common_prefix_len start_list path_list in
    let rel_list := repeat ".." (length start_list - i) ++ drop i path_list in
    match rel_list with
    | [] => Some "."
    | a :: p => Some (join a p)
    end.

(** [s.rstrip('/')]. *)
Fixpoint rstrip_sep (s : string) : string :=
  match s with
  | "" => ""
  | String c s' =>
      match rstrip_sep s' with
      | "" => if Ascii.eqb c sep then "" else String c ""
      | r => String c r
      end
  end.

(** The index behind the last slash, [p.rfind('/') + 1]. *)
Fixpoint after_last_sep (s : string) : nat :=
  match s with
  | "" => 0
  | String c s' =>
      match after_last_sep s' with
      | O => if Ascii.eqb c sep then 1 else 0
      | S k => S (S k)
      end
  end.

(** [os.path.split]. *)
Definition split (p : string) : string * string :=
  let i := after_last_sep p in
  let head := Str.take i p in
  let tail := Str.drop i p in
  let head :=
    if nonempty head && negb (String.eqb head (Str.repeat_char sep (String.length head)))
    then rstrip_sep head else head in
  (head, tail).

(** [pathlib.PurePath(s).parts]. *)
Definition purepath_parts (s : string) : list string :=
  let root := Str.repeat_char sep (initial_slashes s) in
  let comps := filter (fun x => (nonempty x && negb (String.eqb x ".")) = true)
                      (Str.split sep s) in
  if nonempty root then root :: comps else comps.

End OsPath.

(** ** Values, errors and the state the module works on *)

(** [mesonlib.File]. *)
Record File := mk_File { is_built : bool; file_subdir : string; fname : string }.

(** The values a keyword or positional argument can hold.  A
    configuration data holder carries an identity besides the mapping
    it holds, from a placeholder name to a value and a description. *)
Inductive pyval :=
| PNone
| PBool (b : bool)
| PInt (z : Z)
| PStr (s : string)
| PList (l : list pyval)
| PFile (f : File)
| PConf (id : nat) (held_object : gmap string (string * string)).

Inductive exn :=
| MesonException (msg : string)
| InterpreterException (msg : string)
| UnboundLocalError (var : string)
| TypeError (msg : string)
| ValueError (msg : string)
| OSError (msg : string).

(** [build.Data]. *)
Record Data := mk_Data { data_file : File; data_install_dir : string }.

(** [ModuleReturnValue]. *)
Record ModuleReturnValue := mk_ModuleReturnValue
  { return_value : Data; new_objects : list Data }.

(** A compiler of the host machine; [sizeof] answers the [n]-th
    measurement asked of the compilers in this run. *)
Record Compiler := mk_Compiler { sizeof : string -> string -> nat -> exn + Z }.

(** What the methods read of [state] and of [state.environment]. *)
Record ModuleState := mk_ModuleState
  { source_dir : string;
    build_dir : string;
    scratch_dir : string;
    subdir : string;
    option_libdir : string;
    option_prefix : string;
    host_compilers : gmap string Compiler }.

(** A regular file: its text and its permission bits. *)
Record FileEntry := mk_FileEntry { text : string; mode : N }.

(** What the external [cmake] leaves behind when it has run. *)
Record Completed := mk_Completed { returncode : Z; stdout : string; stderr : string }.

(** The state a configuration run carries: the files, the working
    directory, the two attributes of the [CmakeModule] instance, how
    often [cmake] and [sizeof] have been run, the log, and the lists of
    the interpreter that [configure_package_config_file] appends to. *)
Record World := mk_World
  { files : gmap string FileEntry;
    cwd : string;
    cmake_detected : bool;
    cmake_root : option string;
    cmake_runs : nat;
    sizeof_runs : nat;
    mlog : list string;
    build_def_files : list string;
    build_data : list Data;
    used_confs : list nat }.

Definition set_files (f : gmap string FileEntry) (w : World) : World :=
  mk_World f (cwd w) (cmake_detected w) (cmake_root w) (cmake_runs w)
           (sizeof_runs w) (mlog w) (build_def_files w) (build_data w) (used_confs w).

(** [self.cmake_root = root; self.cmake_detected = True]. *)
Definition set_detected (root : string) (w : World) : World :=
  mk_World (files w) (cwd w) true (Some root) (cmake_runs w)
           (sizeof_runs w) (mlog w) (build_def_files w) (build_data w) (used_confs w).

Definition count_cmake_run (w : World) : World :=
  mk_World (files w) (cwd w) (cmake_detected w) (cmake_root w) (S (cmake_runs w))
           (sizeof_runs w) (mlog w) (build_def_files w) (build_data w) (used_confs w).

Definition count_sizeof_run (w : World) : World :=
  mk_World (files w) (cwd w) (cmake_detected w) (cmake_root w) (cmake_runs w)
           (S (sizeof_runs w)) (mlog w) (build_def_files w) (build_data w) (used_confs w).

Definition log (line : string) (w : World) : World :=
  mk_World (files w) (cwd w) (cmake_detected w) (cmake_root w) (cmake_runs w)
           (sizeof_runs w) (mlog w ++ [line]) (build_def_files w) (build_data w) (used_confs w).

Definition set_build_def_files (l : list string) (w : World) : World :=
  mk_World (files w) (cwd w) (cmake_detected w) (cmake_root w) (cmake_runs w)
           (sizeof_runs w) (mlog w) l (build_data w) (used_confs w).

Definition set_build_data (l : list Data) (w : World) : World :=
  mk_World (files w) (cwd w) (cmake_detected w) (cmake_root w) (cmake_runs w)
           (sizeof_runs w) (mlog w) (build_def_files w) l (used_confs w).

Definition set_used_confs (l : list nat) (w : World) : World :=
  mk_World (files w) (cwd w) (cmake_detected w) (cmake_root w) (cmake_runs w)
           (sizeof_runs w) (mlog w) (build_def_files w) (build_data w) l.

(** A method is a state transformer that ends in a value or in an
    exception; what it did to the state before raising stays done. *)
Definition M (A : Type) : Type := World -> World * (exn + A).

Definition ret {A} (a : A) : M A := fun w => (w, inr a).
Definition raise {A} (e : exn) : M A := fun w => (w, inl e).
Definition bind {A B} (c : M A) (k : A -> M B) : M B := fun w =>
  match c w with
  | (w', inr a) => k a w'
  | (w', inl e) => (w', inl e)
  end.
Definition get : M World := fun w => (w, inr w).
Definition modify (f : World -> World) : M unit := fun w => (f w, inr tt).
Definition lift {A} (r : exn + A) : M A := fun w => (w, r).

Notation "'let*' x ':=' c 'in' k" := (bind c (fun x => k))
  (at level 10, x pattern, c at level 100, k at level 200).
Notation "c ';;' k" := (bind c (fun _ => k))
  (at level 100, k at level 200, right associativity).

(** Reading a local variable that may not have been assigned. *)
Definition read_local {A} (name : string) (v : option A) : M A :=
  match v with
  | Some a => ret a
  | None => raise (UnboundLocalError name)
  end.

(** ** The constants of the module *)

Definition COMPATIBILITIES : list string :=
  ["AnyNewerVersion"; "SameMajorVersion"; "SameMinorVersion"; "ExactVersion"].

Definition PACKAGE_INIT_BASE : string :=
  Str.nl +:+
  "####### Expanded from \@PACKAGE_INIT\@ by configure_package_config_file() #######" +:+ Str.nl +:+
  "####### Any changes to this file will be overwritten by the next CMake run ####" +:+ Str.nl +:+
  "####### The input file was @inputFileName@ ########" +:+ Str.nl +:+
  Str.nl +:+
  "get_filename_component(PACKAGE_PREFIX_DIR " +:+ Str.dq +:+
  "${CMAKE_CURRENT_LIST_DIR}/@PACKAGE_RELATIVE_PATH@" +:+ Str.dq +:+ " ABSOLUTE)" +:+ Str.nl.

Definition PACKAGE_INIT_EXT : string :=
  Str.nl +:+
  "# Use original install prefix when loaded through a " +:+ Str.dq +:+ "/usr move" +:+ Str.dq +:+ Str.nl +:+
  "# cross-prefix symbolic link such as /lib -> /usr/lib." +:+ Str.nl +:+
  "get_filename_component(_realCurr " +:+ Str.dq +:+ "${CMAKE_CURRENT_LIST_DIR}" +:+ Str.dq +:+ " REALPATH)" +:+ Str.nl +:+
  "get_filename_component(_realOrig " +:+ Str.dq +:+ "@absInstallDir@" +:+ Str.dq +:+ " REALPATH)" +:+ Str.nl +:+
  "if(_realCurr STREQUAL _realOrig)" +:+ Str.nl +:+
  "  set(PACKAGE_PREFIX_DIR " +:+ Str.dq +:+ "@installPrefix@" +:+ Str.dq +:+ ")" +:+ Str.nl +:+
  "endif()" +:+ Str.nl +:+
  "unset(_realOrig)" +:+ Str.nl +:+
  "unset(_realCurr)" +:+ Str.nl.

Definition PACKAGE_INIT_SET_AND_CHECK : string :=
  Str.nl +:+
  "macro(set_and_check _var _file)" +:+ Str.nl +:+
  "  set(${_var} " +:+ Str.dq +:+ "${_file}" +:+ Str.dq +:+ ")" +:+ Str.nl +:+
  "  if(NOT EXISTS " +:+ Str.dq +:+ "${_file}" +:+ Str.dq +:+ ")" +:+ Str.nl +:+
  "    message(FATAL_ERROR " +:+ Str.dq +:+
  "File or directory ${_file} referenced by variable ${_var} does not exist !" +:+
  Str.dq +:+ ")" +:+ Str.nl +:+
  "  endif()" +:+ Str.nl +:+
  "endmacro()" +:+ Str.nl +:+
  Str.nl +:+
  "####################################################################################" +:+ Str.nl.

(** ** Files *)

(** What a file opened for reading as text, as at line 200, makes of
    the ends of its lines: a carriage return with a line feed behind
    it, and a carriage return alone, are read as one line feed. *)
Fixpoint universal_newlines (t : string) : string :=
  match t with
  | "" => ""
  | String c t' =>
      if Ascii.eqb c (ascii_of_nat 13) then
        match t' with
        | String d _ =>
            if Ascii.eqb d (ascii_of_nat 10) then universal_newlines t'
            else String (ascii_of_nat 10) (universal_newlines t')
        | "" => String (ascii_of_nat 10) ""
        end
      else String c (universal_newlines t')
  end.

(** A text cut behind every line feed. *)
Fixpoint cut_lines (t : string) : list string :=
  match t with
  | "" => []
  | String c t' =>
      if Ascii.eqb c (ascii_of_nat 10) then String c "" :: cut_lines t'
      else match cut_lines t' with
           | [] => [String c ""]
           | l :: ls => String c l :: ls
           end
  end.

(** [fin.readlines()] on a file opened for reading as text: the lines
    of the text as it is read, each with its line feed. *)
Definition readlines (t : string) : list string := cut_lines (universal_newlines t).

(** The steps by which a file is written; each is seen by whoever looks
    at the files between two steps. *)
Inductive fs_op :=
| FsOpenW (path : string)
| FsWrite (path chunk : string)
| FsCopymode (src dst : string)
| FsReplace (src dst : string).

Section Filesystem.

(** The permission bits of a newly created file. *)
Variable default_mode : N.

(** What [open(p, 'w')] raises for a path, if anything: the directory
    of the path may be missing, or may not be ours to write to. *)
Variable open_error : string -> option exn.

Definition fs_step (op : fs_op) (fs : gmap string FileEntry)
    : exn + gmap string FileEntry :=
  match op with
  | FsOpenW p =>
      match open_error p with
      | Some e => inl e
      | None =>
          let m := match fs !! p with Some e => mode e | None => default_mode end in
          inr (<[p := mk_FileEntry "" m]> fs)
      end
  | FsWrite p chunk =>
      match fs !! p with
      | Some e => inr (<[p := mk_FileEntry (text e +:+ chunk) (mode e)]> fs)
      | None => inl (OSError p)
      end
  | FsCopymode src dst =>
      match fs !! src, fs !! dst with
      | Some s, Some d => inr (<[dst := mk_FileEntry (text d) (mode s)]> fs)
      | _, _ => inl (OSError src)
      end
  | FsReplace src dst =>
      match fs !! src with
      | Some e => inr (<[dst := e]> (delete src fs))
      | None => inl (OSError src)
      end
  end.

(** The steps one after the other; the first that fails stops the run
    and leaves the files as they were at that point. *)
Fixpoint fs_run (ops : list fs_op) (fs : gmap string FileEntry)
    : gmap string FileEntry * option exn :=
  match ops with
  | [] => (fs, None)
  | op :: ops' =>
      match fs_step op fs with
      | inr fs' => fs_run ops' fs'
      | inl e => (fs, Some e)
      end
  end.

Definition run_plan (ops : list fs_op) : M unit := fun w =>
  match fs_run ops (files w) with
  | (fs', None) => (set_files fs' w, inr tt)
  | (fs', Some e) => (set_files fs' w, inl e)
  end.

End Filesystem.

(** ** What the module uses of [mesonlib] *)

(** Modelled from the spec: the replacement callback of
    [mesonlib.do_replacement], which is not part of this file.  A run of
    backslashes before an [@] comes out with its count halved, a lone
    escaped [@] comes out as [@], and a token comes out as the value
    the mapping gives its name, or unresolved with the name recorded
    as missing. *)
Definition variable_replace (confdata : gmap string (string * string))
    (m : Re.re_match) : string * list string :=
  if Str.endswith_char "\" (Re.group0 m)
  then (Str.repeat_char "\" (String.length (Re.group0 m) / 2), [])
  else if String.eqb (Re.group0 m) "\@" then ("@", [])
  else match Re.group1 m with
       | Some varname =>
           match confdata !! varname with
           | Some (var, _) => (var, [])
           | None => (Re.group0 m, [varname])
           end
       | None => (Re.group0 m, [])
       end.

(** Modelled from the spec: [mesonlib.do_replacement], the substitution
    engine on one line: a single left-to-right scan with the pattern it
    is given; it returns the line and the missing names. *)
Definition do_replacement (regex : Re.pattern) (line : string)
    (confdata : gmap string (string * string)) : string * list string :=
  Re.sub regex (variable_replace confdata) line.

(** Modelled from the spec: [mesonlib.replace_if_different], which
    puts the temporary path in the place of the destination path in one
    step. *)
Definition replace_if_different (dst dst_tmp : string) : list fs_op :=
  [FsReplace dst_tmp dst].

(** ** The bridge to a CMake subproject *)

(** The record the subproject keeps for a target: the names of the
    variables that hold its parts, and the tag of its kind. *)
Record TargetInfo := mk_TargetInfo
  { inc : string; src : string; dep : string; tgt : string; func : string }.

(** What the bridge calls of the subproject it holds. *)
Record SubprojectHolder := mk_SubprojectHolder
  { target_info : pyval -> option TargetInfo;
    cm_target_list : list string;
    get_variable_method : list pyval -> gmap string pyval -> exn + pyval }.

Record CMakeSubprojectHolder := mk_CMakeSubprojectHolder
  { held_object : SubprojectHolder; subproject : string }.

(** Modelled from the spec: the decorator [noPosargs] of the
    interpreter, which is not part of this file; the spec has
    [target_list()] without an argument.  A method under it ends in an
    exception of the interpreter when it is given a positional
    argument, and runs as it is written when it is given none. *)
Definition noPosargs {A : Type}
    (f : list pyval -> gmap string pyval -> exn + A)
    (args : list pyval) (kwargs : gmap string pyval) : exn + A :=
  match args with
  | [] => f args kwargs
  | _ :: _ => inl (InterpreterException "Function does not take positional arguments.")
  end.

Section Module_.

(** The permission bits of a newly created file. *)
Variable default_mode : N.

(** What [open(p, 'w')] raises for a path, if anything. *)
Variable open_error : string -> option exn.

(** The [n]-th run of [cmake --system-information -G Ninja] of this
    configuration run. *)
Variable run_cmake : nat -> exn + Completed.

(** [str] of the values that are neither a string, a number, a truth
    value nor [None]. *)
Variable str_other : pyval -> string.

(** [mesonlib.File.from_source_file], [File.absolute_path] and
    [File.relative_name]. *)
Variable from_source_file :
  gmap string FileEntry -> string -> string -> string -> exn + File.
Variable absolute_path : File -> string -> string -> string.
Variable relative_name : File -> string.

(** The text of the error that reading a missing file raises. *)
Variable read_error_text : string -> string.

(** [str(v)], which is also what [format] puts for a pair of braces. *)
Definition py_str (v : pyval) : string :=
  match v with
  | PStr s => s
  | PInt z => NilZero.string_of_int (Z.to_int z)
  | PBool true => "True"
  | PBool false => "False"
  | PNone => "None"
  | _ => str_other v
  end.

(** *** [CMakeSubprojectHolder] *)

Definition _args_to_info (self : CMakeSubprojectHolder) (args : list pyval)
    : exn + TargetInfo :=
  match args with
  | [tgt] =>
      match target_info (held_object self) tgt with
      | None =>
          inl (InterpreterException ("The CMake target " +:+ py_str tgt +:+ " does not exist"))
      | Some res => inr res
      end
  | _ => inl (InterpreterException "Exactly one argument is required.")
  end.

Definition get_variable (self : CMakeSubprojectHolder) (args : list pyval)
    (kwargs : gmap string pyval) : exn + pyval :=
  get_variable_method (held_object self) args kwargs.

Definition dependency (self : CMakeSubprojectHolder) (args : list pyval)
    (kwargs : gmap string pyval) : exn + pyval :=
  match _args_to_info self args with
  | inl e => inl e
  | inr info => get_variable self [PStr (dep info)] kwargs
  end.

Definition include_directories (self : CMakeSubprojectHolder) (args : list pyval)
    (kwargs : gmap string pyval) : exn + pyval :=
  match _args_to_info self args with
  | inl e => inl e
  | inr info => get_variable self [PStr (inc info)] kwargs
  end.

Definition target (self : CMakeSubprojectHolder) (args : list pyval)
    (kwargs : gmap string pyval) : exn + pyval :=
  match _args_to_info self args with
  | inl e => inl e
  | inr info => get_variable self [PStr (tgt info)] kwargs
  end.

Definition target_type (self : CMakeSubprojectHolder) (args : list pyval)
    (kwargs : gmap string pyval) : exn + pyval :=
  match _args_to_info self args with
  | inl e => inl e
  | inr info => inr (PStr (func info))
  end.

Definition target_list (self : CMakeSubprojectHolder) (args : list pyval)
    (kwargs : gmap string pyval) : exn + pyval :=
  noPosargs
    (fun _ _ => inr (PList (map PStr (cm_target_list (held_object self)))))
    args kwargs.

(** *** [CmakeModule] *)

Definition detect_voidp_size (env : ModuleState) : M Z :=
  let compilers := host_compilers env in
  let compiler := compilers !! "c" in
  let compiler := match compiler with Some c => Some c | None => compilers !! "cpp" end in
  match compiler with
  | None => raise (MesonException "Requires a C or C++ compiler to compute sizeof(void *).")
  | Some c => fun w => (count_sizeof_run w, sizeof c "void *" "" (sizeof_runs w))
  end.

Definition detect_cmake : M bool :=
  let* w := get in
  if cmake_detected w then ret true
  else
    let* p := (fun w => (count_cmake_run w, run_cmake (cmake_runs w))) in
    if negb (returncode p =? 0)%Z then
      modify (log ("error retrieving cmake information: returnCode="
                   +:+ py_str (PInt (returncode p)) +:+ " stdout=" +:+ stdout p
                   +:+ " stderr=" +:+ stderr p)) ;;
      ret false
    else
      match Re.search Re.cmake_root_regex (Str.strip (stdout p)) with
      | None => modify (log "unable to determine cmake root") ;; ret false
      | Some match_ =>
          let cmakePath := OsPath.purepath_parts (default "" (Re.group1 match_)) in
          match cmakePath with
          | [] => raise (TypeError "join() missing 1 required positional argument: 'a'")
          | a :: p =>
              modify (set_detected (OsPath.join a p)) ;;
              ret true
          end
      end.

(** Lines 205 to 211 for one line of the template: the reserved
    placeholder is replaced, then the line is scanned. *)
Definition render_line (package_init : string)
    (confdata : gmap string (string * string)) (line : string)
    : string * list string :=
  let line := Str.replace "@PACKAGE_INIT@" package_init line in
  do_replacement Re.placeholder_regex line confdata.

(** The loop of lines 205 to 211; what [do_replacement] reports as
    missing is bound to [_missing] and not looked at. *)
Definition render (package_init : string)
    (confdata : gmap string (string * string)) (data : list string) : list string :=
  map (fun line => let '(line, _missing) := render_line package_init confdata line in line)
      data.

(** Lines 194 to 197. *)
Definition compose_package_init (infile PACKAGE_RELATIVE_PATH extra : string) : string :=
  let package_init :=
    Str.replace "@PACKAGE_RELATIVE_PATH@" PACKAGE_RELATIVE_PATH PACKAGE_INIT_BASE in
  let package_init := Str.replace "@inputFileName@" infile package_init in
  let package_init := package_init +:+ extra in
  package_init +:+ PACKAGE_INIT_SET_AND_CHECK.

(** Lines 213 to 218 as steps on the files. *)
Definition write_steps (infile outfile : string) (result : list string) : list fs_op :=
  let outfile_tmp := outfile +:+ "~" in
  [FsOpenW outfile_tmp] ++ map (FsWrite outfile_tmp) result
  ++ [FsCopymode infile outfile_tmp] ++ replace_if_different outfile outfile_tmp.

Definition create_package_file (infile outfile PACKAGE_RELATIVE_PATH extra : string)
    (confdata : gmap string (string * string)) : M unit :=
  let package_init := compose_package_init infile PACKAGE_RELATIVE_PATH extra in
  let* w := get in
  match files w !! infile with
  | None =>
      raise (MesonException ("Could not read input file " +:+ infile +:+ ": "
                             +:+ read_error_text infile))
  | Some fin =>
      let data := readlines (text fin) in
      let result := render package_init confdata data in
      run_plan default_mode open_error (write_steps infile outfile result)
  end.

(** Modelled from the spec: [mesonlib.do_conf_file], which renders the
    lines of a template with the substitution engine and writes them as
    the package config generator does: to a temporary path that gets
    the template's permission bits and then takes the final path.  The
    spec has no failure of its own for this step once the template is
    read, so the temporary path is taken to open. *)
Definition do_conf_file (src dst : string)
    (confdata : gmap string (string * string)) : M unit :=
  let* w := get in
  match files w !! src with
  | None =>
      raise (MesonException ("Could not read input file " +:+ src +:+ ": "
                             +:+ read_error_text src))
  | Some fin =>
      let result :=
        map (fun line => fst (do_replacement Re.placeholder_regex line confdata))
            (readlines (text fin)) in
      run_plan default_mode (fun _ => None) (write_steps src dst result)
  end.

Definition write_basic_package_version_file (state : ModuleState)
    (_args : list pyval) (kwargs : gmap string pyval) : M ModuleReturnValue :=
  match kwargs !! "version" with
  | Some (PStr version) =>
      match kwargs !! "name" with
      | Some (PStr name) =>
          let compatibility := default (PStr "AnyNewerVersion") (kwargs !! "compatibility") in
          match compatibility with
          | PStr compatibility =>
              if negb (bool_decide (compatibility ∈ COMPATIBILITIES)) then
                raise (MesonException "compatibility must be either AnyNewerVersion, SameMajorVersion or ExactVersion.")
              else
                let* detected := detect_cmake in
                if negb detected then raise (MesonException "Unable to find cmake")
                else
                  let pkgroot := default PNone (kwargs !! "install_dir") in
                  let pkgroot :=
                    match pkgroot with
                    | PNone => PStr (OsPath.join (option_libdir state) ["cmake"; name])
                    | _ => pkgroot
                    end in
                  match pkgroot with
                  | PStr pkgroot =>
                      let* w := get in
                      match cmake_root w with
                      | None => raise (TypeError "expected str, bytes or os.PathLike object, not NoneType")
                      | Some root =>
                          let template_file :=
                            OsPath.join root
                              ["Modules"; "BasicConfigVersion-" +:+ compatibility +:+ ".cmake.in"] in
                          if negb (bool_decide (is_Some (files w !! template_file))) then
                            raise (MesonException ("your cmake installation doesn't support the "
                                                   +:+ compatibility +:+ " compatibility"))
                          else
                            let version_file :=
                              OsPath.join (scratch_dir state) [name +:+ "ConfigVersion.cmake"] in
                            let* voidp := detect_voidp_size state in
                            let conf : gmap string (string * string) :=
                              <["CMAKE_SIZEOF_VOID_P" := (py_str (PInt voidp), "")]>
                                (<["CVF_VERSION" := (version, "")]> ∅) in
                            do_conf_file template_file version_file conf ;;
                            let res :=
                              mk_Data (mk_File true (scratch_dir state) version_file) pkgroot in
                            ret (mk_ModuleReturnValue res [res])
                      end
                  | _ => raise (MesonException "Install_dir must be a string.")
                  end
          | _ => raise (MesonException "compatibility is not string.")
          end
      | _ => raise (MesonException "Name not specified.")
      end
  | _ => raise (MesonException "Version must be specified.")
  end.

(** Lines 258 to 267: the absolute install directory, the relative path
    and the extra block. *)
Definition abs_install_dir (prefix install_dir : string) : string :=
  if negb (OsPath.isabs install_dir) then OsPath.join prefix [install_dir]
  else install_dir.

Definition relocation_extra (prefix abs_install_dir : string) : string :=
  if Re.lib_regex abs_install_dir then
    let extra := Str.replace "@absInstallDir@" abs_install_dir PACKAGE_INIT_EXT in
    Str.replace "@installPrefix@" prefix extra
  else "".

Definition resolve_install_path (cwd prefix install_dir : string)
    : exn + (string * string) :=
  let abs_install_dir := abs_install_dir prefix install_dir in
  match OsPath.relpath cwd prefix abs_install_dir with
  | None => inl (ValueError "no path specified")
  | Some PACKAGE_RELATIVE_PATH =>
      inr (PACKAGE_RELATIVE_PATH, relocation_extra prefix abs_install_dir)
  end.

(** Lines 225 to 236: the file that [input] stands for. *)
Definition input_file (state : ModuleState) (kwargs : gmap string pyval) : M File :=
  match kwargs !! "input" with
  | None => raise (MesonException ("configure_package_config_file requires " +:+ Str.dq
                                   +:+ "input" +:+ Str.dq +:+ " keyword."))
  | Some inputfile =>
  let* inputfile :=
    match inputfile with
    | PList [x] => ret x
    | PList _ => raise (MesonException "Keyword argument 'input' requires exactly one file")
    | _ => ret inputfile
    end in
  match inputfile with
  | PStr s =>
      let* w := get in
      lift (from_source_file (files w) (source_dir state) (subdir state) s)
  | PFile f => ret f
  | _ => raise (MesonException "input must be a string or a file")
  end
  end.

(** Lines 238 to 279. *)
Definition configure_from (state : ModuleState) (kwargs : gmap string pyval)
    (inputfile : File) : M Data :=
  let ifile_abs := absolute_path inputfile (source_dir state) (build_dir state) in
  match kwargs !! "name" with
  | None => raise (MesonException (Str.dq +:+ "name" +:+ Str.dq +:+ " not specified."))
  | Some name =>
  let '(ofile_path, ofile_fname) :=
    OsPath.split (OsPath.join (subdir state) [py_str name +:+ "Config.cmake"]) in
  let ofile_abs := OsPath.join (build_dir state) [ofile_path; ofile_fname] in
  let* install_dir :=
    match kwargs !! "install_dir" with
    | None =>
        match name with
        | PStr name => ret (Some (PStr (OsPath.join (option_libdir state) ["cmake"; name])))
        | _ => raise (TypeError "join() argument must be str or bytes")
        end
    | Some _ => ret None
    end in
  let* install_dir := read_local "install_dir" install_dir in
  match install_dir with
  | PStr install_dir =>
  match kwargs !! "configuration" with
  | None => raise (MesonException (Str.dq +:+ "configuration" +:+ Str.dq +:+ " not specified."))
  | Some (PConf conf_id conf) =>
      let prefix := option_prefix state in
      let* w := get in
      let* resolved := lift (resolve_install_path (cwd w) prefix install_dir) in
      let '(PACKAGE_RELATIVE_PATH, extra) := resolved in
      create_package_file ifile_abs ofile_abs PACKAGE_RELATIVE_PATH extra conf ;;
      modify (fun w => set_used_confs (used_confs w ++ [conf_id]) w) ;;
      let conffile := OsPath.normpath (relative_name inputfile) in
      let* w := get in
      (if bool_decide (conffile ∈ build_def_files w) then ret tt
       else modify (set_build_def_files (build_def_files w ++ [conffile]))) ;;
      let res := mk_Data (mk_File true ofile_path ofile_fname) install_dir in
      modify (fun w => set_build_data (build_data w ++ [res]) w) ;;
      ret res
  | Some _ =>
      raise (MesonException ("Argument " +:+ Str.dq +:+ "configuration" +:+ Str.dq
                             +:+ " is not of type configuration_data"))
  end
  | _ =>
      raise (MesonException (Str.dq +:+ "install_dir" +:+ Str.dq +:+ " must be a string."))
  end
  end.

Definition configure_package_config_file (state : ModuleState)
    (args : list pyval) (kwargs : gmap string pyval) : M Data :=
  match args with
  | _ :: _ =>
      raise (MesonException "configure_package_config_file takes only keyword arguments.")
  | [] =>
      let* inputfile := input_file state kwargs in
      configure_from state kwargs inputfile
  end.

End Module_.

(** ** Concrete surroundings, for the examples *)

Module Sample.

Definition default_mode : N := 420%N.

(** The directories there are: a file can be opened for writing in the
    build directory and in its scratch directory, and nowhere else. *)
Definition open_error (p : string) : option exn :=
  let dir := fst (OsPath.split p) in
  if String.eqb dir "/build" || String.eqb dir "/build/meson-private" then None
  else Some (OSError ("No such file or directory: " +:+ p)).

Definition str_other (v : pyval) : string := "<object>".

Definition system_information : string :=
  "CMAKE_VERSION 3.14" +:+ Str.nl +:+
  "CMAKE_ROOT " +:+ Str.dq +:+ "/usr/share/cmake-3.14" +:+ Str.dq +:+ Str.nl +:+
  "CMAKE_SYSTEM Linux" +:+ Str.nl.

(** A [cmake] that answers, and one that fails. *)
Definition cmake_ok (n : nat) : exn + Completed :=
  inr (mk_Completed 0 system_information "").

Definition cmake_failing (n : nat) : exn + Completed :=
  inr (mk_Completed 1 "" "CMake Error").

Definition relative_name (f : File) : string :=
  OsPath.join (file_subdir f) [fname f].

Definition absolute_path (f : File) (srcdir builddir : string) : string :=
  OsPath.join (if is_built f then builddir else srcdir) [relative_name f].

Definition from_source_file (fs : gmap string FileEntry)
    (source_root subdir fname : string) : exn + File :=
  if bool_decide (is_Some (fs !! OsPath.join source_root [subdir; fname]))
  then inr (mk_File false subdir fname)
  else inl (MesonException ("File " +:+ fname +:+ " does not exist.")).

Definition read_error_text (path : string) : string := "No such file or directory".

(** A compiler that measures eight bytes first and four afterwards. *)
Definition cc : Compiler :=
  mk_Compiler (fun _ _ n => inr (if (n =? 0)%nat then 8%Z else 4%Z)).

Definition state : ModuleState :=
  mk_ModuleState "/src" "/build" "/build/meson-private" "" "lib" "/usr/local"
                 (<["c" := cc]> ∅).

Definition template : FileEntry :=
  mk_FileEntry ("@PACKAGE_INIT@" +:+ Str.nl +:+ "set(V @VERSION@)" +:+ Str.nl) 384%N.

Definition version_template : FileEntry :=
  mk_FileEntry ("set(PACKAGE_VERSION " +:+ Str.dq +:+ "@CVF_VERSION@" +:+ Str.dq +:+ ")" +:+ Str.nl
                +:+ "set(P @CMAKE_SIZEOF_VOID_P@)" +:+ Str.nl) 420%N.

Definition world (fs : gmap string FileEntry) : World :=
  mk_World fs "/src" false None 0 0 [] [] [] [].

Definition fs0 : gmap string FileEntry :=
  <["/src/FooConfig.cmake.in" := template]>
    (<["/usr/share/cmake-3.14/Modules/BasicConfigVersion-SameMajorVersion.cmake.in" := version_template]> ∅).

Definition w0 : World := world fs0.

(** A subproject with the targets [core] and [util]. *)
Definition subp : SubprojectHolder :=
  mk_SubprojectHolder
    (fun v => match v with
              | PStr "core" => Some (mk_TargetInfo "core_inc" "core_src" "core_dep" "core" "library")
              | PStr "util" => Some (mk_TargetInfo "util_inc" "util_src" "util_dep" "util" "executable")
              | _ => None
              end)
    ["core"; "util"]
    (fun args _ => match args with
                   | [PStr v] => inr (PStr ("<" +:+ v +:+ ">"))
                   | _ => inl (InterpreterException "Get_variable takes one or two arguments.")
                   end).

Definition bridge : CMakeSubprojectHolder := mk_CMakeSubprojectHolder subp "zlib".

End Sample.

(** ** Notions the properties are stated with *)

(** A step that leaves every path but [p] alone. *)
Definition writes_only (p : string) (op : fs_op) : Prop :=
  match op with
  | FsOpenW q | FsWrite q _ | FsCopymode _ q => q = p
  | FsReplace _ _ => False
  end.

(** An [input] that [configure_package_config_file] can turn into a
    file: a file, the name of a source file that is there, or a list of
    exactly one of these. *)
Definition usable_file
    (from_source_file : gmap string FileEntry -> string -> string -> string -> exn + File)
    (state : ModuleState) (w : World) (v : pyval) : Prop :=
  match v with
  | PFile _ => True
  | PStr s => exists f, from_source_file (files w) (source_dir state) (subdir state) s = inr f
  | _ => False
  end.

Definition usable_input
    (from_source_file : gmap string FileEntry -> string -> string -> string -> exn + File)
    (state : ModuleState) (w : World) (v : pyval) : Prop :=
  match v with
  | PList [x] => usable_file from_source_file state w x
  | PList _ => False
  | _ => usable_file from_source_file state w v
  end.

(** Every character of [s] is in the class. *)
Fixpoint all_chars (cls : ascii -> bool) (s : string) : bool :=
  match s with
  | "" => true
  | String c s' => cls c && all_chars cls s'
  end.

(** A name as the template grammar has it: one or more of
    [-a-zA-Z0-9_]. *)
Definition valid_name (name : string) : Prop :=
  name <> "" /\ all_chars Re.is_name_char name = true.

(** A run of [n] backslashes. *)
Definition backslashes (n : nat) : string := Str.repeat_char "\" n.



(** The part of the composed block before the input file name, as
    composed and as it leaves the scan, and the part behind it. *)
Definition PACKAGE_INIT_HEAD : string :=
  Str.nl +:+
  "####### Expanded from \@PACKAGE_INIT\@ by configure_package_config_file() #######" +:+ Str.nl +:+
  "####### Any changes to this file will be overwritten by the next CMake run ####" +:+ Str.nl +:+
  "####### The input file was ".

Definition PACKAGE_INIT_HEAD_SCANNED : string :=
  Str.nl +:+
  "####### Expanded from @PACKAGE_INIT@ by configure_package_config_file() #######" +:+ Str.nl +:+
  "####### Any changes to this file will be overwritten by the next CMake run ####" +:+ Str.nl +:+
  "####### The input file was ".

Definition package_init_tail (infile PACKAGE_RELATIVE_PATH extra : string) : string :=
  Str.replace "@inputFileName@" infile
    (" ########" +:+ Str.nl +:+ Str.nl +:+
     "get_filename_component(PACKAGE_PREFIX_DIR " +:+ Str.dq +:+
     "${CMAKE_CURRENT_LIST_DIR}/" +:+ PACKAGE_RELATIVE_PATH +:+ Str.dq +:+ " ABSOLUTE)" +:+ Str.nl)
  +:+ extra +:+ PACKAGE_INIT_SET_AND_CHECK.

(** The components of a path once it is normalised. *)
Definition path_components (p : string) : list string :=
  filter (fun x => OsPath.nonempty x = true) (Str.split OsPath.sep (OsPath.normpath p)).

(** A component without a slash in it. *)
Definition slash_free (w : string) : Prop :=
  all_chars (fun c => negb (Ascii.eqb c OsPath.sep)) w = true.

(** A component that [normpath] keeps for an absolute path: a name, not
    empty, not a dot and not two dots. *)
Definition proper_component (w : string) : Prop :=
  w <> "" /\ w <> "." /\ w <> ".." /\ slash_free w.

(** The pattern of line 265 in words: [/usr] or nothing, then [/lib] or
    [/lib64], then a slash and at least one more character that does
    not end the line. *)
Definition lib_pattern (s : string) : Prop :=
  exists usr lib c rest,
    (usr = "" \/ usr = "/usr") /\ (lib = "/lib" \/ lib = "/lib64")
    /\ c <> ascii_of_nat 10
    /\ s = usr +:+ lib +:+ "/" +:+ String c rest.

(** A method that leaves a successful detection of [cmake] in place. *)
Definition keeps_detection {A : Type} (c : M A) : Prop :=
  forall w, cmake_detected w = true ->
    cmake_detected (fst (c w)) = true /\ cmake_root (fst (c w)) = cmake_root w.

(** The fixed parts of the composed block around the relative path,
    and of the extra block around the absolute install directory and
    the prefix. *)
Definition PACKAGE_INIT_MID : string :=
  " ########" +:+ Str.nl +:+ Str.nl +:+
  "get_filename_component(PACKAGE_PREFIX_DIR " +:+ Str.dq +:+ "${CMAKE_CURRENT_LIST_DIR}/".

Definition PACKAGE_INIT_END : string := Str.dq +:+ " ABSOLUTE)" +:+ Str.nl.

Definition PACKAGE_INIT_EXT_HEAD : string :=
  Str.nl +:+
  "# Use original install prefix when loaded through a " +:+ Str.dq +:+ "/usr move" +:+ Str.dq +:+ Str.nl +:+
  "# cross-prefix symbolic link such as /lib -> /usr/lib." +:+ Str.nl +:+
  "get_filename_component(_realCurr " +:+ Str.dq +:+ "${CMAKE_CURRENT_LIST_DIR}" +:+ Str.dq +:+ " REALPATH)" +:+ Str.nl +:+
  "get_filename_component(_realOrig " +:+ Str.dq.

Definition PACKAGE_INIT_EXT_MID : string :=
  Str.dq +:+ " REALPATH)" +:+ Str.nl +:+
  "if(_realCurr STREQUAL _realOrig)" +:+ Str.nl +:+
  "  set(PACKAGE_PREFIX_DIR " +:+ Str.dq.

Definition PACKAGE_INIT_EXT_END : string :=
  Str.dq +:+ ")" +:+ Str.nl +:+
  "endif()" +:+ Str.nl +:+
  "unset(_realOrig)" +:+ Str.nl +:+
  "unset(_realCurr)" +:+ Str.nl.

(** The state a call of [configure_package_config_file] that ends well
    leaves, lines 269 to 277: the files as [create_package_file] left
    them, the configuration marked as used, the name of the input among
    the build definition files, and the result appended to the data of
    the build. *)
Definition configured (w : World) (fs : gmap string FileEntry) (conffile : string)
    (res : Data) (conf_id : nat) : World :=
  mk_World fs (cwd w) (cmake_detected w) (cmake_root w) (cmake_runs w) (sizeof_runs w)
           (mlog w)
           (if bool_decide (conffile ∈ build_def_files w) then build_def_files w
            else build_def_files w ++ [conffile])
           (build_data w ++ [res]) (used_confs w ++ [conf_id]).

(** The keywords of a plain call, for the examples. *)
Module SampleCall.

Definition kwargs : gmap string pyval :=
  <["input" := PStr "FooConfig.cmake.in"]>
    (<["name" := PStr "Foo"]> (<["configuration" := PConf 7 ∅]> ∅)).

End SampleCall.

(** The fixed start of the line that names the root of [cmake]. *)
Definition CMAKE_ROOT_HEAD : string := Str.nl +:+ "CMAKE_ROOT " +:+ Str.dq.

(** An output of [cmake] with the root on its first line. *)
Definition root_on_first_line (n : nat) : exn + Completed :=
  inr (mk_Completed 0
         ("CMAKE_ROOT " +:+ Str.dq +:+ "/usr/share/cmake-3.14" +:+ Str.dq +:+ Str.nl +:+
          "CMAKE_SYSTEM Linux" +:+ Str.nl) "").

(** The keywords of two calls for a version file, for the examples. *)
Module SampleVersion.

Definition kwargs : gmap string pyval :=
  <["version" := PStr "1.2.3"]>
    (<["name" := PStr "Foo"]>
       (<["compatibility" := PStr "SameMajorVersion"]>
          (<["install_dir" := PStr "share/cmake/Foo"]> ∅))).

Definition kwargs_exact : gmap string pyval :=
  <["version" := PStr "1.2.3"]>
    (<["name" := PStr "Foo"]> (<["compatibility" := PStr "ExactVersion"]> ∅)).

End SampleVersion.

(** ** Facts about strings *)

Lemma append_nil_r (s : string) : s +:+ "" = s.
Proof. induction s as [|c s IH]; simpl; [reflexivity | now rewrite IH]. Qed.

Lemma append_assoc (a b c : string) : (a +:+ b) +:+ c = a +:+ (b +:+ c).
Proof. induction a as [|x a IH]; simpl; [reflexivity | now rewrite IH]. Qed.

Lemma length_append (a b : string) :
  String.length (a +:+ b) = String.length a + String.length b.
Proof. induction a as [|x a IH]; simpl; [reflexivity | now rewrite IH]. Qed.

Lemma startswith_append (x b : string) : Str.startswith x (x +:+ b) = true.
Proof.
  induction x as [|c x IH]; simpl; [reflexivity|].
  now rewrite Ascii.eqb_refl.
Qed.

Lemma startswith_inv (p s : string) :
  Str.startswith p s = true -> exists r, s = p +:+ r.
Proof.
  revert s; induction p as [|a p IH]; intros s H; simpl in *.
  - now exists s.
  - destruct s as [|b s]; [discriminate|].
    destruct (Ascii.eqb a b) eqn:E; [|discriminate].
    apply Ascii.eqb_eq in E; subst b.
    destruct (IH _ H) as [r ->]. now exists r.
Qed.

Lemma contains_startswith (x s : string) :
  Str.startswith x s = true -> Str.contains x s = true.
Proof. intros H. destruct s; simpl; now rewrite H. Qed.

Lemma contains_append (a x b : string) : Str.contains x (a +:+ x +:+ b) = true.
Proof.
  induction a as [|c a IH]; simpl.
  - apply contains_startswith, startswith_append.
  - rewrite IH. apply orb_true_r.
Qed.

(** ** The bridge: an unknown target *)

Section Bridge.

Variable str_other : pyval -> string.

Lemma args_to_info_unknown (self : CMakeSubprojectHolder) (name : pyval) :
  target_info (held_object self) name = None ->
  _args_to_info str_other self [name]
  = inl (InterpreterException
           ("The CMake target " +:+ py_str str_other name +:+ " does not exist")).
Proof. intros H. unfold _args_to_info. now rewrite H. Qed.

(** C9, as the code has it: each of [dependency], [include_directories],
    [target] and [target_type], called with a name the subproject has
    no target information for, fails with the lookup error
    [The CMake target <name> does not exist]; the message names the
    unknown target, and it is the same whatever the subproject is
    called. *)
Theorem unknown_target_is_lookup_error
    (self : CMakeSubprojectHolder) (name : pyval) (kwargs : gmap string pyval) :
  target_info (held_object self) name = None ->
  let msg := "The CMake target " +:+ py_str str_other name +:+ " does not exist" in
  dependency str_other self [name] kwargs = inl (InterpreterException msg)
  /\ include_directories str_other self [name] kwargs = inl (InterpreterException msg)
  /\ target str_other self [name] kwargs = inl (InterpreterException msg)
  /\ target_type str_other self [name] kwargs = inl (InterpreterException msg)
  /\ Str.contains (py_str str_other name) msg = true
  /\ (forall dirname,
        target str_other (mk_CMakeSubprojectHolder (held_object self) dirname) [name] kwargs
        = inl (InterpreterException msg)).
Proof.
  intros H msg.
  pose proof (args_to_info_unknown self name H) as E.
  unfold dependency, include_directories, target, target_type.
  rewrite E.
  repeat split; try reflexivity.
  - apply contains_append.
  - intros dirname.
    pose proof (args_to_info_unknown
                  (mk_CMakeSubprojectHolder (held_object self) dirname) name H) as E'.
    now rewrite E'.
Qed.

End Bridge.

Lemma unknown_target_is_lookup_error_witness :
  target_info (held_object Sample.bridge) (PStr "nonexistent") = None
  /\ target Sample.str_other Sample.bridge [PStr "nonexistent"] ∅
     = inl (InterpreterException "The CMake target nonexistent does not exist").
Proof.
  split; [reflexivity|].
  exact (proj1 (proj2 (proj2
    (unknown_target_is_lookup_error Sample.str_other Sample.bridge
       (PStr "nonexistent") ∅ eq_refl)))).
Defined.

(** C9, as the spec has it, fails: on the subproject [zlib] with the
    targets [core] and [util], the error for the target [nonexistent]
    does not name the subproject. *)
Lemma unknown_target_error_omits_subproject :
  ~ (forall (self : CMakeSubprojectHolder) (name : string),
       target_info (held_object self) (PStr name) = None ->
       exists msg,
         target Sample.str_other self [PStr name] ∅ = inl (InterpreterException msg)
         /\ Str.contains name msg = true
         /\ Str.contains (subproject self) msg = true).
Proof.
  intros H.
  destruct (H Sample.bridge "nonexistent" eq_refl) as (msg & Hm & _ & Hs).
  vm_compute in Hm. injection Hm as <-.
  vm_compute in Hs. discriminate.
Qed.

(** ** What the methods leave of a detection *)

Lemma keeps_ret {A : Type} (a : A) : keeps_detection (ret a).
Proof. intros w H. now split. Qed.

Lemma keeps_raise {A : Type} (e : exn) : keeps_detection (@raise A e).
Proof. intros w H. now split. Qed.

Lemma keeps_get : keeps_detection get.
Proof. intros w H. now split. Qed.

Lemma keeps_lift {A : Type} (r : exn + A) : keeps_detection (lift r).
Proof. intros w H. now split. Qed.

Lemma keeps_modify (f : World -> World) :
  (forall w, cmake_detected (f w) = cmake_detected w /\ cmake_root (f w) = cmake_root w) ->
  keeps_detection (modify f).
Proof. intros Hf w H. simpl. destruct (Hf w) as [-> ->]. now split. Qed.

Lemma keeps_bind {A B : Type} (c : M A) (k : A -> M B) :
  keeps_detection c -> (forall a, keeps_detection (k a)) -> keeps_detection (bind c k).
Proof.
  intros Hc Hk w H. unfold bind. destruct (Hc w H) as [H1 H2].
  destruct (c w) as [w' [e|a]]; simpl in *; [now split|].
  destruct (Hk a w' H1) as [H3 H4]. split; [exact H3 | congruence].
Qed.

Lemma keeps_run_plan (default_mode : N) (open_error : string -> option exn)
    (ops : list fs_op) :
  keeps_detection (run_plan default_mode open_error ops).
Proof.
  intros w H. unfold run_plan.
  destruct (fs_run default_mode open_error ops (files w)) as [fs' [e|]]; now split.
Qed.

Lemma keeps_detect_voidp_size (env : ModuleState) :
  keeps_detection (detect_voidp_size env).
Proof.
  intros w H. unfold detect_voidp_size.
  destruct (host_compilers env !! "c"); [now split|].
  destruct (host_compilers env !! "cpp"); now split.
Qed.

Ltac keeps_step :=
  first
    [ apply keeps_ret | apply keeps_raise | apply keeps_get | apply keeps_lift
    | apply keeps_run_plan | apply keeps_detect_voidp_size
    | apply keeps_modify; intros; split; reflexivity
    | apply keeps_bind; [|intros ?]
    | match goal with
      | |- keeps_detection (match ?x with _ => _ end) => destruct x
      end ].

Section Frame.

Variable default_mode : N.
Variable open_error : string -> option exn.
Variable run_cmake : nat -> exn + Completed.
Variable str_other : pyval -> string.
Variable from_source_file :
  gmap string FileEntry -> string -> string -> string -> exn + File.
Variable absolute_path : File -> string -> string -> string.
Variable relative_name : File -> string.
Variable read_error_text : string -> string.

Lemma keeps_detect_cmake : keeps_detection (detect_cmake run_cmake str_other).
Proof.
  intros w H. unfold detect_cmake, bind, get. simpl. rewrite H. now split.
Qed.

Lemma keeps_create_package_file (infile outfile rel extra : string)
    (confdata : gmap string (string * string)) :
  keeps_detection
    (create_package_file default_mode open_error read_error_text infile outfile rel extra confdata).
Proof.
  unfold create_package_file. apply keeps_bind; [apply keeps_get|].
  intros w. repeat keeps_step.
Qed.

Lemma keeps_do_conf_file (src dst : string) (confdata : gmap string (string * string)) :
  keeps_detection (do_conf_file default_mode read_error_text src dst confdata).
Proof.
  unfold do_conf_file. apply keeps_bind; [apply keeps_get|].
  intros w. repeat keeps_step.
Qed.

Lemma keeps_write_basic_package_version_file (state : ModuleState)
    (args : list pyval) (kwargs : gmap string pyval) :
  keeps_detection
    (write_basic_package_version_file default_mode run_cmake str_other read_error_text
       state args kwargs).
Proof.
  unfold write_basic_package_version_file.
  repeat first [apply keeps_detect_cmake | apply keeps_do_conf_file | keeps_step].
Qed.

Lemma keeps_configure_package_config_file (state : ModuleState)
    (args : list pyval) (kwargs : gmap string pyval) :
  keeps_detection
    (configure_package_config_file default_mode open_error str_other from_source_file
       absolute_path relative_name read_error_text state args kwargs).
Proof.
  unfold configure_package_config_file, input_file, configure_from, read_local.
  repeat first [apply keeps_create_package_file | keeps_step].
Qed.

End Frame.

(** ** The probes and what is kept of them *)

Section Probe.

Variable default_mode : N.
Variable open_error : string -> option exn.
Variable run_cmake : nat -> exn + Completed.
Variable str_other : pyval -> string.
Variable from_source_file :
  gmap string FileEntry -> string -> string -> string -> exn + File.
Variable absolute_path : File -> string -> string -> string.
Variable relative_name : File -> string.
Variable read_error_text : string -> string.

Local Abbreviation detect := (detect_cmake run_cmake str_other).
Local Abbreviation wv :=
  (write_basic_package_version_file default_mode run_cmake str_other read_error_text).
Local Abbreviation cfg :=
  (configure_package_config_file default_mode open_error str_other from_source_file
     absolute_path relative_name read_error_text).

(** Once [cmake_detected] is set, a call answers [True] and leaves
    everything as it is: [cmake] is not run. *)
Lemma detect_cmake_detected (w : World) :
  cmake_detected w = true -> detect w = (w, inr true).
Proof.
  intros H. unfold detect_cmake, bind, get. simpl. now rewrite H.
Qed.

(** While [cmake_detected] is not set, a call runs [cmake] once, and
    only the answer [True] sets it. *)
Lemma detect_cmake_undetected (w : World) :
  cmake_detected w = false ->
  cmake_runs (fst (detect w)) = S (cmake_runs w)
  /\ (snd (detect w) = inr true ->
      cmake_detected (fst (detect w)) = true /\ is_Some (cmake_root (fst (detect w))))
  /\ (snd (detect w) <> inr true ->
      cmake_detected (fst (detect w)) = false
      /\ cmake_root (fst (detect w)) = cmake_root w).
Proof.
  intros H. unfold detect_cmake, bind, get, modify, ret, raise. simpl. rewrite H.
  destruct (run_cmake (cmake_runs w)) as [e|p]; simpl.
  { repeat split; try discriminate; assumption. }
  destruct (negb (returncode p =? 0)%Z); simpl.
  { repeat split; try discriminate; assumption. }
  destruct (Re.search Re.cmake_root_regex (Str.strip (stdout p))) as [m|]; simpl.
  2: { repeat split; try discriminate; assumption. }
  destruct (OsPath.purepath_parts (default "" (Re.group1 m))) as [|a l]; simpl.
  { repeat split; try discriminate; assumption. }
  repeat split; try reflexivity; try (intros; congruence).
  eexists; reflexivity.
Qed.

(** C10, as the code has it: after a call of [detect_cmake] that
    answered [True], every later call answers [True] with the state
    untouched, so [cmake] is not run again and the root stays, also
    when the methods of the module have run in between; after a call
    that did not answer [True] nothing is kept, and the next call runs
    [cmake] once more; [detect_voidp_size] keeps nothing either: with a
    compiler at hand each call asks it anew. *)
Theorem detect_cmake_keeps_success_only (w w' : World) (r : exn + bool) :
  detect w = (w', r) ->
  (r = inr true ->
   detect w' = (w', inr true)
   /\ (forall state args kwargs,
         let w2 := fst (wv state args kwargs w') in
         detect w2 = (w2, inr true) /\ cmake_root w2 = cmake_root w')
   /\ (forall state args kwargs,
         let w2 := fst (cfg state args kwargs w') in
         detect w2 = (w2, inr true) /\ cmake_root w2 = cmake_root w')
   /\ (forall env,
         let w2 := fst (detect_voidp_size env w') in
         detect w2 = (w2, inr true) /\ cmake_root w2 = cmake_root w'))
  /\ (r <> inr true ->
      cmake_detected w' = false
      /\ cmake_runs (fst (detect w')) = S (cmake_runs w'))
  /\ (forall (env : ModuleState) (c : Compiler),
        host_compilers env !! "c" = Some c ->
        detect_voidp_size env w'
        = (count_sizeof_run w', sizeof c "void *" "" (sizeof_runs w'))).
Proof.
  intros E.
  assert (Hset : r = inr true -> cmake_detected w' = true).
  { intros ->. destruct (cmake_detected w) eqn:D.
    - rewrite (detect_cmake_detected w D) in E. now injection E as <-.
    - destruct (detect_cmake_undetected w D) as (_ & Ht & _).
      rewrite E in Ht. now apply Ht. }
  assert (Hlater : forall {A} (c : M A), keeps_detection c -> r = inr true ->
            detect (fst (c w')) = (fst (c w'), inr true)
            /\ cmake_root (fst (c w')) = cmake_root w').
  { intros A c Hc Hr. destruct (Hc w' (Hset Hr)) as [H1 H2].
    split; [now apply detect_cmake_detected | exact H2]. }
  split; [|split].
  - intros Hr. split; [apply detect_cmake_detected; now apply Hset|].
    split; [|split].
    + intros state args kwargs. apply Hlater; [|exact Hr].
      apply keeps_write_basic_package_version_file.
    + intros state args kwargs. apply Hlater; [|exact Hr].
      apply keeps_configure_package_config_file.
    + intros env. apply Hlater; [|exact Hr]. apply keeps_detect_voidp_size.
  - intros N. destruct (cmake_detected w) eqn:D.
    + rewrite (detect_cmake_detected w D) in E. injection E as <- <-. now elim N.
    + destruct (detect_cmake_undetected w D) as (_ & _ & Hf).
      rewrite E in Hf. simpl in Hf. destruct (Hf N) as [D' _]. split; [exact D'|].
      now apply detect_cmake_undetected.
  - intros env c Hc. unfold detect_voidp_size. now rewrite Hc.
Qed.

End Probe.

Lemma detect_cmake_keeps_success_only_witness :
  let w1 := fst (detect_cmake Sample.cmake_ok Sample.str_other Sample.w0) in
  detect_cmake Sample.cmake_ok Sample.str_other w1 = (w1, inr true)
  /\ cmake_runs w1 = 1
  /\ cmake_root w1 = Some "/usr/share/cmake-3.14".
Proof.
  split; [|split; reflexivity].
  exact (proj1 (proj1 (detect_cmake_keeps_success_only Sample.default_mode
                         Sample.open_error
                         Sample.cmake_ok Sample.str_other Sample.from_source_file
                         Sample.absolute_path Sample.relative_name
                         Sample.read_error_text Sample.w0 _ (inr true) eq_refl)
                  eq_refl)).
Defined.

(** C10, as the spec has it, fails: with a [cmake] that exits with 1,
    the second call of [detect_cmake] runs it a second time; and two
    calls of [detect_voidp_size] ask the compiler twice and may hear
    two answers. *)
Lemma failed_detection_is_not_kept :
  let d := detect_cmake Sample.cmake_failing Sample.str_other in
  let v := detect_voidp_size Sample.state in
  snd (d Sample.w0) = inr false
  /\ cmake_runs (fst (d Sample.w0)) = 1
  /\ snd (d (fst (d Sample.w0))) = inr false
  /\ cmake_runs (fst (d (fst (d Sample.w0)))) = 2
  /\ snd (v Sample.w0) = inr 8%Z
  /\ snd (v (fst (v Sample.w0))) = inr 4%Z
  /\ sizeof_runs (fst (v (fst (v Sample.w0)))) = 2.
Proof. vm_compute. repeat split. Qed.

(** ** Writing a generated file *)

Section Writing.

Variable default_mode : N.
Variable open_error : string -> option exn.

Local Abbreviation run := (fs_run default_mode open_error).
Local Abbreviation step := (fs_step default_mode open_error).

Lemma fs_run_app (a b : list fs_op) (fs : gmap string FileEntry) :
  run (a ++ b) fs
  = match run a fs with
    | (fs', None) => run b fs'
    | (fs', Some e) => (fs', Some e)
    end.
Proof.
  revert fs; induction a as [|op a IH]; intros fs; simpl; [reflexivity|].
  destruct (step op fs) as [e|fs']; [reflexivity | apply IH].
Qed.

(** The writes of [writelines] add the lines, in their order, to what
    the file holds. *)
Lemma fs_run_writes (p : string) (chunks : list string) :
  forall (fs : gmap string FileEntry) (e : FileEntry),
    fs !! p = Some e ->
    run (map (FsWrite p) chunks) fs
    = (<[p := mk_FileEntry (text e +:+ Str.concat chunks) (mode e)]> fs, None).
Proof.
  induction chunks as [|c chunks IH]; intros fs e H; simpl.
  - rewrite append_nil_r. destruct e as [t m]; simpl. now rewrite insert_id.
  - rewrite H.
    rewrite (IH _ (mk_FileEntry (text e +:+ c) (mode e))) by apply lookup_insert_eq.
    simpl. now rewrite insert_insert_eq, append_assoc.
Qed.

Lemma fs_step_elsewhere (p q : string) (op : fs_op) (fs fs' : gmap string FileEntry) :
  writes_only p op -> q <> p -> step op fs = inr fs' -> fs' !! q = fs !! q.
Proof.
  intros Hw Hq Hs. destruct op as [r|r c|s r|s r]; simpl in *; subst; try contradiction.
  - destruct (open_error p); [discriminate|]. injection Hs as <-.
    now rewrite lookup_insert_ne.
  - destruct (fs !! p); [|discriminate]. injection Hs as <-.
    now rewrite lookup_insert_ne.
  - destruct (fs !! s); [|discriminate]. destruct (fs !! p); [|discriminate].
    injection Hs as <-. now rewrite lookup_insert_ne.
Qed.

Lemma fs_run_elsewhere (p q : string) (ops : list fs_op) :
  Forall (writes_only p) ops -> q <> p ->
  forall fs, fst (run ops fs) !! q = fs !! q.
Proof.
  intros Hall Hq. induction Hall as [|op ops Hop _ IH]; intros fs; simpl; [reflexivity|].
  destruct (step op fs) as [e|fs'] eqn:E; [reflexivity|].
  rewrite IH. eapply fs_step_elsewhere; eauto.
Qed.

Lemma tmp_path_differs (outfile : string) : outfile <> outfile +:+ "~".
Proof.
  intros E. apply (f_equal String.length) in E.
  rewrite length_append in E. simpl in E. lia.
Qed.

(** All the steps but the last write to the temporary path only. *)
Lemma write_steps_split (infile outfile : string) (result : list string) :
  exists pre,
    write_steps infile outfile result = pre ++ [FsReplace (outfile +:+ "~") outfile]
    /\ Forall (writes_only (outfile +:+ "~")) pre.
Proof.
  exists ([FsOpenW (outfile +:+ "~")] ++ map (FsWrite (outfile +:+ "~")) result
          ++ [FsCopymode infile (outfile +:+ "~")]).
  split.
  - unfold write_steps, replace_if_different. now rewrite <- !app_assoc.
  - apply Forall_app; split; [repeat constructor|].
    apply Forall_app; split; [|repeat constructor].
    apply Forall_forall. intros op Hin. apply list_elem_of_In, in_map_iff in Hin.
    destruct Hin as (c & <- & _). reflexivity.
Qed.

(** Where the temporary path does not open, the run ends at its first
    step with nothing done; this is so after any number of steps. *)
Lemma write_steps_closed (infile outfile : string) (result : list string)
    (fs : gmap string FileEntry) (e : exn) (n : nat) :
  open_error (outfile +:+ "~") = Some e ->
  run (take n (write_steps infile outfile result)) fs
  = (fs, match n with 0 => None | S _ => Some e end).
Proof.
  intros H. destruct n as [|n]; [reflexivity|].
  unfold write_steps. simpl. now rewrite H.
Qed.

(** The files after all the steps but the last, and after all of them,
    where the temporary path opens. *)
Lemma write_steps_run (infile outfile : string) (result : list string)
    (fs : gmap string FileEntry) (fin : FileEntry) :
  fs !! infile = Some fin ->
  open_error (outfile +:+ "~") = None ->
  let tmp := outfile +:+ "~" in
  let full := mk_FileEntry (Str.concat result) (mode fin) in
  run (removelast (write_steps infile outfile result)) fs = (<[tmp := full]> fs, None)
  /\ run (write_steps infile outfile result) fs
     = (<[outfile := full]> (delete tmp fs), None).
Proof.
  intros Hin Hopen tmp full. fold tmp in Hopen.
  set (m0 := match fs !! tmp with Some e => mode e | None => default_mode end).
  assert (Hpre : run ([FsOpenW tmp] ++ map (FsWrite tmp) result ++ [FsCopymode infile tmp]) fs
                 = (<[tmp := full]> fs, None)).
  { rewrite fs_run_app. simpl. rewrite Hopen. fold m0.
    rewrite fs_run_app.
    rewrite (fs_run_writes tmp result _ (mk_FileEntry "" m0)) by apply lookup_insert_eq.
    simpl. rewrite insert_insert_eq, lookup_insert_eq.
    destruct (decide (infile = tmp)) as [->|Hne].
    - rewrite lookup_insert_eq. simpl. rewrite insert_insert_eq.
      unfold m0, full. now rewrite Hin.
    - rewrite lookup_insert_ne by congruence. rewrite Hin.
      now rewrite insert_insert_eq. }
  split.
  - unfold write_steps, replace_if_different. fold tmp.
    rewrite !app_assoc, removelast_last, <- !app_assoc. exact Hpre.
  - unfold write_steps, replace_if_different. fold tmp.
    rewrite !app_assoc, fs_run_app, <- !app_assoc, Hpre. simpl.
    rewrite lookup_insert_eq. now rewrite delete_insert_eq.
Qed.

End Writing.

Section Generation.

Variable default_mode : N.
Variable open_error : string -> option exn.
Variable read_error_text : string -> string.

Local Abbreviation run := (fs_run default_mode open_error).

(** C3: [create_package_file] lays the rendered lines down at the
    temporary path (the destination with a tilde behind it), gives
    that path the permission bits of the template and, as its last
    step, puts it in the place of the destination.  Whoever looks at
    the files after any number of steps finds at the destination
    either what was there before the call (nothing, if nothing was) or
    the whole generated file with the template's permission bits; this
    is so too when the temporary path does not open, and the call then
    ends in the exception of [open] with nothing written. *)
Theorem generated_file_appears_whole
    (infile outfile PACKAGE_RELATIVE_PATH extra : string)
    (confdata : gmap string (string * string)) (w : World) (fin : FileEntry) :
  files w !! infile = Some fin ->
  let tmp := outfile +:+ "~" in
  let result :=
    render (compose_package_init infile PACKAGE_RELATIVE_PATH extra) confdata
           (readlines (text fin)) in
  let full := mk_FileEntry (Str.concat result) (mode fin) in
  let steps := write_steps infile outfile result in
  steps = [FsOpenW tmp] ++ map (FsWrite tmp) result
          ++ [FsCopymode infile tmp] ++ [FsReplace tmp outfile]
  /\ (open_error tmp = None ->
      fst (run (removelast steps) (files w)) !! tmp = Some full)
  /\ (forall n, n < length steps ->
        fst (run (take n steps) (files w)) !! outfile = files w !! outfile)
  /\ (forall n,
        fst (run (take n steps) (files w)) !! outfile = files w !! outfile
        \/ fst (run (take n steps) (files w)) !! outfile = Some full)
  /\ (files w !! outfile = None ->
      forall n,
        fst (run (take n steps) (files w)) !! outfile = None
        \/ fst (run (take n steps) (files w)) !! outfile = Some full)
  /\ (open_error tmp = None ->
      create_package_file default_mode open_error read_error_text
        infile outfile PACKAGE_RELATIVE_PATH extra confdata w
      = (set_files (<[outfile := full]> (delete tmp (files w))) w, inr tt))
  /\ (forall e, open_error tmp = Some e ->
        create_package_file default_mode open_error read_error_text
          infile outfile PACKAGE_RELATIVE_PATH extra confdata w
        = (w, inl e)).
Proof.
  intros Hin tmp result full steps.
  assert (Hrun : create_package_file default_mode open_error read_error_text
                   infile outfile PACKAGE_RELATIVE_PATH extra confdata w
                 = run_plan default_mode open_error steps w).
  { unfold create_package_file, bind, get. simpl. now rewrite Hin. }
  destruct (open_error tmp) as [e|] eqn:Hopen.
  - assert (Hclosed : forall n, fst (run (take n steps) (files w)) = files w).
    { intros n. unfold steps.
      now rewrite (write_steps_closed default_mode open_error infile outfile result
                     (files w) e n Hopen). }
    split; [reflexivity|]. split; [discriminate|].
    split; [intros n _; now rewrite Hclosed|].
    split; [intros n; left; now rewrite Hclosed|].
    split; [intros Hnone n; left; now rewrite Hclosed|].
    split; [discriminate|].
    intros e' [= <-]. rewrite Hrun. unfold run_plan.
    pose proof (write_steps_closed default_mode open_error infile outfile result
                  (files w) e (length steps) Hopen) as Hall.
    fold steps in Hall. rewrite firstn_all in Hall.
    destruct (length steps) eqn:L; [discriminate L|].
    rewrite Hall. now destruct w.
  - destruct (write_steps_run default_mode open_error infile outfile result (files w) fin
                Hin Hopen) as [Hpre Hall].
    fold tmp full steps in Hpre, Hall.
    destruct (write_steps_split infile outfile result) as (pre & Hsplit & Hpre_only).
    fold tmp steps in Hsplit, Hpre_only.
    assert (Hbefore : forall n, n < length steps ->
              fst (run (take n steps) (files w)) !! outfile = files w !! outfile).
    { intros n Hn. rewrite Hsplit in Hn |- *.
      rewrite length_app in Hn. simpl in Hn.
      rewrite take_app_le by lia.
      apply fs_run_elsewhere with (p := tmp).
      - now apply Forall_take.
      - apply tmp_path_differs. }
    assert (Hany : forall n,
              fst (run (take n steps) (files w)) !! outfile = files w !! outfile
              \/ fst (run (take n steps) (files w)) !! outfile = Some full).
    { intros n. destruct (Nat.lt_ge_cases n (length steps)) as [Hn|Hn].
      - left. now apply Hbefore.
      - right. rewrite take_ge by exact Hn. rewrite Hall. simpl.
        apply lookup_insert_eq. }
    split; [reflexivity|].
    split; [intros _; rewrite Hpre; simpl; apply lookup_insert_eq|].
    split; [exact Hbefore|]. split; [exact Hany|].
    split; [intros Hnone n; destruct (Hany n) as [H|H]; [left; congruence | now right]|].
    split; [|discriminate].
    intros _. rewrite Hrun. unfold run_plan. now rewrite Hall.
Qed.

(** Without a template to read nothing is written at all. *)
Lemma create_package_file_unreadable
    (infile outfile PACKAGE_RELATIVE_PATH extra : string)
    (confdata : gmap string (string * string)) (w : World) :
  files w !! infile = None ->
  create_package_file default_mode open_error read_error_text
    infile outfile PACKAGE_RELATIVE_PATH extra confdata w
  = (w, inl (MesonException ("Could not read input file " +:+ infile +:+ ": "
                              +:+ read_error_text infile))).
Proof.
  intros H. unfold create_package_file, bind, get, raise. simpl. now rewrite H.
Qed.

(** With a template to read and a temporary path that opens, the
    method ends well and the destination holds the rendered lines under
    the template's permission bits. *)
Lemma create_package_file_runs (infile outfile rel extra : string)
    (confdata : gmap string (string * string)) (w : World) (fin : FileEntry) :
  files w !! infile = Some fin ->
  open_error (outfile +:+ "~") = None ->
  create_package_file default_mode open_error read_error_text
    infile outfile rel extra confdata w
  = (set_files
       (<[outfile :=
            mk_FileEntry
              (Str.concat (render (compose_package_init infile rel extra) confdata
                                  (readlines (text fin))))
              (mode fin)]>
          (delete (outfile +:+ "~") (files w))) w,
     inr tt).
Proof.
  intros Hin Hopen. unfold create_package_file, bind, get. cbv beta iota zeta.
  cbn [fst snd]. rewrite Hin. unfold run_plan.
  destruct (write_steps_run default_mode open_error infile outfile
              (render (compose_package_init infile rel extra) confdata
                      (readlines (text fin)))
              (files w) fin Hin Hopen) as [_ Hall].
  cbv zeta in Hall. now rewrite Hall.
Qed.

(** With a temporary path that does not open, the method ends in the
    exception of [open] and has written nothing. *)
Lemma create_package_file_closed (infile outfile rel extra : string)
    (confdata : gmap string (string * string)) (w : World) (fin : FileEntry) (e : exn) :
  files w !! infile = Some fin ->
  open_error (outfile +:+ "~") = Some e ->
  create_package_file default_mode open_error read_error_text
    infile outfile rel extra confdata w = (w, inl e).
Proof.
  intros Hin Hopen. unfold create_package_file, bind, get. cbv beta iota zeta.
  cbn [fst snd]. rewrite Hin. unfold run_plan, write_steps.
  cbn [app fs_run fs_step]. rewrite Hopen. now destruct w.
Qed.

End Generation.

Lemma generated_file_appears_whole_witness :
  let w' :=
    fst (create_package_file Sample.default_mode Sample.open_error Sample.read_error_text
           "/src/FooConfig.cmake.in" "/build/FooConfig.cmake" "../../.." "" ∅ Sample.w0) in
  option_map mode (files w' !! "/build/FooConfig.cmake") = Some 384%N
  /\ files w' !! "/build/FooConfig.cmake~" = None.
Proof.
  pose proof (generated_file_appears_whole Sample.default_mode Sample.open_error
                Sample.read_error_text
                "/src/FooConfig.cmake.in" "/build/FooConfig.cmake" "../../.." "" ∅
                Sample.w0 Sample.template eq_refl) as H.
  cbv zeta in H. destruct H as (_ & _ & _ & _ & _ & H & _).
  rewrite (H eq_refl).
  split; [reflexivity|]. simpl. rewrite lookup_insert_ne by discriminate.
  apply lookup_delete_eq.
Defined.

(** ** The version file: the compatibility mode *)

Section Version.

Variable default_mode : N.
Variable run_cmake : nat -> exn + Completed.
Variable str_other : pyval -> string.
Variable read_error_text : string -> string.

Local Abbreviation wv :=
  (write_basic_package_version_file default_mode run_cmake str_other read_error_text).
Local Abbreviation detect := (detect_cmake run_cmake str_other).

Lemma detect_cmake_files (w : World) : files (fst (detect w)) = files w.
Proof.
  unfold detect_cmake, bind, get, modify, ret, raise. simpl.
  destruct (cmake_detected w); [reflexivity|].
  destruct (run_cmake (cmake_runs w)) as [e|p]; simpl; [reflexivity|].
  destruct (negb (returncode p =? 0)%Z); simpl; [reflexivity|].
  destruct (Re.search Re.cmake_root_regex (Str.strip (stdout p))) as [m|]; simpl;
    [|reflexivity].
  destruct (OsPath.purepath_parts (default "" (Re.group1 m))); reflexivity.
Qed.

(** What the method does once the three checks of its arguments have
    passed and [cmake] has been found. *)
Lemma version_file_after_detection (state : ModuleState) (args : list pyval)
    (kwargs : gmap string pyval) (w w1 : World) (version name mode : string) :
  kwargs !! "version" = Some (PStr version) ->
  kwargs !! "name" = Some (PStr name) ->
  default (PStr "AnyNewerVersion") (kwargs !! "compatibility") = PStr mode ->
  mode ∈ COMPATIBILITIES ->
  detect w = (w1, inr true) ->
  forall pkgroot root,
    (let given := default PNone (kwargs !! "install_dir") in
     match given with
     | PNone => PStr (OsPath.join (option_libdir state) ["cmake"; name])
     | _ => given
     end) = PStr pkgroot ->
    cmake_root w1 = Some root ->
    let template_file :=
      OsPath.join root ["Modules"; "BasicConfigVersion-" +:+ mode +:+ ".cmake.in"] in
    let version_file := OsPath.join (scratch_dir state) [name +:+ "ConfigVersion.cmake"] in
    wv state args kwargs w
    = match files w1 !! template_file with
      | None =>
          (w1, inl (MesonException ("your cmake installation doesn't support the "
                                    +:+ mode +:+ " compatibility")))
      | Some _ =>
          (let* voidp := detect_voidp_size state in
           do_conf_file default_mode read_error_text template_file version_file
             (<["CMAKE_SIZEOF_VOID_P" := (py_str str_other (PInt voidp), "")]>
                (<["CVF_VERSION" := (version, "")]> ∅)) ;;
           let res := mk_Data (mk_File true (scratch_dir state) version_file) pkgroot in
           ret (mk_ModuleReturnValue res [res])) w1
      end.
Proof.
  intros Hv Hn Hc Hm Hd pkgroot root Hp Hr template_file version_file.
  unfold write_basic_package_version_file. rewrite Hv, Hn, Hc.
  rewrite bool_decide_eq_true_2 by exact Hm. cbv beta iota zeta in Hp |- *.
  unfold negb at 1. unfold bind at 1. rewrite Hd. unfold negb at 1.
  rewrite Hp. unfold bind at 1, get at 1. rewrite Hr.
  fold template_file version_file.
  destruct (files w1 !! template_file) as [t|] eqn:Ht.
  - rewrite bool_decide_eq_true_2 by (eexists; reflexivity). reflexivity.
  - rewrite bool_decide_eq_false_2 by (intros [? ?]; discriminate). reflexivity.
Qed.

(** C7: the compatibility mode is taken from the four names of
    [COMPATIBILITIES]; left out, it is [AnyNewerVersion]; a string that
    is not one of the four, or a value that is not a string, ends the
    call in a [MesonException] with the state untouched (no file
    written, [cmake] not run); a call that succeeds had one of the four;
    and each of the four, with [cmake] found, its template in place and
    a compiler to measure with, gives the version file. *)
Theorem compatibility_is_one_of_four (state : ModuleState) (args : list pyval)
    (kwargs : gmap string pyval) (w : World) :
  (kwargs !! "compatibility" = None ->
   wv state args kwargs w
   = wv state args (<["compatibility" := PStr "AnyNewerVersion"]> kwargs) w)
  /\ (forall v, kwargs !! "compatibility" = Some v ->
        (forall s, v = PStr s -> s ∉ COMPATIBILITIES) ->
        exists msg, wv state args kwargs w = (w, inl (MesonException msg)))
  /\ (forall w' res, wv state args kwargs w = (w', inr res) ->
        exists s, default (PStr "AnyNewerVersion") (kwargs !! "compatibility") = PStr s
                  /\ s ∈ COMPATIBILITIES)
  /\ (forall version name mode root tmpl c z,
        kwargs !! "version" = Some (PStr version) ->
        kwargs !! "name" = Some (PStr name) ->
        kwargs !! "compatibility" = Some (PStr mode) ->
        kwargs !! "install_dir" = None ->
        mode ∈ COMPATIBILITIES ->
        cmake_detected w = true ->
        cmake_root w = Some root ->
        files w !! OsPath.join root ["Modules"; "BasicConfigVersion-" +:+ mode +:+ ".cmake.in"]
          = Some tmpl ->
        host_compilers state !! "c" = Some c ->
        sizeof c "void *" "" (sizeof_runs w) = inr z ->
        exists w' res,
          wv state args kwargs w = (w', inr res)
          /\ is_Some (files w' !! OsPath.join (scratch_dir state) [name +:+ "ConfigVersion.cmake"])).
Proof.
  split; [|split; [|split]].
  - intros H. unfold write_basic_package_version_file.
    rewrite (lookup_insert_ne kwargs "compatibility" "version") by discriminate.
    rewrite (lookup_insert_ne kwargs "compatibility" "name") by discriminate.
    rewrite (lookup_insert_ne kwargs "compatibility" "install_dir") by discriminate.
    rewrite lookup_insert_eq, H. reflexivity.
  - intros v Hv Hbad. unfold write_basic_package_version_file. rewrite Hv. simpl.
    destruct (kwargs !! "version") as [[]|]; try (eexists; reflexivity).
    destruct (kwargs !! "name") as [[]|]; try (eexists; reflexivity).
    destruct v; try (eexists; reflexivity).
    rewrite bool_decide_eq_false_2 by (now apply Hbad). eexists; reflexivity.
  - intros w' res H. unfold write_basic_package_version_file in H.
    destruct (kwargs !! "version") as [[]|]; try discriminate.
    destruct (kwargs !! "name") as [[]|]; try discriminate.
    destruct (default (PStr "AnyNewerVersion") (kwargs !! "compatibility")) as [| | |m| | |];
      try discriminate.
    exists m. split; [reflexivity|].
    destruct (bool_decide (m ∈ COMPATIBILITIES)) eqn:B; [|discriminate].
    now apply bool_decide_eq_true_1 in B.
  - intros version name mode root tmpl c z Hv Hn Hc Hi Hm Hd Hr Ht Hcc Hz.
    rewrite (version_file_after_detection state args kwargs w w version name mode
               Hv Hn (f_equal _ Hc) Hm (detect_cmake_detected _ _ w Hd) _ root
               (f_equal (fun o => let given := default PNone o in
                                  match given with
                                  | PNone => _
                                  | _ => given
                                  end) Hi) Hr).
    cbv zeta.
    match goal with
    | |- context [files w !! ?k] =>
        replace (files w !! k) with (Some tmpl) by (symmetry; exact Ht)
    end.
    unfold bind at 1. unfold detect_voidp_size. rewrite Hcc.
    cbv beta iota zeta. rewrite Hz.
    unfold bind at 1. unfold do_conf_file, bind at 1, get at 1.
    cbv beta iota zeta. change (files (count_sizeof_run w)) with (files w).
    match goal with
    | |- context [files w !! ?k] =>
        replace (files w !! k) with (Some tmpl) by (symmetry; exact Ht)
    end.
    unfold run_plan. change (files (count_sizeof_run w)) with (files w).
    destruct (write_steps_run default_mode (fun _ => None) _
                (OsPath.join (scratch_dir state) [name +:+ "ConfigVersion.cmake"])
                (map (fun line => fst (do_replacement Re.placeholder_regex line
                        (<["CMAKE_SIZEOF_VOID_P" := (py_str str_other (PInt z), "")]>
                           (<["CVF_VERSION" := (version, "")]> ∅))))
                     (readlines (text tmpl)))
                (files w) tmpl Ht eq_refl) as [_ Hall].
    cbv zeta in Hall. rewrite Hall.
    eexists _, _. split; [reflexivity|].
    cbn [files set_files fst]. rewrite lookup_insert_eq. eexists; reflexivity.
Qed.

(** C8, as the code has it: with a version and a name that are strings,
    one of the four modes (given or by default), [cmake] found, and an
    install directory that is left out, [None] or a string, a template
    [Modules/BasicConfigVersion-<mode>.cmake.in] that is not there under
    the root of [cmake] ends the call in the [MesonException]
    [your cmake installation doesn't support the <mode> compatibility];
    the message names the mode and no file has been touched. *)
Theorem missing_template_names_the_mode (state : ModuleState) (args : list pyval)
    (kwargs : gmap string pyval) (w w1 : World) (version name mode root : string) :
  kwargs !! "version" = Some (PStr version) ->
  kwargs !! "name" = Some (PStr name) ->
  default (PStr "AnyNewerVersion") (kwargs !! "compatibility") = PStr mode ->
  mode ∈ COMPATIBILITIES ->
  detect w = (w1, inr true) ->
  cmake_root w1 = Some root ->
  (kwargs !! "install_dir" = None \/ kwargs !! "install_dir" = Some PNone
   \/ exists d, kwargs !! "install_dir" = Some (PStr d)) ->
  files w1 !! OsPath.join root ["Modules"; "BasicConfigVersion-" +:+ mode +:+ ".cmake.in"]
    = None ->
  let msg := "your cmake installation doesn't support the " +:+ mode +:+ " compatibility" in
  wv state args kwargs w = (w1, inl (MesonException msg))
  /\ Str.contains mode msg = true
  /\ files w1 = files w.
Proof.
  intros Hv Hn Hc Hm Hd Hr Hi Ht msg.
  assert (Hp : exists pkgroot,
             (let given := default PNone (kwargs !! "install_dir") in
              match given with
              | PNone => PStr (OsPath.join (option_libdir state) ["cmake"; name])
              | _ => given
              end) = PStr pkgroot).
  { destruct Hi as [-> | [-> | [d ->]]]; eexists; reflexivity. }
  destruct Hp as [pkgroot Hp].
  split; [|split].
  - rewrite (version_file_after_detection state args kwargs w w1 version name mode
               Hv Hn Hc Hm Hd pkgroot root Hp Hr).
    cbv zeta.
    match goal with
    | |- context [files w1 !! ?k] =>
        replace (files w1 !! k) with (@None FileEntry) by (symmetry; exact Ht)
    end.
    reflexivity.
  - apply contains_append.
  - pose proof (detect_cmake_files w) as F. now rewrite Hd in F.
Qed.

End Version.

Lemma compatibility_is_one_of_four_witness :
  let wv := write_basic_package_version_file Sample.default_mode Sample.cmake_ok
              Sample.str_other Sample.read_error_text in
  let kwargs : gmap string pyval :=
    <["version" := PStr "1.2.3"]>
      (<["name" := PStr "Foo"]> (<["compatibility" := PStr "SameMajorVersion"]> ∅)) in
  let w1 := fst (detect_cmake Sample.cmake_ok Sample.str_other Sample.w0) in
  exists w' res,
    wv Sample.state [] kwargs w1 = (w', inr res)
    /\ is_Some (files w' !! "/build/meson-private/FooConfigVersion.cmake").
Proof.
  intros wv kwargs w1.
  refine (proj2 (proj2 (proj2
    (compatibility_is_one_of_four Sample.default_mode Sample.cmake_ok Sample.str_other
       Sample.read_error_text Sample.state [] kwargs w1)))
    "1.2.3" "Foo" "SameMajorVersion" "/usr/share/cmake-3.14" Sample.version_template
    Sample.cc 8%Z _ _ _ _ _ _ _ _ _ _); try reflexivity.
  repeat constructor.
Defined.

Lemma missing_template_names_the_mode_witness :
  let kwargs : gmap string pyval :=
    <["version" := PStr "1.2.3"]>
      (<["name" := PStr "Foo"]> (<["compatibility" := PStr "ExactVersion"]> ∅)) in
  snd (write_basic_package_version_file Sample.default_mode Sample.cmake_ok
         Sample.str_other Sample.read_error_text Sample.state [] kwargs Sample.w0)
  = inl (MesonException "your cmake installation doesn't support the ExactVersion compatibility").
Proof.
  intros kwargs.
  refine (f_equal snd (proj1
    (missing_template_names_the_mode Sample.default_mode Sample.cmake_ok Sample.str_other
       Sample.read_error_text Sample.state [] kwargs Sample.w0
       (fst (detect_cmake Sample.cmake_ok Sample.str_other Sample.w0))
       "1.2.3" "Foo" "ExactVersion" "/usr/share/cmake-3.14" _ _ _ _ _ _ _ _)));
    try reflexivity.
  - repeat constructor.
  - left. reflexivity.
Defined.

(** C8, as the spec has it, fails: with the mode [ExactVersion], [cmake]
    found and no template for the mode, an install directory that is a
    number ends the call in [Install_dir must be a string.], which does
    not name the mode. *)
Lemma missing_template_behind_install_dir_check :
  let kwargs : gmap string pyval :=
    <["version" := PStr "1.2.3"]>
      (<["name" := PStr "Foo"]>
         (<["compatibility" := PStr "ExactVersion"]> (<["install_dir" := PInt 5]> ∅))) in
  let r := write_basic_package_version_file Sample.default_mode Sample.cmake_ok
             Sample.str_other Sample.read_error_text Sample.state [] kwargs Sample.w0 in
  snd r = inl (MesonException "Install_dir must be a string.")
  /\ cmake_detected (fst r) = true
  /\ cmake_root (fst r) = Some "/usr/share/cmake-3.14"
  /\ files (fst r) !! "/usr/share/cmake-3.14/Modules/BasicConfigVersion-ExactVersion.cmake.in"
     = None
  /\ Str.contains "ExactVersion" "Install_dir must be a string." = false.
Proof. vm_compute. repeat split. Qed.

(** ** The package config file: the install directory *)

Section Configure.

Variable default_mode : N.
Variable open_error : string -> option exn.
Variable str_other : pyval -> string.
Variable from_source_file :
  gmap string FileEntry -> string -> string -> string -> exn + File.
Variable absolute_path : File -> string -> string -> string.
Variable relative_name : File -> string.
Variable read_error_text : string -> string.

Local Abbreviation cfg :=
  (configure_package_config_file default_mode open_error str_other from_source_file
     absolute_path relative_name read_error_text).

Local Abbreviation input := (input_file from_source_file).
Local Abbreviation from :=
  (configure_from default_mode open_error str_other absolute_path relative_name read_error_text).

Ltac run_monad := unfold bind, ret, raise, get, lift, read_local; cbv beta iota zeta.
Ltac run_monad_in H :=
  unfold bind, ret, raise, get, lift, read_local in H; cbv beta iota zeta in H.

(** Finding the input file leaves the state as it is. *)
Lemma input_file_pure (state : ModuleState) (kwargs : gmap string pyval) (w : World) :
  fst (input state kwargs w) = w.
Proof.
  unfold input_file.
  destruct (kwargs !! "input") as [i|]; [|reflexivity].
  destruct i as [| | |s|[|x [|y l]]|f|]; run_monad; try reflexivity.
  destruct x as [| | |s| |f|]; run_monad; reflexivity.
Qed.

Lemma input_file_usable (state : ModuleState) (kwargs : gmap string pyval) (w : World)
    (i : pyval) :
  kwargs !! "input" = Some i ->
  usable_input from_source_file state w i ->
  exists f, input state kwargs w = (w, inr f).
Proof.
  intros Hi Hu. unfold input_file. rewrite Hi.
  destruct i as [| | |s|[|x [|y l]]|f|]; simpl in Hu; try contradiction; run_monad.
  - destruct Hu as [f ->]. now exists f.
  - destruct x as [| | |s| |f|]; simpl in Hu; try contradiction; run_monad.
    + destruct Hu as [f ->]. now exists f.
    + now exists f.
  - now exists f.
Qed.

(** With [install_dir] among the keywords, line 249 reads a local that
    no line has assigned. *)
Lemma configure_from_unbound (state : ModuleState) (kwargs : gmap string pyval)
    (inputfile : File) (w : World) (v : pyval) :
  kwargs !! "install_dir" = Some v ->
  (exists e, from state kwargs inputfile w = (w, inl e))
  /\ (forall name, kwargs !! "name" = Some name ->
      from state kwargs inputfile w = (w, inl (UnboundLocalError "install_dir"))).
Proof.
  intros H. unfold configure_from. rewrite H.
  destruct (kwargs !! "name") as [n|].
  - destruct (OsPath.split _). run_monad. split; [eexists; reflexivity|].
    intros; reflexivity.
  - split; [eexists; reflexivity|]. intros; discriminate.
Qed.

(** C2, as the code has it: with [install_dir] among the keywords the
    call ends in an exception with the state untouched, so no file is
    written; what it ends in does not depend on the value given; and
    once the checks of the lines before (no positional argument, an
    input that gives a file, a name) have passed, the exception is the
    [UnboundLocalError] of the local [install_dir].  A call that
    succeeds had no [install_dir], and installs to
    [<libdir>/cmake/<name>]. *)
Theorem install_dir_given_is_unbound (state : ModuleState) (args : list pyval)
    (kwargs : gmap string pyval) (w : World) :
  (forall v, kwargs !! "install_dir" = Some v ->
     (exists e, cfg state args kwargs w = (w, inl e))
     /\ (forall v', cfg state args (<["install_dir" := v']> kwargs) w
                   = cfg state args kwargs w)
     /\ (forall i name,
           args = [] ->
           kwargs !! "input" = Some i ->
           usable_input from_source_file state w i ->
           kwargs !! "name" = Some name ->
           cfg state args kwargs w = (w, inl (UnboundLocalError "install_dir"))))
  /\ (forall w' res,
        cfg state args kwargs w = (w', inr res) ->
        kwargs !! "install_dir" = None
        /\ exists name, kwargs !! "name" = Some (PStr name)
                        /\ data_install_dir res
                           = OsPath.join (option_libdir state) ["cmake"; name]).
Proof.
  assert (Hfail : forall v, kwargs !! "install_dir" = Some v ->
            exists e, cfg state args kwargs w = (w, inl e)).
  { intros v H. unfold configure_package_config_file.
    destruct args; [|eexists; reflexivity].
    unfold bind. pose proof (input_file_pure state kwargs w) as P.
    destruct (input state kwargs w) as [w1 [e|f]]; simpl in P; subst w1.
    - eexists; reflexivity.
    - apply (proj1 (configure_from_unbound state kwargs f w v H)). }
  split.
  - intros v H. split; [now apply (Hfail v)|]. split.
    + intros v'. unfold configure_package_config_file, input_file, configure_from.
      rewrite (lookup_insert_ne kwargs "install_dir" "input") by discriminate.
      rewrite (lookup_insert_ne kwargs "install_dir" "name") by discriminate.
      rewrite (lookup_insert_ne kwargs "install_dir" "configuration") by discriminate.
      rewrite lookup_insert_eq, H. reflexivity.
    + intros i name -> Hi Hu Hn. unfold configure_package_config_file, bind.
      destruct (input_file_usable state kwargs w i Hi Hu) as [f ->].
      apply (proj2 (configure_from_unbound state kwargs f w v H) name Hn).
  - intros w' res H.
    destruct (kwargs !! "install_dir") as [v|] eqn:Hv.
    { destruct (Hfail v eq_refl) as [e He]. congruence. }
    split; [reflexivity|].
    unfold configure_package_config_file in H.
    destruct args; [|discriminate].
    unfold bind at 1 in H.
    destruct (input state kwargs w) as [w1 [e|f]]; [discriminate|].
    unfold configure_from in H. rewrite Hv in H.
    destruct (kwargs !! "name") as [n|]; [|discriminate].
    destruct (OsPath.split _) as [ofile_path ofile_fname].
    destruct n as [| | |name| | |]; try discriminate.
    exists name. split; [reflexivity|].
    run_monad_in H.
    destruct (kwargs !! "configuration") as [[| | | | | |conf_id conf]|]; try discriminate.
    run_monad_in H.
    destruct (resolve_install_path _ _ _) as [e|[rel extra]]; [discriminate|].
    destruct (create_package_file _ _ _ _ _ _ _ _) as [w2 [e|[]]]; [discriminate|].
    unfold modify in H. cbv beta iota zeta in H.
    destruct (bool_decide _); cbv beta iota zeta in H; injection H as _ <-; reflexivity.
Qed.

End Configure.

Lemma install_dir_given_is_unbound_witness :
  let kwargs : gmap string pyval :=
    <["input" := PStr "FooConfig.cmake.in"]>
      (<["name" := PStr "Foo"]>
         (<["configuration" := PConf 1 ∅]> (<["install_dir" := PStr "lib/cmake/Foo"]> ∅))) in
  configure_package_config_file Sample.default_mode Sample.open_error Sample.str_other
    Sample.from_source_file Sample.absolute_path Sample.relative_name
    Sample.read_error_text Sample.state [] kwargs Sample.w0
  = (Sample.w0, inl (UnboundLocalError "install_dir")).
Proof.
  intros kwargs.
  refine (proj2 (proj2 (proj1
    (install_dir_given_is_unbound Sample.default_mode Sample.open_error Sample.str_other
       Sample.from_source_file Sample.absolute_path Sample.relative_name
       Sample.read_error_text Sample.state [] kwargs Sample.w0)
    (PStr "lib/cmake/Foo") eq_refl))
    (PStr "FooConfig.cmake.in") (PStr "Foo") eq_refl eq_refl _ eq_refl).
  exists (mk_File false "" "FooConfig.cmake.in"). reflexivity.
Defined.

(** C2, as the spec has it, fails: a call with [install_dir] and
    without [input] ends in the [MesonException] of line 226, not in
    an [UnboundLocalError]. *)
Lemma install_dir_given_without_input :
  let kwargs : gmap string pyval := <["install_dir" := PStr "lib/cmake/Foo"]> ∅ in
  kwargs !! "install_dir" = Some (PStr "lib/cmake/Foo")
  /\ snd (configure_package_config_file Sample.default_mode Sample.open_error Sample.str_other
            Sample.from_source_file Sample.absolute_path Sample.relative_name
            Sample.read_error_text Sample.state [] kwargs Sample.w0)
     = inl (MesonException ("configure_package_config_file requires " +:+ Str.dq
                            +:+ "input" +:+ Str.dq +:+ " keyword."))
  /\ snd (configure_package_config_file Sample.default_mode Sample.open_error Sample.str_other
            Sample.from_source_file Sample.absolute_path Sample.relative_name
            Sample.read_error_text Sample.state [] kwargs Sample.w0)
     <> inl (UnboundLocalError "install_dir").
Proof. vm_compute. repeat split. discriminate. Qed.

(** ** The scan of a line *)

Section Scan.

Variable regex : Re.pattern.
Variable repl : Re.re_match -> string * list string.

Lemma sub_from_skip (pre rest : string) :
  Re.sub_from regex repl (String.length pre) (pre +:+ rest)
  = Re.sub_from regex repl 0 rest.
Proof. induction pre as [|c pre IH]; simpl; [reflexivity | exact IH]. Qed.

(** Where the pattern matches, the match is replaced and the scan goes
    on behind it. *)
Lemma sub_match_head (g rest : string) (m : Re.re_match) :
  g <> "" ->
  regex (g +:+ rest) = Some m ->
  Re.group0 m = g ->
  Re.sub regex repl (g +:+ rest)
  = (fst (repl m) +:+ fst (Re.sub regex repl rest),
     snd (repl m) ++ snd (Re.sub regex repl rest)).
Proof.
  intros Hg Hm H0. unfold Re.sub.
  destruct g as [|c g]; [contradiction|]. simpl.
  change (String c (g +:+ rest)) with (String c g +:+ rest). rewrite Hm, H0. simpl.
  rewrite sub_from_skip.
  destruct (repl m) as [r names]. destruct (Re.sub_from regex repl 0 rest). reflexivity.
Qed.

(** Where it does not, the character is kept. *)
Lemma sub_nomatch_head (c : ascii) (s : string) :
  regex (String c s) = None ->
  Re.sub regex repl (String c s)
  = (String c (fst (Re.sub regex repl s)), snd (Re.sub regex repl s)).
Proof.
  intros H. unfold Re.sub. simpl. rewrite H.
  destruct (Re.sub_from regex repl 0 s). reflexivity.
Qed.

(** A stretch on which the pattern matches nowhere is kept as it is. *)
Lemma sub_plain (lit rest : string) :
  (forall a c b, lit = a +:+ String c b -> regex (String c (b +:+ rest)) = None) ->
  Re.sub regex repl (lit +:+ rest)
  = (lit +:+ fst (Re.sub regex repl rest), snd (Re.sub regex repl rest)).
Proof.
  intros H. induction lit as [|c lit IH]; simpl.
  - now destruct (Re.sub regex repl rest).
  - rewrite sub_nomatch_head by (apply (H "" c lit); reflexivity).
    rewrite IH; [reflexivity|].
    intros a d b E. apply (H (String c a) d b). simpl. now rewrite E.
Qed.


End Scan.

(** ** What the pattern of [create_package_file] recognises *)


Lemma alt_pairs_plain (c : ascii) (s : string) :
  Ascii.eqb c "\" = false -> Re.alt_pairs (String c s) = None.
Proof. intros H. destruct s; simpl; [reflexivity | now rewrite H]. Qed.

Lemma regex_plain (c : ascii) (s : string) :
  Ascii.eqb c "\" = false -> Ascii.eqb c "@" = false ->
  Re.placeholder_regex (String c s) = None.
Proof.
  intros Hb Ha. unfold Re.placeholder_regex.
  rewrite (alt_pairs_plain c s Hb).
  unfold Re.alt_escaped, Re.alt_token. simpl.
  rewrite (Ascii.eqb_sym _ c), Hb, Ha. reflexivity.
Qed.

Lemma plus_then_stop (cls : ascii -> bool) (k : string -> bool) (s : string) :
  match s with String c _ => cls c = false | "" => True end ->
  Re.plus_then cls k s = None.
Proof. destruct s as [|c s]; simpl; [reflexivity|]. now intros ->. Qed.

(** The class taken as often as it goes, when what follows is not of
    the class and is accepted. *)
Lemma plus_then_complete (cls : ascii -> bool) (k : string -> bool) (g rest : string) :
  g <> "" -> all_chars cls g = true ->
  match rest with String c _ => cls c = false | "" => True end ->
  k rest = true ->
  Re.plus_then cls k (g +:+ rest) = Some g.
Proof.
  intros Hg Hall Hstop Hk. induction g as [|c g IH]; [contradiction|].
  simpl in Hall. apply andb_true_iff in Hall as [Hc Hall]. simpl. rewrite Hc.
  destruct g as [|d g].
  - simpl. now rewrite (plus_then_stop cls k rest Hstop), Hk.
  - now rewrite IH.
Qed.

Lemma plus_then_sound (cls : ascii -> bool) (k : string -> bool) (s g : string) :
  Re.plus_then cls k s = Some g ->
  g <> "" /\ all_chars cls g = true /\ exists r, s = g +:+ r /\ k r = true.
Proof.
  revert g; induction s as [|c s IH]; intros g H; simpl in H; [discriminate|].
  destruct (cls c) eqn:Hc; [|discriminate].
  destruct (Re.plus_then cls k s) as [n|] eqn:E.
  - injection H as <-. destruct (IH n eq_refl) as (_ & Hall & r & -> & Hk).
    split; [discriminate|]. split; [simpl; now rewrite Hc|]. now exists r.
  - destruct (k s) eqn:Hk; [|discriminate]. injection H as <-.
    split; [discriminate|]. split; [simpl; now rewrite Hc|]. now exists s.
Qed.


Lemma backslashes_two (n : nat) :
  backslashes (2 + n) = String "\" (String "\" (backslashes n)).
Proof. reflexivity. Qed.



Lemma alt_pairs_sound (n : nat) :
  forall s m, String.length s <= n -> Re.alt_pairs s = Some m ->
    exists k r, 1 <= k /\ m = 2 * k /\ s = backslashes (2 * k) +:+ r
                /\ Re.lookahead_at r = true.
Proof.
  induction n as [|n IH]; intros s m Hlen H.
  - destruct s; [discriminate | simpl in Hlen; lia].
  - destruct s as [|a [|b rest]]; try discriminate. simpl in H, Hlen.
    destruct (Ascii.eqb a "\") eqn:Ea; [|discriminate].
    destruct (Ascii.eqb b "\") eqn:Eb; [|discriminate]. simpl in H.
    apply Ascii.eqb_eq in Ea, Eb. subst a b.
    destruct (Re.alt_pairs rest) as [p|] eqn:E.
    + injection H as <-.
      destruct (IH rest p ltac:(lia) E) as (k & r & Hk & -> & -> & Hr).
      exists (S k), r. split; [lia|]. split; [lia|]. split; [|exact Hr].
      replace (2 * S k) with (2 + 2 * k) by lia. now rewrite backslashes_two.
    + destruct (Re.lookahead_at rest) eqn:Hr; [|discriminate]. injection H as <-.
      exists 1, rest. repeat split; try lia. exact Hr.
Qed.

Lemma length_backslashes (n : nat) : String.length (backslashes n) = n.
Proof.
  unfold backslashes. induction n as [|n IH]; simpl; [reflexivity | now rewrite IH].
Qed.

Lemma take_append (a b : string) : Str.take (String.length a) (a +:+ b) = a.
Proof. induction a as [|c a IH]; simpl; [now destruct b | now rewrite IH]. Qed.



Lemma endswith_append_char (c d : ascii) (s : string) :
  Str.endswith_char c (s +:+ String d "") = Ascii.eqb d c.
Proof.
  induction s as [|a s IH]; [reflexivity|].
  simpl. rewrite IH. now destruct s.
Qed.

Lemma take_backslashes (n : nat) (r : string) :
  Str.take n (backslashes n +:+ r) = backslashes n.
Proof.
  pose proof (take_append (backslashes n) r) as T. now rewrite length_backslashes in T.
Qed.




Lemma regex_escaped (r : string) :
  Re.placeholder_regex ("\@" +:+ r) = Some (Re.mk_match "\@" None).
Proof. reflexivity. Qed.

Lemma regex_token (name r : string) :
  valid_name name ->
  Re.placeholder_regex ("@" +:+ name +:+ "@" +:+ r)
  = Some (Re.mk_match ("@" +:+ name +:+ "@") (Some name)).
Proof.
  intros [Hne Hall]. unfold Re.placeholder_regex.
  change ("@" +:+ name +:+ "@" +:+ r) with (String "@" (name +:+ "@" +:+ r)).
  rewrite alt_pairs_plain by reflexivity.
  change (Re.alt_escaped (String "@" (name +:+ "@" +:+ r))) with false.
  change (Re.alt_token (String "@" (name +:+ "@" +:+ r)))
    with (Re.name_then_at (name +:+ "@" +:+ r)).
  unfold Re.name_then_at.
  now rewrite (plus_then_complete Re.is_name_char (Str.startswith "@") name ("@" +:+ r)).
Qed.

(** What the pattern finds is one of its three alternatives, an
    earlier one shutting out the later ones. *)
Lemma regex_sound (s : string) (m : Re.re_match) :
  Re.placeholder_regex s = Some m ->
  (exists k r, 1 <= k /\ s = backslashes (2 * k) +:+ r /\ Re.lookahead_at r = true
               /\ m = Re.mk_match (backslashes (2 * k)) None)
  \/ (Re.alt_pairs s = None
      /\ exists r, s = "\@" +:+ r /\ m = Re.mk_match "\@" None)
  \/ (Re.alt_pairs s = None /\ Re.alt_escaped s = false
      /\ exists name r, valid_name name /\ s = "@" +:+ name +:+ "@" +:+ r
                        /\ m = Re.mk_match ("@" +:+ name +:+ "@") (Some name)).
Proof.
  unfold Re.placeholder_regex. intros H.
  destruct (Re.alt_pairs s) as [n|] eqn:Ep.
  - left. destruct (alt_pairs_sound (String.length s) s n (le_n _) Ep)
      as (k & r & Hk & -> & -> & Hr).
    exists k, r. repeat split; try assumption.
    injection H as <-. now rewrite take_backslashes.
  - right. destruct (Re.alt_escaped s) eqn:Ee.
    + left. split; [reflexivity|]. injection H as <-.
      apply startswith_inv in Ee as [r ->]. now exists r.
    + right. split; [reflexivity|]. split; [reflexivity|].
      destruct (Re.alt_token s) as [name|] eqn:Et; [|discriminate].
      injection H as <-. unfold Re.alt_token in Et.
      destruct s as [|c s]; [discriminate|].
      destruct (Ascii.eqb c "@") eqn:Ec; [|discriminate].
      apply Ascii.eqb_eq in Ec; subst c.
      destruct (plus_then_sound _ _ _ _ Et) as (Hne & Hall & r & -> & Hk).
      apply startswith_inv in Hk as [r' ->].
      exists name, r'. repeat split; assumption.
Qed.

Section Rendering.

Variable confdata : gmap string (string * string).

Local Abbreviation scan := (fun line => do_replacement Re.placeholder_regex line confdata).


Lemma scan_escaped (r : string) :
  scan ("\@" +:+ r) = ("@" +:+ fst (scan r), snd (scan r)).
Proof.
  unfold do_replacement.
  now rewrite (sub_match_head _ _ "\@" r _ ltac:(discriminate) (regex_escaped r) eq_refl).
Qed.

Lemma token_is_no_escape (name : string) :
  Str.endswith_char "\" ("@" +:+ name +:+ "@") = false.
Proof.
  change ("@" +:+ name +:+ "@") with (("@" +:+ name) +:+ "@").
  now rewrite endswith_append_char.
Qed.

(** A token the mapping knows comes out as its value. *)
Lemma scan_token_known (name r value desc : string) :
  valid_name name ->
  confdata !! name = Some (value, desc) ->
  scan ("@" +:+ name +:+ "@" +:+ r) = (value +:+ fst (scan r), snd (scan r)).
Proof.
  intros Hn Hv. unfold do_replacement.
  replace ("@" +:+ name +:+ "@" +:+ r) with (("@" +:+ name +:+ "@") +:+ r)
    by (simpl; now rewrite append_assoc).
  rewrite (sub_match_head _ _ ("@" +:+ name +:+ "@") r
             (Re.mk_match ("@" +:+ name +:+ "@") (Some name))); try reflexivity;
    [|discriminate|].
  - unfold variable_replace. cbn [Re.group0 Re.group1].
    rewrite token_is_no_escape.
    change (String.eqb ("@" +:+ name +:+ "@") "\@") with false. cbv iota.
    now rewrite Hv.
  - replace (("@" +:+ name +:+ "@") +:+ r) with ("@" +:+ name +:+ "@" +:+ r)
      by (simpl; now rewrite append_assoc).
    now apply regex_token.
Qed.



Lemma scan_plain (lit r : string) :
  all_chars (fun c => negb (Ascii.eqb c "\") && negb (Ascii.eqb c "@")) lit = true ->
  scan (lit +:+ r) = (lit +:+ fst (scan r), snd (scan r)).
Proof.
  intros H. unfold do_replacement. apply sub_plain.
  intros a c b ->. apply regex_plain.
  - induction a as [|x a IH]; simpl in H; apply andb_true_iff in H as [H1 H2].
    + apply andb_true_iff in H1 as [H1 _]. now apply negb_true_iff in H1.
    + now apply IH.
  - induction a as [|x a IH]; simpl in H; apply andb_true_iff in H as [H1 H2].
    + apply andb_true_iff in H1 as [_ H1]. now apply negb_true_iff in H1.
    + now apply IH.
Qed.


End Rendering.

Lemma replace_absent (old new s : string) :
  old <> "" -> Str.contains old s = false -> Str.replace old new s = s.
Proof.
  intros Hold. unfold Str.replace. destruct old as [|a old]; [contradiction|].
  induction s as [|c s IH]; [reflexivity|].
  intros H. simpl in H. apply orb_false_iff in H as [H1 H2].
  simpl. simpl in H1. rewrite H1. now rewrite IH.
Qed.






(** ** Tokens the mapping does not know *)


Section Missing.

Variable default_mode : N.
Variable open_error : string -> option exn.
Variable read_error_text : string -> string.


End Missing.



(** ** The reserved placeholder *)

Lemma replace_from_skip (old new pre rest : string) :
  Str.replace_from old new (String.length pre) (pre +:+ rest)
  = Str.replace_from old new 0 rest.
Proof. induction pre as [|c pre IH]; simpl; [reflexivity | exact IH]. Qed.

(** The first occurrence is replaced by the new text as it is, and the
    search goes on behind the occurrence. *)
Lemma replace_first (a : ascii) (old' new pre post : string) :
  all_chars (fun c => negb (Ascii.eqb c a)) pre = true ->
  Str.replace (String a old') new (pre +:+ String a old' +:+ post)
  = pre +:+ new +:+ Str.replace (String a old') new post.
Proof.
  intros H. unfold Str.replace. induction pre as [|c pre IH].
  - change ("" +:+ String a old' +:+ post) with (String a (old' +:+ post)).
    change ("" +:+ new +:+ Str.replace_from (String a old') new 0 post)
      with (new +:+ Str.replace_from (String a old') new 0 post).
    unfold Str.replace_from at 1; fold Str.replace_from.
    change (String a (old' +:+ post)) with (String a old' +:+ post).
    rewrite startswith_append.
    change (String.length (String a old') - 1) with (String.length old' - 0).
    rewrite Nat.sub_0_r. now rewrite replace_from_skip.
  - simpl in H. apply andb_true_iff in H as [Hc H].
    apply negb_true_iff in Hc.
    change (String c pre +:+ String a old' +:+ post)
      with (String c (pre +:+ String a old' +:+ post)).
    unfold Str.replace_from at 1; fold Str.replace_from.
    change (Str.startswith (String a old') (String c (pre +:+ String a old' +:+ post)))
      with (if Ascii.eqb a c
            then Str.startswith old' (pre +:+ String a old' +:+ post) else false).
    rewrite Ascii.eqb_sym, Hc. rewrite (IH H). reflexivity.
Qed.

Lemma compose_package_init_parts (infile PACKAGE_RELATIVE_PATH extra : string) :
  compose_package_init infile PACKAGE_RELATIVE_PATH extra
  = PACKAGE_INIT_HEAD +:+ infile +:+ package_init_tail infile PACKAGE_RELATIVE_PATH extra.
Proof.
  unfold compose_package_init, package_init_tail.
  set (rest := " ########" +:+ Str.nl +:+ Str.nl +:+
     "get_filename_component(PACKAGE_PREFIX_DIR " +:+ Str.dq +:+
     "${CMAKE_CURRENT_LIST_DIR}/" +:+ PACKAGE_RELATIVE_PATH +:+ Str.dq +:+ " ABSOLUTE)" +:+ Str.nl).
  assert (E : Str.replace "@inputFileName@" infile
                (Str.replace "@PACKAGE_RELATIVE_PATH@" PACKAGE_RELATIVE_PATH PACKAGE_INIT_BASE)
              = PACKAGE_INIT_HEAD +:+ infile +:+ Str.replace "@inputFileName@" infile rest).
  { subst rest. vm_compute. reflexivity. }
  rewrite E.
  rewrite (append_assoc (PACKAGE_INIT_HEAD +:+ infile +:+ Str.replace "@inputFileName@" infile rest)
             extra PACKAGE_INIT_SET_AND_CHECK).
  rewrite (append_assoc PACKAGE_INIT_HEAD
             (infile +:+ Str.replace "@inputFileName@" infile rest)
             (extra +:+ PACKAGE_INIT_SET_AND_CHECK)).
  now rewrite (append_assoc infile (Str.replace "@inputFileName@" infile rest)
                 (extra +:+ PACKAGE_INIT_SET_AND_CHECK)).
Qed.

(** The head of the block is written for the scan: its two escaped
    [@]s come out as [@]s, and the scan goes on into what follows. *)
Lemma scan_package_init_head (confdata : gmap string (string * string)) (x : string) :
  do_replacement Re.placeholder_regex (PACKAGE_INIT_HEAD +:+ x) confdata
  = (PACKAGE_INIT_HEAD_SCANNED +:+ fst (do_replacement Re.placeholder_regex x confdata),
     snd (do_replacement Re.placeholder_regex x confdata)).
Proof.
  set (l1 := Str.nl +:+ "####### Expanded from ").
  set (l3 := " by configure_package_config_file() #######" +:+ Str.nl +:+
             "####### Any changes to this file will be overwritten by the next CMake run ####"
             +:+ Str.nl +:+ "####### The input file was ").
  change (PACKAGE_INIT_HEAD +:+ x)
    with (l1 +:+ "\@" +:+ "PACKAGE_INIT" +:+ "\@" +:+ l3 +:+ x).
  rewrite (scan_plain confdata l1) by reflexivity.
  rewrite scan_escaped.
  rewrite (scan_plain confdata "PACKAGE_INIT") by reflexivity.
  rewrite scan_escaped.
  rewrite (scan_plain confdata l3) by reflexivity.
  reflexivity.
Qed.

(** C4, as the code has it: on every line the reserved placeholder is
    replaced as text, the block going in as it is and the search going
    on behind the occurrence, before the scan runs on the line; the
    scan then runs over the line with the block in it, so that the
    block is scanned with the rest: its head loses its escapes, and
    the scan goes on into the input file name, where a placeholder the
    mapping knows is replaced by its value. *)
Theorem package_init_is_expanded_then_scanned
    (infile PACKAGE_RELATIVE_PATH extra : string)
    (confdata : gmap string (string * string)) :
  let blk := compose_package_init infile PACKAGE_RELATIVE_PATH extra in
  let tail := package_init_tail infile PACKAGE_RELATIVE_PATH extra in
  let scan := fun line => do_replacement Re.placeholder_regex line confdata in
  (forall pre post,
     all_chars (fun c => negb (Ascii.eqb c "@")) pre = true ->
     Str.replace "@PACKAGE_INIT@" blk (pre +:+ "@PACKAGE_INIT@" +:+ post)
     = pre +:+ blk +:+ Str.replace "@PACKAGE_INIT@" blk post)
  /\ (forall pre post,
        all_chars (fun c => negb (Ascii.eqb c "\") && negb (Ascii.eqb c "@")) pre = true ->
        render_line blk confdata (pre +:+ "@PACKAGE_INIT@" +:+ post)
        = (pre +:+ fst (scan (blk +:+ Str.replace "@PACKAGE_INIT@" blk post)),
           snd (scan (blk +:+ Str.replace "@PACKAGE_INIT@" blk post))))
  /\ render_line blk confdata "@PACKAGE_INIT@"
     = (PACKAGE_INIT_HEAD_SCANNED +:+ fst (scan (infile +:+ tail)),
        snd (scan (infile +:+ tail)))
  /\ (forall lit name more value desc,
        infile = lit +:+ "@" +:+ name +:+ "@" +:+ more ->
        all_chars (fun c => negb (Ascii.eqb c "\") && negb (Ascii.eqb c "@")) lit = true ->
        valid_name name ->
        confdata !! name = Some (value, desc) ->
        fst (render_line blk confdata "@PACKAGE_INIT@")
        = PACKAGE_INIT_HEAD_SCANNED +:+ lit +:+ value +:+ fst (scan (more +:+ tail))).
Proof.
  intros blk tail scan.
  assert (Hwhole : render_line blk confdata "@PACKAGE_INIT@"
                   = (PACKAGE_INIT_HEAD_SCANNED +:+ fst (scan (infile +:+ tail)),
                      snd (scan (infile +:+ tail)))).
  { unfold render_line.
    replace (Str.replace "@PACKAGE_INIT@" blk "@PACKAGE_INIT@") with blk
      by (unfold Str.replace; simpl; now rewrite append_nil_r).
    unfold blk. rewrite compose_package_init_parts. apply scan_package_init_head. }
  split; [|split; [|split]].
  - intros pre post H. now apply (replace_first "@" "PACKAGE_INIT@" blk pre post).
  - intros pre post H. unfold render_line.
    rewrite (replace_first "@" "PACKAGE_INIT@" blk pre post).
    + unfold scan. now rewrite scan_plain.
    + clear -H. induction pre as [|c pre IH]; [reflexivity|].
      simpl in *. apply andb_true_iff in H as [Hc H].
      apply andb_true_iff in Hc as [_ Hc]. rewrite Hc. now apply IH.
  - exact Hwhole.
  - intros lit name more value desc E Hlit Hn Hv. rewrite Hwhole. simpl fst.
    assert (E' : infile +:+ tail = lit +:+ "@" +:+ name +:+ "@" +:+ (more +:+ tail)).
    { rewrite E. rewrite (append_assoc lit _ tail).
      change (("@" +:+ name +:+ "@" +:+ more) +:+ tail)
        with ("@" +:+ ((name +:+ "@" +:+ more) +:+ tail)).
      rewrite (append_assoc name _ tail). reflexivity. }
    rewrite E'. unfold scan.
    rewrite scan_plain by exact Hlit.
    rewrite (scan_token_known confdata name _ value desc Hn Hv).
    reflexivity.
Qed.

Lemma package_init_is_expanded_then_scanned_witness :
  let conf : gmap string (string * string) := <["V" := ("9", "")]> ∅ in
  fst (render_line (compose_package_init "/src/@V@.in" "../.." "") conf "@PACKAGE_INIT@")
  = PACKAGE_INIT_HEAD_SCANNED +:+ "/src/" +:+ "9"
    +:+ fst (do_replacement Re.placeholder_regex
               (".in" +:+ package_init_tail "/src/@V@.in" "../.." "") conf).
Proof.
  intros conf.
  refine (proj2 (proj2 (proj2
    (package_init_is_expanded_then_scanned "/src/@V@.in" "../.." "" conf)))
    "/src/" "V" ".in" "9" "" eq_refl eq_refl _ eq_refl).
  split; [discriminate | reflexivity].
Defined.

(** C4, as the spec has it, fails: with the input file [/src/@V@.in]
    and a mapping that gives [V] the value [9], the block in the
    output names the input file [/src/9.in]; the file name that went
    into the block is not in the output. *)
Lemma input_file_name_is_scanned :
  let conf : gmap string (string * string) := <["V" := ("9", "")]> ∅ in
  let blk := compose_package_init "/src/@V@.in" "../.." "" in
  let out := fst (render_line blk conf "@PACKAGE_INIT@") in
  Str.contains "The input file was /src/@V@.in" blk = true
  /\ Str.contains "The input file was /src/9.in" out = true
  /\ Str.contains "/src/@V@.in" out = false.
Proof. vm_compute. repeat split. Qed.

(** ** Paths: cutting at slashes and putting together *)

Lemma split_not_nil (sep : ascii) (s : string) : Str.split sep s <> [].
Proof.
  induction s as [|c s IH]; simpl; [discriminate|].
  destruct (Ascii.eqb c sep); [discriminate|].
  now destruct (Str.split sep s).
Qed.

Lemma split_app_sep (sep : ascii) (a b : string) :
  Str.split sep (a +:+ String sep b) = Str.split sep a ++ Str.split sep b.
Proof.
  induction a as [|c a IH]; simpl.
  - now rewrite Ascii.eqb_refl.
  - destruct (Ascii.eqb c sep); [now rewrite IH|].
    rewrite IH. pose proof (split_not_nil sep a) as N.
    now destruct (Str.split sep a).
Qed.

Lemma split_sep_free (sep : ascii) (w : string) :
  all_chars (fun c => negb (Ascii.eqb c sep)) w = true -> Str.split sep w = [w].
Proof.
  induction w as [|c w IH]; simpl; [reflexivity|].
  intros H. apply andb_true_iff in H as [Hc H]. apply negb_true_iff in Hc.
  now rewrite Hc, (IH H).
Qed.

Lemma split_parts_sep_free (sep : ascii) (s : string) :
  Forall (fun w => all_chars (fun c => negb (Ascii.eqb c sep)) w = true)
         (Str.split sep s).
Proof.
  induction s as [|c s IH]; simpl; [repeat constructor|].
  destruct (Ascii.eqb c sep) eqn:E; [constructor; [reflexivity | exact IH]|].
  destruct (Str.split sep s) as [|w ws]; [repeat constructor; simpl; now rewrite E|].
  inversion IH as [|? ? Hw Hws]; subst. constructor; [|exact Hws].
  simpl. now rewrite E, Hw.
Qed.

Lemma split_join (ws : list string) :
  ws <> [] -> Forall slash_free ws ->
  Str.split OsPath.sep (Str.join "/" ws) = ws.
Proof.
  induction ws as [|w ws IH]; [contradiction|]. intros _ H.
  inversion H as [|? ? Hw Hws]; subst.
  destruct ws as [|w2 ws].
  - simpl. now apply split_sep_free.
  - change (Str.join "/" (w :: w2 :: ws)) with (w +:+ String OsPath.sep (Str.join "/" (w2 :: ws))).
    rewrite split_app_sep, (split_sep_free _ w Hw), IH; [reflexivity | discriminate | exact Hws].
Qed.

(** ** Paths: normalising *)

Lemma norm_step_cases (slashes : nat) (st : list string) (c : string) :
  slashes <> 0 -> Forall proper_component st ->
  OsPath.norm_step slashes st c
  = if String.eqb c "" || String.eqb c "." then st
    else if String.eqb c ".." then tail st
    else c :: st.
Proof.
  intros Hs Hst. unfold OsPath.norm_step.
  destruct (String.eqb c "" || String.eqb c "."); [reflexivity|].
  destruct (String.eqb c ".."); simpl; [|reflexivity].
  destruct slashes as [|n]; [contradiction|]. simpl.
  destruct st as [|x st]; [reflexivity|].
  inversion Hst as [|? ? (_ & _ & Hx & _) _]; subst.
  apply String.eqb_neq in Hx. now rewrite Hx.
Qed.

Lemma proper_eqb (c : string) :
  proper_component c ->
  String.eqb c "" = false /\ String.eqb c "." = false /\ String.eqb c ".." = false.
Proof. intros (H1 & H2 & H3 & _). now repeat split; apply String.eqb_neq. Qed.

(** Normalising keeps a stack of proper components proper. *)
Lemma fold_norm_proper (slashes : nat) (comps : list string) :
  slashes <> 0 -> Forall slash_free comps ->
  forall st, Forall proper_component st ->
    Forall proper_component (fold_left (OsPath.norm_step slashes) comps st).
Proof.
  intros Hs Hc. induction Hc as [|c comps Hfree _ IH]; intros st Hst; [exact Hst|].
  simpl. apply IH. rewrite norm_step_cases by assumption.
  destruct (String.eqb c "") eqn:E1; [exact Hst|].
  destruct (String.eqb c ".") eqn:E2; [exact Hst|]. simpl.
  destruct (String.eqb c "..") eqn:E3.
  - destruct st; [constructor|]. now inversion Hst.
  - constructor; [|exact Hst].
    apply String.eqb_neq in E1, E2, E3. now repeat split.
Qed.

(** Proper components are pushed one after the other. *)
Lemma fold_norm_push (slashes : nat) (t : list string) :
  slashes <> 0 -> Forall proper_component t ->
  forall st, Forall proper_component st ->
    fold_left (OsPath.norm_step slashes) t st = rev t ++ st.
Proof.
  intros Hs Ht. induction Ht as [|c t Hc _ IH]; intros st Hst; [reflexivity|].
  simpl. rewrite norm_step_cases by assumption.
  destruct (proper_eqb c Hc) as (-> & -> & ->). simpl.
  rewrite IH by (now constructor). now rewrite <- app_assoc.
Qed.

(** As many [..] as the stack has components on top take them off. *)
Lemma fold_norm_pop (slashes : nat) (s1 s2 : list string) :
  slashes <> 0 -> Forall proper_component (s1 ++ s2) ->
  fold_left (OsPath.norm_step slashes) (repeat ".." (length s1)) (s1 ++ s2) = s2.
Proof.
  intros Hs. induction s1 as [|x s1 IH]; intros H; [reflexivity|].
  simpl. rewrite norm_step_cases by assumption. simpl.
  apply IH. now inversion H.
Qed.

Lemma norm_step_abs (slashes : nat) (st : list string) (c : string) :
  slashes <> 0 -> OsPath.norm_step slashes st c = OsPath.norm_step 1 st c.
Proof. intros H. destruct slashes; [contradiction | reflexivity]. Qed.

Lemma fold_norm_abs (slashes : nat) (comps st : list string) :
  slashes <> 0 ->
  fold_left (OsPath.norm_step slashes) comps st = fold_left (OsPath.norm_step 1) comps st.
Proof.
  intros H. revert st. induction comps as [|c comps IH]; intros st; [reflexivity|].
  simpl. now rewrite IH, (norm_step_abs slashes st c H).
Qed.

Lemma initial_slashes_abs (p : string) :
  OsPath.isabs p = true -> OsPath.initial_slashes p = 1 \/ OsPath.initial_slashes p = 2.
Proof.
  unfold OsPath.isabs, OsPath.initial_slashes. intros ->.
  destruct (Str.startswith "//" p && negb (Str.startswith "///" p)); auto.
Qed.

Lemma filter_nonempty_proper (l : list string) :
  Forall proper_component l -> filter (fun x => OsPath.nonempty x = true) l = l.
Proof.
  induction 1 as [|x l Hx _ IH]; [reflexivity|].
  rewrite filter_cons_True, IH; [reflexivity|].
  destruct Hx as (Hx & _). unfold OsPath.nonempty.
  apply String.eqb_neq in Hx. now rewrite Hx.
Qed.

(** The components of an absolute path are what the loop of [normpath]
    leaves of its pieces. *)
Lemma path_components_abs (p : string) :
  OsPath.isabs p = true ->
  path_components p = OsPath.norm_comps 1 (Str.split OsPath.sep p)
  /\ Forall proper_component (OsPath.norm_comps 1 (Str.split OsPath.sep p)).
Proof.
  intros Habs.
  assert (Hprop : Forall proper_component (OsPath.norm_comps 1 (Str.split OsPath.sep p))).
  { unfold OsPath.norm_comps. apply Forall_rev.
    apply fold_norm_proper; [discriminate | apply split_parts_sep_free | constructor]. }
  split; [|exact Hprop].
  unfold path_components, OsPath.normpath.
  assert (Hne : String.eqb p "" = false).
  { destruct p; [discriminate | reflexivity]. }
  rewrite Hne. unfold OsPath.norm_comps.
  assert (Hs : OsPath.initial_slashes p <> 0)
    by (destruct (initial_slashes_abs p Habs) as [-> | ->]; discriminate).
  rewrite (fold_norm_abs _ _ _ Hs).
  fold (OsPath.norm_comps 1 (Str.split OsPath.sep p)).
  set (nc := OsPath.norm_comps 1 (Str.split OsPath.sep p)) in *.
  assert (Hj : filter (fun x => OsPath.nonempty x = true)
                 (Str.split OsPath.sep (Str.join "/" nc)) = nc).
  { destruct nc as [|w ws] eqn:E; [reflexivity|].
    rewrite split_join; [now apply filter_nonempty_proper | discriminate |].
    eapply Forall_impl; [exact Hprop|]. now intros x (_ & _ & _ & Hx). }
  destruct (initial_slashes_abs p Habs) as [-> | ->]; simpl Str.repeat_char.
  - change (String OsPath.sep "" +:+ Str.join "/" nc)
      with (String OsPath.sep (Str.join "/" nc)).
    change (String.eqb (String OsPath.sep (Str.join "/" nc)) "") with false.
    cbv iota. change (String OsPath.sep (Str.join "/" nc))
      with ("" +:+ String OsPath.sep (Str.join "/" nc)).
    rewrite split_app_sep. simpl Str.split at 1. simpl app.
    rewrite filter_cons_False by (simpl; discriminate). exact Hj.
  - change (String OsPath.sep (String OsPath.sep "") +:+ Str.join "/" nc)
      with (String OsPath.sep (String OsPath.sep (Str.join "/" nc))).
    change (String.eqb (String OsPath.sep (String OsPath.sep (Str.join "/" nc))) "")
      with false.
    cbv iota.
    change (String OsPath.sep (String OsPath.sep (Str.join "/" nc)))
      with ("" +:+ String OsPath.sep ("" +:+ String OsPath.sep (Str.join "/" nc))).
    rewrite !split_app_sep. simpl Str.split at 1 2. simpl app.
    rewrite !filter_cons_False by (simpl; discriminate). exact Hj.
Qed.

(** ** Paths: the way back *)

Lemma common_prefix_take (a b : list string) :
  take (OsPath.common_prefix_len a b) a = take (OsPath.common_prefix_len a b) b.
Proof.
  revert b; induction a as [|x a IH]; intros [|y b]; simpl; try reflexivity.
  destruct (String.eqb x y) eqn:E; [|reflexivity].
  apply String.eqb_eq in E; subst y. simpl. now rewrite IH.
Qed.

Lemma common_prefix_le (a b : list string) :
  OsPath.common_prefix_len a b <= length a.
Proof.
  revert b; induction a as [|x a IH]; intros [|y b]; simpl; try lia.
  destruct (String.eqb x y); [|lia]. specialize (IH b). simpl. lia.
Qed.

Lemma endswith_append (c : ascii) (a b : string) :
  b <> "" -> Str.endswith_char c (a +:+ b) = Str.endswith_char c b.
Proof.
  intros Hb. induction a as [|x a IH]; [reflexivity|].
  simpl. rewrite IH. destruct (a +:+ b) eqn:E; [|reflexivity].
  destruct a; [simpl in E; contradiction | discriminate].
Qed.

Lemma endswith_inv (c : ascii) (s : string) :
  Str.endswith_char c s = true -> exists s', s = s' +:+ String c "".
Proof.
  induction s as [|x s IH]; [discriminate|]. simpl.
  destruct s as [|y s].
  - intros H. apply Ascii.eqb_eq in H; subst. now exists "".
  - intros H. destruct (IH H) as [s' E]. exists (String x s'). simpl. now rewrite E.
Qed.

Lemma slash_free_no_end (w : string) :
  w <> "" -> slash_free w -> Str.endswith_char OsPath.sep w = false.
Proof.
  unfold slash_free. induction w as [|x w IH]; [contradiction|]. intros _ H.
  simpl in H. apply andb_true_iff in H as [Hx H]. apply negb_true_iff in Hx.
  simpl. destruct w as [|y w]; [exact Hx|]. apply IH; [discriminate | exact H].
Qed.

Lemma slash_free_no_start (w : string) :
  w <> "" -> slash_free w -> Str.startswith "/" w = false.
Proof.
  unfold slash_free. destruct w as [|x w]; [contradiction|]. intros _ H.
  simpl in H. apply andb_true_iff in H as [Hx _]. apply negb_true_iff in Hx.
  unfold OsPath.sep in Hx. simpl. now rewrite Ascii.eqb_sym, Hx.
Qed.

(** Components without slashes are joined with one slash between any
    two of them. *)
Lemma join_components (rest : list string) :
  Forall (fun w => w <> "" /\ slash_free w) rest ->
  forall x, x <> "" -> Str.endswith_char OsPath.sep x = false ->
    OsPath.join x rest
    = match rest with [] => x | _ => x +:+ "/" +:+ Str.join "/" rest end.
Proof.
  unfold OsPath.join.
  induction 1 as [|b rest [Hb Hfree] Hrest IH]; intros x Hx Hend; [reflexivity|].
  simpl fold_left. unfold OsPath.join_step at 2.
  rewrite (slash_free_no_start b Hb Hfree), Hend.
  apply String.eqb_neq in Hx. rewrite Hx. simpl orb. cbv iota.
  rewrite IH.
  - destruct rest as [|b2 rest]; [reflexivity|].
    rewrite !append_assoc. reflexivity.
  - destruct x; discriminate.
  - rewrite endswith_append by (destruct b; [contradiction | discriminate]).
    change ("/" +:+ b) with (String OsPath.sep b).
    rewrite <- (slash_free_no_end b Hb Hfree).
    apply (endswith_append OsPath.sep (String OsPath.sep "") b Hb).
Qed.

Lemma proper_is_joinable (l : list string) :
  Forall proper_component l -> Forall (fun w => w <> "" /\ slash_free w) l.
Proof. intros H. eapply Forall_impl; [exact H|]. now intros w (H1 & _ & _ & H4). Qed.

Lemma dots_are_joinable (k : nat) :
  Forall (fun w => w <> "" /\ slash_free w) (repeat ".." k).
Proof. induction k; simpl; constructor; [split; [discriminate | reflexivity] | assumption]. Qed.

Lemma abspath_abs (cwd p : string) :
  OsPath.isabs p = true -> OsPath.abspath cwd p = OsPath.normpath p.
Proof. intros H. unfold OsPath.abspath. now rewrite H. Qed.

(** [relpath] between two absolute paths: as many [..] as the start has
    components beyond what it shares with the path, then the rest of
    the path. *)
Lemma relpath_abs (cwd path start : string) :
  OsPath.isabs path = true -> OsPath.isabs start = true ->
  let start_list := OsPath.norm_comps 1 (Str.split OsPath.sep start) in
  let path_list := OsPath.norm_comps 1 (Str.split OsPath.sep path) in
  let i := OsPath.common_prefix_len start_list path_list in
  let rel_list := repeat ".." (length start_list - i) ++ drop i path_list in
  OsPath.relpath cwd path start
  = Some (match rel_list with [] => "." | _ => Str.join "/" rel_list end).
Proof.
  intros Hp Hs start_list path_list i rel_list.
  unfold OsPath.relpath.
  assert (Hne : String.eqb path "" = false) by (destruct path; [discriminate | reflexivity]).
  rewrite Hne, !abspath_abs by assumption.
  fold (path_components start). fold (path_components path).
  destruct (path_components_abs start Hs) as [-> Hsp].
  destruct (path_components_abs path Hp) as [-> Hpp].
  fold start_list path_list i rel_list.
  assert (Hj : Forall (fun w => w <> "" /\ slash_free w) rel_list).
  { apply Forall_app. split; [apply dots_are_joinable|].
    apply proper_is_joinable. now apply Forall_drop. }
  destruct rel_list as [|a p]; [reflexivity|].
  inversion Hj as [|? ? [Ha Hfree] Hp']; subst.
  rewrite (join_components p Hp' a Ha (slash_free_no_end a Ha Hfree)).
  now destruct p.
Qed.

Lemma startswith_append_l (p a b : string) :
  Str.startswith p a = true -> Str.startswith p (a +:+ b) = true.
Proof.
  intros H. apply startswith_inv in H as [r ->].
  rewrite append_assoc. apply startswith_append.
Qed.

(** Joining the relative path onto the start and normalising gives the
    components of the path. *)
Lemma relpath_leads_back (cwd path start rel : string) :
  OsPath.isabs path = true -> OsPath.isabs start = true ->
  OsPath.relpath cwd path start = Some rel ->
  path_components (OsPath.join start [rel]) = path_components path.
Proof.
  intros Hp Hs Hrel.
  rewrite (relpath_abs cwd path start Hp Hs) in Hrel. cbv zeta in Hrel.
  destruct (path_components_abs start Hs) as [_ Hsp].
  destruct (path_components_abs path Hp) as [-> Hpp].
  set (start_list := OsPath.norm_comps 1 (Str.split OsPath.sep start)) in *.
  set (path_list := OsPath.norm_comps 1 (Str.split OsPath.sep path)) in *.
  set (i := OsPath.common_prefix_len start_list path_list) in *.
  remember (repeat ".." (length start_list - i) ++ drop i path_list) as rel_list eqn:Erl.
  set (st := fold_left (OsPath.norm_step 1) (Str.split OsPath.sep start) []).
  assert (Hst : st = rev start_list).
  { unfold start_list, OsPath.norm_comps. now rewrite rev_involutive. }
  assert (Hj : Forall (fun w => w <> "" /\ slash_free w) rel_list).
  { rewrite Erl. apply Forall_app. split; [apply dots_are_joinable|].
    apply proper_is_joinable. now apply Forall_drop. }
  (* the pieces of the relative path *)
  assert (Hsplit : Str.startswith "/" rel = false
                   /\ fold_left (OsPath.norm_step 1) (Str.split OsPath.sep rel) st
                      = fold_left (OsPath.norm_step 1) rel_list st).
  { clear Erl. destruct rel_list as [|a p].
    - injection Hrel as <-. split; reflexivity.
    - assert (Er : rel = Str.join "/" (a :: p)) by (now injection Hrel).
      clear Hrel. subst rel. split.
      + inversion Hj as [|? ? [Ha Hfree] _]; subst.
        destruct p; simpl Str.join.
        * now apply slash_free_no_start.
        * destruct a as [|x a]; [contradiction|].
          pose proof (slash_free_no_start (String x a) Ha Hfree) as F.
          simpl in F |- *. exact F.
      + rewrite split_join; [reflexivity | discriminate |].
        eapply Forall_impl; [exact Hj|]. now intros w [_ H]. }
  destruct Hsplit as [Hnostart Hfold].
  (* the pieces of the joined path *)
  assert (Hjoined : OsPath.isabs (OsPath.join start [rel]) = true
                    /\ fold_left (OsPath.norm_step 1)
                         (Str.split OsPath.sep (OsPath.join start [rel])) []
                       = fold_left (OsPath.norm_step 1) (Str.split OsPath.sep rel) st).
  { unfold OsPath.join. simpl fold_left. unfold OsPath.join_step. rewrite Hnostart.
    assert (Hne : String.eqb start "" = false)
      by (destruct start; [discriminate | reflexivity]).
    rewrite Hne. simpl orb.
    destruct (Str.endswith_char OsPath.sep start) eqn:Hend.
    - split; [now apply startswith_append_l|].
      destruct (endswith_inv _ _ Hend) as [s' E].
      unfold st. rewrite E, append_assoc.
      change (String OsPath.sep "" +:+ rel) with (String OsPath.sep rel).
      rewrite !split_app_sep, !fold_left_app. reflexivity.
    - split; [now apply startswith_append_l|].
      change ("/" +:+ rel) with (String OsPath.sep rel).
      rewrite split_app_sep, fold_left_app. reflexivity. }
  destruct Hjoined as [Habs Hcomps].
  destruct (path_components_abs _ Habs) as [-> _].
  unfold OsPath.norm_comps at 1. rewrite Hcomps, Hfold.
  rewrite Erl, fold_left_app.
  assert (Hstack : st = rev (drop i start_list) ++ rev (take i start_list)).
  { rewrite Hst, <- rev_app_distr. now rewrite take_drop. }
  assert (Hk : length start_list - i = length (rev (drop i start_list))).
  { rewrite length_rev, length_drop. reflexivity. }
  rewrite Hstack, Hk.
  assert (Hprop : Forall proper_component
                    (rev (drop i start_list) ++ rev (take i start_list))).
  { rewrite <- Hstack, Hst. now apply Forall_rev. }
  rewrite fold_norm_pop by (discriminate || exact Hprop).
  rewrite fold_norm_push;
    [|discriminate | now apply Forall_drop | apply Forall_rev; now apply Forall_take].
  rewrite rev_app_distr, !rev_involutive.
  unfold i. rewrite common_prefix_take. apply take_drop.
Qed.

(** ** The install directory and the way back to the prefix *)

Lemma slash_any_inv (x : string) :
  Re.slash_any x = true ->
  exists c rest, c <> ascii_of_nat 10 /\ x = "/" +:+ String c rest.
Proof.
  destruct x as [|a [|c rest]]; try discriminate. simpl.
  intros H. apply andb_true_iff in H as [Ha Hc].
  apply Ascii.eqb_eq in Ha; subst a.
  unfold Re.is_dot in Hc. apply negb_true_iff, Ascii.eqb_neq in Hc.
  now exists c, rest.
Qed.

Lemma slash_any_intro (c : ascii) (rest : string) :
  c <> ascii_of_nat 10 -> Re.slash_any ("/" +:+ String c rest) = true.
Proof.
  intros H. simpl. unfold Re.is_dot. apply Ascii.eqb_neq in H. now rewrite H.
Qed.

Lemma lib_tail_inv (t : string) :
  Re.lib_tail t = true ->
  exists lib c rest, (lib = "/lib" \/ lib = "/lib64") /\ c <> ascii_of_nat 10
                     /\ t = lib +:+ "/" +:+ String c rest.
Proof.
  unfold Re.lib_tail. intros H. apply andb_true_iff in H as [H1 H2].
  apply startswith_inv in H1 as [r ->].
  change (Str.drop 4 ("/lib" +:+ r)) with r in H2.
  apply orb_true_iff in H2 as [H2|H2].
  - apply andb_true_iff in H2 as [H2 H3].
    apply startswith_inv in H2 as [r' ->].
    change (Str.drop 2 ("64" +:+ r')) with r' in H3.
    destruct (slash_any_inv r' H3) as (c & rest & Hc & ->).
    exists "/lib64", c, rest. repeat split; auto.
  - destruct (slash_any_inv r H2) as (c & rest & Hc & ->).
    exists "/lib", c, rest. repeat split; auto.
Qed.

Lemma lib_tail_intro (lib : string) (c : ascii) (rest : string) :
  lib = "/lib" \/ lib = "/lib64" -> c <> ascii_of_nat 10 ->
  Re.lib_tail (lib +:+ "/" +:+ String c rest) = true.
Proof.
  intros [-> | ->] Hc; unfold Re.lib_tail.
  - change (Str.startswith "/lib" ("/lib" +:+ "/" +:+ String c rest)) with true.
    change (Str.drop 4 ("/lib" +:+ "/" +:+ String c rest)) with ("/" +:+ String c rest).
    rewrite (slash_any_intro c rest Hc). simpl. now rewrite ?orb_true_r.
  - change (Str.startswith "/lib" ("/lib64" +:+ "/" +:+ String c rest)) with true.
    change (Str.drop 4 ("/lib64" +:+ "/" +:+ String c rest))
      with ("64" +:+ "/" +:+ String c rest).
    change (Str.startswith "64" ("64" +:+ "/" +:+ String c rest)) with true.
    change (Str.drop 2 ("64" +:+ "/" +:+ String c rest)) with ("/" +:+ String c rest).
    now rewrite (slash_any_intro c rest Hc).
Qed.

(** The pattern of line 265 matches what it is said to match. *)
Lemma lib_regex_spec (s : string) : Re.lib_regex s = true <-> lib_pattern s.
Proof.
  unfold Re.lib_regex, lib_pattern. split.
  - intros H. apply orb_true_iff in H as [H|H].
    + apply andb_true_iff in H as [H1 H2].
      apply startswith_inv in H1 as [r ->].
      change (Str.drop 4 ("/usr" +:+ r)) with r in H2.
      destruct (lib_tail_inv r H2) as (lib & c & rest & Hl & Hc & ->).
      exists "/usr", lib, c, rest. repeat split; auto.
    + destruct (lib_tail_inv s H) as (lib & c & rest & Hl & Hc & ->).
      exists "", lib, c, rest. repeat split; auto.
  - intros (usr & lib & c & rest & [-> | ->] & Hl & Hc & ->).
    + change ("" +:+ lib +:+ "/" +:+ String c rest) with (lib +:+ "/" +:+ String c rest).
      rewrite (lib_tail_intro lib c rest Hl Hc). apply orb_true_r.
    + change (Str.startswith "/usr" ("/usr" +:+ lib +:+ "/" +:+ String c rest)) with true.
      change (Str.drop 4 ("/usr" +:+ lib +:+ "/" +:+ String c rest))
        with (lib +:+ "/" +:+ String c rest).
      now rewrite (lib_tail_intro lib c rest Hl Hc).
Qed.

(** The extra block is there exactly when the pattern matches. *)
Lemma relocation_extra_spec (prefix abs : string) :
  relocation_extra prefix abs <> "" <-> Re.lib_regex abs = true.
Proof.
  unfold relocation_extra. destruct (Re.lib_regex abs); split; try easy.
Qed.

(** C5: a relative install directory is joined onto the prefix; the
    relative path is what [relpath] gives from the absolute install
    directory to the prefix, and with an absolute prefix it leads from
    that directory back to the prefix; the extra block is there exactly
    when the absolute install directory is [/usr] or nothing, then
    [/lib] or [/lib64], then a slash and at least one more character.
    For the prefix [/usr/local], [/usr/local/lib/cmake/Foo] gives
    [../../..] and [/usr/lib/cmake/Foo] has the extra block. *)
Theorem install_path_is_resolved (cwd prefix install_dir : string) :
  let abs := abs_install_dir prefix install_dir in
  (OsPath.isabs install_dir = false -> abs = OsPath.join prefix [install_dir])
  /\ (OsPath.isabs install_dir = true -> abs = install_dir)
  /\ (prefix <> "" ->
      exists rel,
        resolve_install_path cwd prefix install_dir
        = inr (rel, relocation_extra prefix abs)
        /\ OsPath.relpath cwd prefix abs = Some rel)
  /\ (OsPath.isabs prefix = true ->
      exists rel,
        resolve_install_path cwd prefix install_dir
        = inr (rel, relocation_extra prefix abs)
        /\ OsPath.isabs abs = true
        /\ path_components (OsPath.join abs [rel]) = path_components prefix)
  /\ (relocation_extra prefix abs <> "" <-> lib_pattern abs)
  /\ (forall cwd', resolve_install_path cwd' "/usr/local" "/usr/local/lib/cmake/Foo"
                   = inr ("../../..", ""))
  /\ relocation_extra "/usr/local" "/usr/lib/cmake/Foo" <> "".
Proof.
  intros abs.
  assert (Hsome : prefix <> "" ->
            exists rel, OsPath.relpath cwd prefix abs = Some rel).
  { intros Hne. unfold OsPath.relpath. apply String.eqb_neq in Hne. rewrite Hne.
    match goal with |- context [match ?l with [] => _ | _ => _ end] => destruct l end;
      eexists; reflexivity. }
  assert (Hres : forall rel, OsPath.relpath cwd prefix abs = Some rel ->
            resolve_install_path cwd prefix install_dir
            = inr (rel, relocation_extra prefix abs)).
  { intros rel H. unfold resolve_install_path. fold abs. now rewrite H. }
  split; [|split; [|split; [|split; [|split; [|split]]]]].
  - intros H. unfold abs, abs_install_dir. now rewrite H.
  - intros H. unfold abs, abs_install_dir. now rewrite H.
  - intros Hne. destruct (Hsome Hne) as [rel Hrel]. exists rel. auto.
  - intros Hp.
    assert (Hne : prefix <> "") by (intros ->; discriminate).
    destruct (Hsome Hne) as [rel Hrel]. exists rel.
    assert (Habs : OsPath.isabs abs = true).
    { unfold abs, abs_install_dir.
      destruct (OsPath.isabs install_dir) eqn:Hi; simpl; [exact Hi|].
      unfold OsPath.join. simpl. unfold OsPath.join_step.
      unfold OsPath.isabs in Hi. rewrite Hi.
      destruct (String.eqb prefix "" || Str.endswith_char OsPath.sep prefix);
        now apply startswith_append_l. }
    split; [auto|]. split; [exact Habs|].
    now apply (relpath_leads_back cwd prefix abs rel).
  - rewrite relocation_extra_spec. apply lib_regex_spec.
  - intros cwd'. reflexivity.
  - apply relocation_extra_spec. reflexivity.
Qed.

Lemma install_path_is_resolved_witness :
  exists rel,
    resolve_install_path "/work" "/usr" "lib/cmake/Foo"
    = inr (rel, relocation_extra "/usr" "/usr/lib/cmake/Foo")
    /\ OsPath.isabs "/usr/lib/cmake/Foo" = true
    /\ path_components (OsPath.join "/usr/lib/cmake/Foo" [rel]) = path_components "/usr".
Proof.
  exact (proj1 (proj2 (proj2 (proj2
    (install_path_is_resolved "/work" "/usr" "lib/cmake/Foo")))) eq_refl).
Defined.

(** ** Text without placeholders *)

Lemma all_chars_app (p : ascii -> bool) (a b : string) :
  all_chars p (a +:+ b) = all_chars p a && all_chars p b.
Proof.
  induction a as [|c a IH]; simpl; [reflexivity|].
  now rewrite IH, andb_assoc.
Qed.

Lemma all_chars_backslashes_tail (p : ascii -> bool) (n : nat) (r : string) :
  all_chars p (backslashes n +:+ r) = true -> all_chars p r = true.
Proof.
  rewrite all_chars_app. intros H. now apply andb_true_iff in H as [_ H].
Qed.

(** Where there is no [@], the pattern of line 206 finds nothing. *)
Lemma regex_needs_at (s : string) :
  all_chars (fun c => negb (Ascii.eqb c "@")) s = true ->
  Re.placeholder_regex s = None.
Proof.
  intros H. destruct (Re.placeholder_regex s) as [m|] eqn:E; [|reflexivity].
  exfalso.
  destruct (regex_sound s m E)
    as [(k & r & _ & -> & Hr & _) | [(_ & r & -> & _) | (_ & _ & name & r & _ & -> & _)]].
  - apply all_chars_backslashes_tail in H.
    unfold Re.lookahead_at in Hr. apply orb_true_iff in Hr as [Hr|Hr];
      apply startswith_inv in Hr as [t ->]; simpl in H; discriminate.
  - simpl in H. discriminate.
  - simpl in H. discriminate.
Qed.

Lemma contains_needs_first (a : ascii) (old s : string) :
  all_chars (fun c => negb (Ascii.eqb c a)) s = true ->
  Str.contains (String a old) s = false.
Proof.
  induction s as [|c s IH]; [reflexivity|].
  intros H. simpl in H. apply andb_true_iff in H as [Hc H].
  apply negb_true_iff in Hc.
  simpl. rewrite Ascii.eqb_sym, Hc. simpl. now apply IH.
Qed.

Lemma cut_lines_concat (t : string) : Str.concat (cut_lines t) = t.
Proof.
  unfold Str.concat. induction t as [|c t IH]; [reflexivity|].
  simpl. destruct (Ascii.eqb c (ascii_of_nat 10)).
  - simpl. now rewrite IH.
  - destruct (cut_lines t) as [|l ls]; simpl in *; now rewrite <- IH.
Qed.

Lemma cut_lines_chars (p : ascii -> bool) (t : string) :
  all_chars p t = true -> Forall (fun l => all_chars p l = true) (cut_lines t).
Proof.
  induction t as [|c t IH]; [constructor|].
  intros H. simpl in H. apply andb_true_iff in H as [Hc H]. specialize (IH H).
  simpl. destruct (Ascii.eqb c (ascii_of_nat 10)).
  - constructor; [simpl; now rewrite Hc | exact IH].
  - destruct (cut_lines t) as [|l ls]; [constructor; [simpl; now rewrite Hc | constructor]|].
    inversion IH as [|? ? Hl Hls]; subst. constructor; [|exact Hls].
    simpl. now rewrite Hc, Hl.
Qed.

(** Reading brings in no character but the line feed. *)
Lemma universal_newlines_chars (p : ascii -> bool) (t : string) :
  p (ascii_of_nat 10) = true ->
  all_chars p t = true -> all_chars p (universal_newlines t) = true.
Proof.
  intros Hlf. induction t as [|c t IH]; [reflexivity|].
  intros H. simpl in H. apply andb_true_iff in H as [Hc H]. specialize (IH H).
  change (all_chars p
            (if Ascii.eqb c (ascii_of_nat 13) then
               match t with
               | String d _ =>
                   if Ascii.eqb d (ascii_of_nat 10) then universal_newlines t
                   else String (ascii_of_nat 10) (universal_newlines t)
               | "" => String (ascii_of_nat 10) ""
               end
             else String c (universal_newlines t)) = true).
  destruct (Ascii.eqb c (ascii_of_nat 13)).
  - destruct t as [|d t]; [simpl; now rewrite Hlf|].
    destruct (Ascii.eqb d (ascii_of_nat 10)); [exact IH|].
    change (p (ascii_of_nat 10) && all_chars p (universal_newlines (String d t)) = true).
    now rewrite Hlf, IH.
  - change (p c && all_chars p (universal_newlines t) = true). now rewrite Hc, IH.
Qed.

(** A text without a carriage return is read as it is. *)
Lemma universal_newlines_id (t : string) :
  all_chars (fun c => negb (Ascii.eqb c (ascii_of_nat 13))) t = true ->
  universal_newlines t = t.
Proof.
  induction t as [|c t IH]; [reflexivity|].
  intros H. simpl in H. apply andb_true_iff in H as [Hc H]. apply negb_true_iff in Hc.
  change (universal_newlines (String c t))
    with (if Ascii.eqb c (ascii_of_nat 13) then
            match t with
            | String d _ =>
                if Ascii.eqb d (ascii_of_nat 10) then universal_newlines t
                else String (ascii_of_nat 10) (universal_newlines t)
            | "" => String (ascii_of_nat 10) ""
            end
          else String c (universal_newlines t)).
  now rewrite Hc, (IH H).
Qed.

Lemma readlines_concat (t : string) : Str.concat (readlines t) = universal_newlines t.
Proof. apply cut_lines_concat. Qed.

Lemma readlines_chars (p : ascii -> bool) (t : string) :
  p (ascii_of_nat 10) = true ->
  all_chars p t = true -> Forall (fun l => all_chars p l = true) (readlines t).
Proof.
  intros Hlf H. apply cut_lines_chars. now apply universal_newlines_chars.
Qed.

Lemma sub_without_at (repl : Re.re_match -> string * list string) (line : string) :
  all_chars (fun c => negb (Ascii.eqb c "@")) line = true ->
  Re.sub Re.placeholder_regex repl line = (line, []).
Proof.
  intros H. induction line as [|c line IH]; [reflexivity|].
  rewrite sub_nomatch_head by (now apply regex_needs_at).
  simpl in H. apply andb_true_iff in H as [_ H]. now rewrite (IH H).
Qed.

Lemma render_line_without_at (package_init : string)
    (confdata : gmap string (string * string)) (line : string) :
  all_chars (fun c => negb (Ascii.eqb c "@")) line = true ->
  render_line package_init confdata line = (line, []).
Proof.
  intros H. unfold render_line, do_replacement.
  rewrite replace_absent;
    [now apply sub_without_at | discriminate | now apply contains_needs_first].
Qed.

(** X1: on a line without an [@] the scan of lines 206 to 209 finds
    nothing to replace, whatever the callback would do with a match:
    the line comes back as it is and no name is reported; the reserved
    placeholder is not in it either, so [render_line] gives the line
    back. *)
Theorem line_without_at_is_kept (line : string) :
  all_chars (fun c => negb (Ascii.eqb c "@")) line = true ->
  (forall repl, Re.sub Re.placeholder_regex repl line = (line, []))
  /\ (forall package_init confdata,
        render_line package_init confdata line = (line, [])).
Proof.
  intros H. split.
  - intros repl. now apply sub_without_at.
  - intros package_init confdata. now apply render_line_without_at.
Qed.

Lemma line_without_at_is_kept_witness :
  render_line "BLOCK" (<["FOO" := ("1", "")]> ∅) "set(FOO \\ bar)"
  = ("set(FOO \\ bar)", []).
Proof.
  exact (proj2 (line_without_at_is_kept "set(FOO \\ bar)" eq_refl) _ _).
Defined.

(** ** What [create_package_file] does to the files *)

Section PackageFile.

Variable default_mode : N.
Variable open_error : string -> option exn.
Variable read_error_text : string -> string.

Local Abbreviation cpf := (create_package_file default_mode open_error read_error_text).

Lemma render_without_at (package_init : string)
    (confdata : gmap string (string * string)) (data : list string) :
  Forall (fun l => all_chars (fun c => negb (Ascii.eqb c "@")) l = true) data ->
  render package_init confdata data = data.
Proof.
  unfold render. induction 1 as [|l data Hl _ IH]; [reflexivity|].
  simpl. rewrite (render_line_without_at package_init confdata l Hl). now rewrite IH.
Qed.

(** X2: a template without an [@] in it is copied: the call ends well
    and the destination gets the text of the template as it is read,
    whatever the mapping and the block are; that is the very text of
    the template when there is no carriage return in it, and with
    carriage returns it is the text with its ends of lines read as line
    feeds. *)
Theorem template_without_at_is_copied (infile outfile rel extra : string)
    (confdata : gmap string (string * string)) (w : World) (fin : FileEntry) :
  files w !! infile = Some fin ->
  open_error (outfile +:+ "~") = None ->
  all_chars (fun c => negb (Ascii.eqb c "@")) (text fin) = true ->
  let r := cpf infile outfile rel extra confdata w in
  snd r = inr tt
  /\ option_map text (files (fst r) !! outfile) = Some (universal_newlines (text fin))
  /\ (all_chars (fun c => negb (Ascii.eqb c (ascii_of_nat 13))) (text fin) = true ->
      option_map text (files (fst r) !! outfile) = Some (text fin))
  /\ files (fst r) !! (outfile +:+ "~") = None.
Proof.
  intros Hin Hopen Hplain r. unfold r.
  rewrite (create_package_file_runs default_mode open_error read_error_text _ _ _ _ _ _ fin Hin Hopen).
  rewrite render_without_at by (now apply readlines_chars).
  rewrite readlines_concat. cbn [fst snd files set_files].
  split; [reflexivity|]. rewrite lookup_insert_eq. cbn [option_map text].
  split; [reflexivity|]. split.
  - intros Hcr. now rewrite (universal_newlines_id _ Hcr).
  - rewrite lookup_insert_ne by (apply tmp_path_differs). apply lookup_delete_eq.
Qed.

(** X3: [create_package_file] ends in the exception of line 203 when
    the template cannot be read, and in the exception of [open] when
    the temporary path does not open, and has then changed nothing;
    and when it ends well, no temporary file is left, the destination
    is there, and of all the paths only the destination and the
    temporary path can hold something else than before. *)
Theorem create_package_file_touches_its_output_only
    (infile outfile rel extra : string)
    (confdata : gmap string (string * string)) (w : World) :
  let r := cpf infile outfile rel extra confdata w in
  (files w !! infile = None ->
   r = (w, inl (MesonException ("Could not read input file " +:+ infile +:+ ": "
                                 +:+ read_error_text infile))))
  /\ (forall e, is_Some (files w !! infile) -> open_error (outfile +:+ "~") = Some e ->
        r = (w, inl e))
  /\ (forall u, snd r = inr u ->
      files (fst r) !! (outfile +:+ "~") = None
      /\ is_Some (files (fst r) !! outfile)
      /\ (forall p, p <> outfile -> p <> outfile +:+ "~" ->
            files (fst r) !! p = files w !! p)
      /\ set_files (files w) (fst r) = w).
Proof.
  intros r. split; [|split].
  - intros H. unfold r, create_package_file, bind, get, raise. cbv beta iota zeta.
    cbn [fst snd]. now rewrite H.
  - intros e [fin Hin] Hopen. now apply (create_package_file_closed default_mode open_error read_error_text _ _ _ _ _ _ fin).
  - intros u Hu. unfold r in *.
    destruct (files w !! infile) as [fin|] eqn:Hin.
    2: { unfold create_package_file, bind, get, raise in Hu. cbv beta iota zeta in Hu.
         cbn [fst snd] in Hu. rewrite Hin in Hu. discriminate. }
    destruct (open_error (outfile +:+ "~")) as [e|] eqn:Hopen.
    { rewrite (create_package_file_closed default_mode open_error read_error_text _ _ _ _ _ _ fin e Hin Hopen) in Hu.
      discriminate. }
    rewrite (create_package_file_runs default_mode open_error read_error_text _ _ _ _ _ _ fin Hin Hopen).
    cbn [fst snd files set_files]. split; [|split; [|split]].
    + rewrite lookup_insert_ne by (apply tmp_path_differs). apply lookup_delete_eq.
    + rewrite lookup_insert_eq. eexists; reflexivity.
    + intros p Ho Ht. rewrite lookup_insert_ne by congruence.
      now rewrite lookup_delete_ne by congruence.
    + now destruct w.
Qed.

(** X4: generating once more changes nothing: with a template that is
    neither the destination nor the temporary path, a second run of
    [create_package_file] leaves the state as the first run left it,
    and ends as the first run ended. *)
Theorem create_package_file_twice (infile outfile rel extra : string)
    (confdata : gmap string (string * string)) (w : World) (fin : FileEntry) :
  files w !! infile = Some fin ->
  infile <> outfile -> infile <> outfile +:+ "~" ->
  let w1 := fst (cpf infile outfile rel extra confdata w) in
  cpf infile outfile rel extra confdata w1
  = (w1, snd (cpf infile outfile rel extra confdata w)).
Proof.
  intros Hin Ho Ht w1. unfold w1.
  destruct (open_error (outfile +:+ "~")) as [e|] eqn:Hopen.
  { rewrite (create_package_file_closed default_mode open_error read_error_text _ _ _ _ _ w fin e Hin Hopen). cbn [fst snd].
    apply (create_package_file_closed default_mode open_error read_error_text _ _ _ _ _ w fin e Hin Hopen). }
  rewrite (create_package_file_runs default_mode open_error read_error_text _ _ _ _ _ w fin Hin Hopen). cbn [fst snd].
  rewrite (create_package_file_runs default_mode open_error read_error_text _ _ _ _ _ _ fin).
  - cbn [files set_files].
    rewrite delete_insert_ne
      by (intros E; exact (tmp_path_differs outfile (eq_sym E))).
    rewrite delete_delete_eq, insert_insert_eq. reflexivity.
  - cbn [files set_files]. rewrite lookup_insert_ne by congruence.
    now rewrite lookup_delete_ne by congruence.
  - exact Hopen.
Qed.

End PackageFile.

Lemma template_without_at_is_copied_witness :
  let plain := mk_FileEntry ("# nothing to expand" +:+ Str.nl) 420%N in
  let w := Sample.world (<["/src/plain.in" := plain]> ∅) in
  option_map text
    (files (fst (create_package_file Sample.default_mode Sample.open_error
                   Sample.read_error_text
                   "/src/plain.in" "/build/plain" "../.." "" ∅ w)) !! "/build/plain")
  = Some ("# nothing to expand" +:+ Str.nl).
Proof.
  intros plain w.
  exact (proj1 (proj2 (proj2
    (template_without_at_is_copied Sample.default_mode Sample.open_error
       Sample.read_error_text
       "/src/plain.in" "/build/plain" "../.." "" ∅ w plain eq_refl eq_refl eq_refl)))
    eq_refl).
Defined.

Lemma create_package_file_touches_its_output_only_witness :
  files (fst (create_package_file Sample.default_mode Sample.open_error
                Sample.read_error_text
                "/src/FooConfig.cmake.in" "/build/FooConfig.cmake" "../../.." "" ∅
                Sample.w0)) !! "/src/FooConfig.cmake.in"
  = Some Sample.template.
Proof.
  refine (eq_trans (proj1 (proj2 (proj2 (proj2 (proj2
    (create_package_file_touches_its_output_only Sample.default_mode Sample.open_error
       Sample.read_error_text "/src/FooConfig.cmake.in" "/build/FooConfig.cmake"
       "../../.." "" ∅ Sample.w0)) tt _))) "/src/FooConfig.cmake.in" _ _) _).
  - reflexivity.
  - discriminate.
  - discriminate.
  - reflexivity.
Defined.

Lemma create_package_file_twice_witness :
  let run := create_package_file Sample.default_mode Sample.open_error
               Sample.read_error_text
               "/src/FooConfig.cmake.in" "/build/FooConfig.cmake" "../../.." "" ∅ in
  run (fst (run Sample.w0)) = (fst (run Sample.w0), inr tt).
Proof.
  intros run.
  apply (create_package_file_twice Sample.default_mode Sample.open_error
           Sample.read_error_text
           "/src/FooConfig.cmake.in" "/build/FooConfig.cmake" "../../.." "" ∅
           Sample.w0 Sample.template eq_refl); discriminate.
Defined.

(** ** The relative path of an install directory below the prefix *)

Lemma abs_install_dir_abs (prefix install_dir : string) :
  OsPath.isabs prefix = true -> OsPath.isabs (abs_install_dir prefix install_dir) = true.
Proof.
  intros Hp. unfold abs_install_dir.
  destruct (OsPath.isabs install_dir) eqn:Hi; simpl; [exact Hi|].
  unfold OsPath.join. simpl. unfold OsPath.join_step.
  unfold OsPath.isabs in Hi. rewrite Hi.
  destruct (String.eqb prefix "" || Str.endswith_char OsPath.sep prefix);
    now apply startswith_append_l.
Qed.

(** The pieces of a path joined onto an absolute one are normalised
    after the pieces of that one. *)
Lemma fold_norm_join (start rel : string) :
  OsPath.isabs start = true -> Str.startswith "/" rel = false ->
  fold_left (OsPath.norm_step 1) (Str.split OsPath.sep (OsPath.join start [rel])) []
  = fold_left (OsPath.norm_step 1) (Str.split OsPath.sep rel)
      (fold_left (OsPath.norm_step 1) (Str.split OsPath.sep start) []).
Proof.
  intros Hs Hrel. unfold OsPath.join. simpl fold_left. unfold OsPath.join_step.
  rewrite Hrel.
  assert (Hne : String.eqb start "" = false)
    by (destruct start; [discriminate | reflexivity]).
  rewrite Hne. simpl orb.
  destruct (Str.endswith_char OsPath.sep start) eqn:Hend.
  - destruct (endswith_inv _ _ Hend) as [s' E].
    rewrite E, append_assoc.
    change (String OsPath.sep "" +:+ rel) with (String OsPath.sep rel).
    rewrite !split_app_sep, !fold_left_app. reflexivity.
  - change ("/" +:+ rel) with (String OsPath.sep rel).
    rewrite split_app_sep, fold_left_app. reflexivity.
Qed.

Lemma join_no_start (comps : list string) :
  comps <> [] -> Forall proper_component comps ->
  Str.startswith "/" (Str.join "/" comps) = false.
Proof.
  intros Hne H. destruct comps as [|a p]; [contradiction|].
  inversion H as [|? ? (Ha & _ & _ & Hfree) _]; subst.
  destruct p; simpl Str.join.
  - now apply slash_free_no_start.
  - destruct a as [|x a]; [contradiction|].
    pose proof (slash_free_no_start (String x a) Ha Hfree) as F.
    simpl in F |- *. exact F.
Qed.

Lemma common_prefix_app (l x : list string) :
  OsPath.common_prefix_len (l ++ x) l = length l.
Proof.
  induction l as [|a l IH]; simpl; [now destruct x|].
  now rewrite String.eqb_refl, IH.
Qed.

(** X5: an install directory of [n] plain components below an absolute
    prefix is [n] steps up from the prefix: the relative path is [..]
    taken [n] times, whatever the prefix and the working directory
    are. *)
Theorem relative_path_counts_the_depth (cwd prefix : string) (comps : list string) :
  OsPath.isabs prefix = true ->
  comps <> [] ->
  Forall proper_component comps ->
  let install_dir := Str.join "/" comps in
  abs_install_dir prefix install_dir = OsPath.join prefix [install_dir]
  /\ resolve_install_path cwd prefix install_dir
     = inr (Str.join "/" (repeat ".." (length comps)),
            relocation_extra prefix (OsPath.join prefix [install_dir])).
Proof.
  intros Hp Hne Hc install_dir.
  pose proof (join_no_start comps Hne Hc) as Hrel. fold install_dir in Hrel.
  assert (Habs : abs_install_dir prefix install_dir = OsPath.join prefix [install_dir]).
  { unfold abs_install_dir, OsPath.isabs. now rewrite Hrel. }
  split; [exact Habs|].
  unfold resolve_install_path. rewrite Habs.
  assert (Hja : OsPath.isabs (OsPath.join prefix [install_dir]) = true).
  { rewrite <- Habs. now apply abs_install_dir_abs. }
  rewrite (relpath_abs cwd prefix _ Hp Hja). cbv zeta.
  destruct (path_components_abs prefix Hp) as [_ Hpp].
  set (path_list := OsPath.norm_comps 1 (Str.split OsPath.sep prefix)) in *.
  assert (Hstart : OsPath.norm_comps 1
                     (Str.split OsPath.sep (OsPath.join prefix [install_dir]))
                   = path_list ++ comps).
  { unfold OsPath.norm_comps at 1. rewrite (fold_norm_join prefix install_dir Hp Hrel).
    unfold install_dir. rewrite split_join;
      [|exact Hne | eapply Forall_impl; [exact Hc|]; now intros w (_ & _ & _ & H)].
    rewrite fold_norm_push; [|discriminate | exact Hc |].
    - rewrite rev_app_distr, rev_involutive. reflexivity.
    - apply fold_norm_proper; [discriminate | apply split_parts_sep_free | constructor]. }
  rewrite Hstart, common_prefix_app, length_app, drop_all, app_nil_r.
  replace (length path_list + length comps - length path_list) with (length comps) by lia.
  destruct comps as [|c comps']; [contradiction|]. reflexivity.
Qed.

Lemma relative_path_counts_the_depth_witness :
  resolve_install_path "/anywhere" "/opt/stage" "lib/cmake/Foo"
  = inr ("../../..", relocation_extra "/opt/stage" "/opt/stage/lib/cmake/Foo").
Proof.
  refine (proj2 (relative_path_counts_the_depth "/anywhere" "/opt/stage"
                   ["lib"; "cmake"; "Foo"] eq_refl _ _)).
  - discriminate.
  - repeat constructor; discriminate.
Defined.

(** X6: the resolution of lines 258 to 267 fails for an empty prefix
    and for nothing else, and the failure is the [ValueError] of
    [relpath]; with an absolute prefix the working directory has no
    part in the result. *)
Theorem resolution_fails_on_empty_prefix_only (cwd prefix install_dir : string) :
  (prefix = "" ->
   resolve_install_path cwd prefix install_dir = inl (ValueError "no path specified"))
  /\ (forall e, resolve_install_path cwd prefix install_dir = inl e -> prefix = "")
  /\ (OsPath.isabs prefix = true ->
      forall cwd', resolve_install_path cwd' prefix install_dir
                   = resolve_install_path cwd prefix install_dir).
Proof.
  split; [|split].
  - intros ->. reflexivity.
  - intros e H. unfold resolve_install_path, OsPath.relpath in H.
    destruct (String.eqb prefix "") eqn:E; [now apply String.eqb_eq in E|].
    exfalso. revert H.
    match goal with |- context [match ?l with [] => _ | _ => _ end] => destruct l end;
      discriminate.
  - intros Hp cwd'. unfold resolve_install_path.
    pose proof (abs_install_dir_abs prefix install_dir Hp) as Ha.
    now rewrite (relpath_abs cwd' prefix _ Hp Ha), (relpath_abs cwd prefix _ Hp Ha).
Qed.

Lemma resolution_fails_on_empty_prefix_only_witness :
  resolve_install_path "/a" "/usr/local" "/usr/lib/cmake/Foo"
  = resolve_install_path "/b/c" "/usr/local" "/usr/lib/cmake/Foo".
Proof.
  exact (proj2 (proj2 (resolution_fails_on_empty_prefix_only
                         "/b/c" "/usr/local" "/usr/lib/cmake/Foo")) eq_refl "/a").
Defined.

(** ** The text of the composed blocks *)

Lemma replace_without_first (a : ascii) (old new s : string) :
  all_chars (fun c => negb (Ascii.eqb c a)) s = true ->
  Str.replace (String a old) new s = s.
Proof.
  intros H. apply replace_absent; [discriminate | now apply contains_needs_first].
Qed.

(** X7: the block is put together by plain insertion: with a relative
    path that has no [@] in it, the block is its fixed head, the input
    file name as given, the fixed middle, the relative path, the fixed
    end, the extra block and the macro; and with an absolute install
    directory that has no [@] in it and matches the pattern of line
    265, the extra block is its three fixed parts around that directory
    and the prefix as given. *)
Theorem blocks_are_plain_insertions
    (infile PACKAGE_RELATIVE_PATH extra prefix abs_dir : string) :
  (all_chars (fun c => negb (Ascii.eqb c "@")) PACKAGE_RELATIVE_PATH = true ->
   compose_package_init infile PACKAGE_RELATIVE_PATH extra
   = PACKAGE_INIT_HEAD +:+ infile +:+ PACKAGE_INIT_MID +:+ PACKAGE_RELATIVE_PATH
     +:+ PACKAGE_INIT_END +:+ extra +:+ PACKAGE_INIT_SET_AND_CHECK)
  /\ (all_chars (fun c => negb (Ascii.eqb c "@")) abs_dir = true ->
      Re.lib_regex abs_dir = true ->
      relocation_extra prefix abs_dir
      = PACKAGE_INIT_EXT_HEAD +:+ abs_dir +:+ PACKAGE_INIT_EXT_MID +:+ prefix
        +:+ PACKAGE_INIT_EXT_END).
Proof.
  split.
  - intros H. rewrite compose_package_init_parts. unfold package_init_tail.
    change (" ########" +:+ Str.nl +:+ Str.nl +:+
            "get_filename_component(PACKAGE_PREFIX_DIR " +:+ Str.dq +:+
            "${CMAKE_CURRENT_LIST_DIR}/" +:+ PACKAGE_RELATIVE_PATH +:+ Str.dq
            +:+ " ABSOLUTE)" +:+ Str.nl)
      with (PACKAGE_INIT_MID +:+ PACKAGE_RELATIVE_PATH +:+ PACKAGE_INIT_END).
    rewrite replace_without_first.
    + rewrite (append_assoc PACKAGE_INIT_MID). now rewrite (append_assoc PACKAGE_RELATIVE_PATH).
    + rewrite !all_chars_app, H. reflexivity.
  - intros H Hm. unfold relocation_extra. rewrite Hm.
    assert (E : Str.replace "@absInstallDir@" abs_dir PACKAGE_INIT_EXT
                = (PACKAGE_INIT_EXT_HEAD +:+ abs_dir +:+ PACKAGE_INIT_EXT_MID)
                  +:+ "@installPrefix@" +:+ PACKAGE_INIT_EXT_END).
    { rewrite (append_assoc PACKAGE_INIT_EXT_HEAD), (append_assoc abs_dir).
      vm_compute. reflexivity. }
    rewrite E, replace_first by (rewrite !all_chars_app, H; reflexivity).
    rewrite (replace_without_first "@" "installPrefix@" prefix PACKAGE_INIT_EXT_END)
      by reflexivity.
    rewrite (append_assoc PACKAGE_INIT_EXT_HEAD). now rewrite (append_assoc abs_dir).
Qed.

Lemma blocks_are_plain_insertions_witness :
  compose_package_init "/src/FooConfig.cmake.in" "../../.." ""
  = PACKAGE_INIT_HEAD +:+ "/src/FooConfig.cmake.in" +:+ PACKAGE_INIT_MID +:+ "../../.."
    +:+ PACKAGE_INIT_END +:+ "" +:+ PACKAGE_INIT_SET_AND_CHECK
  /\ relocation_extra "/usr" "/usr/lib/cmake/Foo"
     = PACKAGE_INIT_EXT_HEAD +:+ "/usr/lib/cmake/Foo" +:+ PACKAGE_INIT_EXT_MID +:+ "/usr"
       +:+ PACKAGE_INIT_EXT_END.
Proof.
  split.
  - exact (proj1 (blocks_are_plain_insertions "/src/FooConfig.cmake.in" "../../.." ""
                    "/usr" "/usr/lib/cmake/Foo") eq_refl).
  - exact (proj2 (blocks_are_plain_insertions "/src/FooConfig.cmake.in" "../../.." ""
                    "/usr" "/usr/lib/cmake/Foo") eq_refl eq_refl).
Defined.

(** ** What [configure_package_config_file] does as a whole *)

Lemma resolve_install_path_total (cwd prefix install_dir : string) :
  prefix <> "" ->
  exists rel,
    resolve_install_path cwd prefix install_dir
    = inr (rel, relocation_extra prefix (abs_install_dir prefix install_dir)).
Proof.
  intros Hp. unfold resolve_install_path, OsPath.relpath.
  destruct (String.eqb prefix "") eqn:E; [now apply String.eqb_eq in E|].
  match goal with |- context [match ?l with [] => _ | _ => _ end] => destruct l end;
    eexists; reflexivity.
Qed.


(** *** Splitting what has been joined *)

Lemma after_last_sep_free (b : string) : slash_free b -> OsPath.after_last_sep b = 0.
Proof.
  unfold slash_free. induction b as [|c b IH]; [reflexivity|].
  intros H. simpl in H. apply andb_true_iff in H as [Hc H]. apply negb_true_iff in Hc.
  simpl. now rewrite (IH H), Hc.
Qed.

Lemma after_last_sep_app (a b : string) :
  slash_free b ->
  OsPath.after_last_sep (a +:+ String OsPath.sep b) = S (String.length a).
Proof.
  intros Hb. induction a as [|c a IH].
  - simpl. rewrite (after_last_sep_free b Hb). reflexivity.
  - simpl. now rewrite IH.
Qed.

Lemma drop_append (a b : string) : Str.drop (String.length a) (a +:+ b) = b.
Proof. induction a as [|c a IH]; simpl; [now destruct b | exact IH]. Qed.

Lemma not_all_sep (p : string) :
  p <> "" -> Str.endswith_char OsPath.sep p = false ->
  String.eqb (p +:+ "/") (Str.repeat_char OsPath.sep (String.length (p +:+ "/"))) = false.
Proof.
  induction p as [|c p IH]; [contradiction|]. intros _ H.
  destruct p as [|d p].
  - simpl in H |- *. now rewrite H.
  - change (Str.endswith_char OsPath.sep (String d p) = false) in H.
    change (((c =? OsPath.sep)%char
             && String.eqb (String d p +:+ "/")
                  (Str.repeat_char OsPath.sep (String.length (String d p +:+ "/"))))
            = false).
    rewrite IH by (discriminate || exact H). apply andb_false_r.
Qed.

Lemma rstrip_sep_app (p : string) :
  p <> "" -> Str.endswith_char OsPath.sep p = false ->
  OsPath.rstrip_sep (p +:+ "/") = p.
Proof.
  induction p as [|c p IH]; [contradiction|]. intros _ H.
  destruct p as [|d p].
  - simpl in H |- *. now rewrite H.
  - change (Str.endswith_char OsPath.sep (String d p) = false) in H.
    change (match OsPath.rstrip_sep (String d p +:+ "/") with
            | "" => if (c =? OsPath.sep)%char then "" else String c ""
            | String x r => String c (String x r)
            end = String c (String d p)).
    now rewrite IH by (discriminate || exact H).
Qed.

(** A plain file name joined to a directory that does not end in a
    slash is split into that directory and that name. *)
Lemma split_join_name (dir name : string) :
  Str.endswith_char OsPath.sep dir = false -> name <> "" -> slash_free name ->
  OsPath.split (OsPath.join dir [name]) = (dir, name).
Proof.
  intros Hd Hne Hn. unfold OsPath.join. simpl fold_left. unfold OsPath.join_step.
  rewrite (slash_free_no_start name Hne Hn).
  destruct dir as [|c dir].
  - simpl orb. cbv iota. change ("" +:+ name) with name.
    unfold OsPath.split. rewrite (after_last_sep_free name Hn). reflexivity.
  - change (String.eqb (String c dir) "") with false. rewrite Hd. simpl orb. cbv iota.
    set (p := String c dir) in *.
    assert (Hp : p <> "") by discriminate.
    unfold OsPath.split.
    change (p +:+ "/" +:+ name) with (p +:+ String OsPath.sep name).
    rewrite (after_last_sep_app p name Hn).
    replace (S (String.length p)) with (String.length (p +:+ "/"))
      by (rewrite length_append; simpl; lia).
    change (p +:+ String OsPath.sep name) with (p +:+ ("/" +:+ name)).
    rewrite <- (append_assoc p "/" name), take_append, drop_append.
    cbv zeta. rewrite not_all_sep by assumption.
    assert (Hnon : OsPath.nonempty (p +:+ "/") = true) by reflexivity.
    rewrite Hnon. simpl andb. cbv iota. now rewrite rstrip_sep_app.
Qed.

Section ConfigureCall.

Variable default_mode : N.
Variable open_error : string -> option exn.
Variable str_other : pyval -> string.
Variable from_source_file :
  gmap string FileEntry -> string -> string -> string -> exn + File.
Variable absolute_path : File -> string -> string -> string.
Variable relative_name : File -> string.
Variable read_error_text : string -> string.

Local Abbreviation cfg :=
  (configure_package_config_file default_mode open_error str_other from_source_file
     absolute_path relative_name read_error_text).
Local Abbreviation input := (input_file from_source_file).
Local Abbreviation from :=
  (configure_from default_mode open_error str_other absolute_path relative_name read_error_text).

Lemma configure_from_runs (state : ModuleState) (kwargs : gmap string pyval)
    (f : File) (w : World) (name : string) (conf_id : nat)
    (conf : gmap string (string * string)) (fin : FileEntry) :
  kwargs !! "name" = Some (PStr name) ->
  kwargs !! "install_dir" = None ->
  kwargs !! "configuration" = Some (PConf conf_id conf) ->
  option_prefix state <> "" ->
  files w !! absolute_path f (source_dir state) (build_dir state) = Some fin ->
  let ifile_abs := absolute_path f (source_dir state) (build_dir state) in
  let ofile := OsPath.split (OsPath.join (subdir state) [name +:+ "Config.cmake"]) in
  let ofile_abs := OsPath.join (build_dir state) [fst ofile; snd ofile] in
  let install_dir := OsPath.join (option_libdir state) ["cmake"; name] in
  let res := mk_Data (mk_File true (fst ofile) (snd ofile)) install_dir in
  open_error (ofile_abs +:+ "~") = None ->
  exists rel,
    resolve_install_path (cwd w) (option_prefix state) install_dir
    = inr (rel, relocation_extra (option_prefix state)
                  (abs_install_dir (option_prefix state) install_dir))
    /\ from state kwargs f w
       = (configured w
            (<[ofile_abs :=
                 mk_FileEntry
                   (Str.concat
                      (render (compose_package_init ifile_abs rel
                                 (relocation_extra (option_prefix state)
                                    (abs_install_dir (option_prefix state) install_dir)))
                              conf (readlines (text fin))))
                   (mode fin)]>
               (delete (ofile_abs +:+ "~") (files w)))
            (OsPath.normpath (relative_name f)) res conf_id,
          inr res).
Proof.
  intros Hname Hdir Hconf Hprefix Hin ifile_abs ofile ofile_abs install_dir res Hopen.
  destruct (resolve_install_path_total (cwd w) (option_prefix state) install_dir Hprefix)
    as [rel Hrel].
  exists rel. split; [exact Hrel|].
  unfold configure_from. rewrite Hname, Hdir, Hconf.
  cbn [py_str]. fold ofile. unfold ofile_abs in Hopen.
  destruct ofile as [ofile_path ofile_fname] eqn:Eo. cbn [fst snd] in Hopen.
  unfold bind at 1. unfold ret at 1. cbv beta iota zeta. cbn [fst snd].
  unfold bind at 1. unfold read_local, ret at 1. cbv beta iota zeta. cbn [fst snd].
  unfold bind at 1. unfold get at 1. cbv beta iota zeta. cbn [fst snd].
  unfold bind at 1. unfold lift at 1. cbv beta iota zeta. cbn [fst snd].
  fold install_dir. rewrite Hrel.
  unfold bind at 1.
  rewrite (create_package_file_runs default_mode open_error read_error_text
             _ _ _ _ _ w fin Hin Hopen).
  unfold bind, modify, get, ret. cbv beta iota zeta. cbn [fst snd].
  unfold configured. cbn [build_def_files set_files set_used_confs].
  destruct (bool_decide (OsPath.normpath (relative_name f) ∈ build_def_files w));
    reflexivity.
Qed.

(** An exception of [configure_from] comes before anything is done. *)
Lemma configure_from_error (state : ModuleState) (kwargs : gmap string pyval)
    (f : File) (w w' : World) (e : exn) :
  from state kwargs f w = (w', inl e) -> w' = w.
Proof.
  unfold configure_from.
  destruct (kwargs !! "name") as [n|]; [|unfold raise; congruence].
  destruct (OsPath.split _) as [ofile_path ofile_fname].
  destruct (kwargs !! "install_dir") as [d|].
  { unfold bind, ret, read_local, raise. cbv beta iota zeta. cbn [fst snd]. congruence. }
  destruct n as [| | |name| | |]; try (unfold bind, raise; cbn [fst snd]; congruence).
  unfold bind at 1. unfold ret at 1. cbv beta iota zeta. cbn [fst snd].
  unfold bind at 1. unfold read_local, ret at 1. cbv beta iota zeta. cbn [fst snd].
  destruct (kwargs !! "configuration") as [c|]; [|unfold raise; congruence].
  destruct c as [| | | | | |conf_id conf]; try (unfold raise; congruence).
  unfold bind at 1. unfold get at 1. cbv beta iota zeta. cbn [fst snd].
  unfold bind at 1. unfold lift at 1. cbv beta iota zeta. cbn [fst snd].
  destruct (resolve_install_path _ _ _) as [e'|[rel extra]]; [congruence|].
  unfold bind at 1.
  destruct (files w !! absolute_path f (source_dir state) (build_dir state))
    as [fin|] eqn:Hin.
  - destruct (open_error (OsPath.join (build_dir state) [ofile_path; ofile_fname] +:+ "~"))
      as [eo|] eqn:Hopen.
    + rewrite (create_package_file_closed default_mode open_error read_error_text
                 _ _ _ _ _ w fin eo Hin Hopen).
      congruence.
    + rewrite (create_package_file_runs default_mode open_error read_error_text
                 _ _ _ _ _ w fin Hin Hopen).
      unfold bind, modify, get, ret. cbv beta iota zeta. cbn [fst snd build_def_files].
      destruct (bool_decide _); discriminate.
  - rewrite (create_package_file_unreadable default_mode open_error read_error_text
               _ _ _ _ _ w Hin).
    congruence.
Qed.

(** What a call that ends well has been given. *)
Lemma configure_from_success (state : ModuleState) (kwargs : gmap string pyval)
    (f : File) (w w' : World) (res : Data) :
  from state kwargs f w = (w', inr res) ->
  (exists name,
     kwargs !! "name" = Some (PStr name)
     /\ let ofile := OsPath.split (OsPath.join (subdir state) [name +:+ "Config.cmake"]) in
        open_error (OsPath.join (build_dir state) [fst ofile; snd ofile] +:+ "~") = None)
  /\ kwargs !! "install_dir" = None
  /\ (exists conf_id conf, kwargs !! "configuration" = Some (PConf conf_id conf))
  /\ option_prefix state <> ""
  /\ is_Some (files w !! absolute_path f (source_dir state) (build_dir state)).
Proof.
  unfold configure_from.
  destruct (kwargs !! "name") as [n|]; [|unfold raise; congruence].
  destruct (kwargs !! "install_dir") as [d|].
  { destruct (OsPath.split _) as [ofile_path ofile_fname].
    unfold bind, ret, read_local, raise. cbv beta iota zeta. cbn [fst snd]. congruence. }
  destruct n as [| | |name| | |];
    try (destruct (OsPath.split _) as [ofile_path ofile_fname];
         unfold bind, raise; cbn [fst snd]; congruence).
  cbn [py_str].
  destruct (OsPath.split (OsPath.join (subdir state) [name +:+ "Config.cmake"]))
    as [ofile_path ofile_fname] eqn:Eo.
  unfold bind at 1. unfold ret at 1. cbv beta iota zeta. cbn [fst snd].
  unfold bind at 1. unfold read_local, ret at 1. cbv beta iota zeta. cbn [fst snd].
  destruct (kwargs !! "configuration") as [c|]; [|unfold raise; congruence].
  destruct c as [| | | | | |conf_id conf]; try (unfold raise; congruence).
  unfold bind at 1. unfold get at 1. cbv beta iota zeta. cbn [fst snd].
  unfold bind at 1. unfold lift at 1. cbv beta iota zeta. cbn [fst snd].
  destruct (resolve_install_path _ _ _) as [e'|[rel extra]] eqn:Hres; [congruence|].
  unfold bind at 1.
  destruct (files w !! absolute_path f (source_dir state) (build_dir state))
    as [fin|] eqn:Hin.
  - destruct (open_error (OsPath.join (build_dir state) [ofile_path; ofile_fname] +:+ "~"))
      as [eo|] eqn:Hopen.
    + rewrite (create_package_file_closed default_mode open_error read_error_text
                 _ _ _ _ _ w fin eo Hin Hopen).
      congruence.
    + intros _. split; [exists name; split; [reflexivity | now rewrite Eo]|].
      repeat split; eauto.
      intros Hp. rewrite Hp in Hres. discriminate.
  - rewrite (create_package_file_unreadable default_mode open_error read_error_text
               _ _ _ _ _ w Hin).
    congruence.
Qed.

(** X8: a call of [configure_package_config_file] that ends in an
    exception has done nothing: no file is written, nothing is added
    to the lists of the interpreter and the configuration is not marked
    as used. *)
Theorem configure_fails_before_it_acts (state : ModuleState) (args : list pyval)
    (kwargs : gmap string pyval) (w w' : World) (e : exn) :
  cfg state args kwargs w = (w', inl e) -> w' = w.
Proof.
  unfold configure_package_config_file.
  destruct args; [|unfold raise; congruence].
  unfold bind. pose proof (input_file_pure from_source_file state kwargs w) as Hpure.
  destruct (input state kwargs w) as [w1 [e1|f]]; cbn [fst] in Hpure; subst w1.
  - congruence.
  - apply configure_from_error.
Qed.

(** X9: the calls of [configure_package_config_file] that end well are
    those without a positional argument, with an [input] that gives a
    file that can be read, a [name] that is a string and gives an
    output whose temporary path opens for writing, no [install_dir], a
    [configuration] that is configuration data, and a prefix that is
    not empty. *)
Theorem configure_succeeds_exactly_when (state : ModuleState) (args : list pyval)
    (kwargs : gmap string pyval) (w : World) :
  (exists w' res, cfg state args kwargs w = (w', inr res))
  <-> (args = []
       /\ (exists f, input state kwargs w = (w, inr f)
                     /\ is_Some (files w !! absolute_path f (source_dir state)
                                                          (build_dir state)))
       /\ (exists name,
             kwargs !! "name" = Some (PStr name)
             /\ let ofile :=
                  OsPath.split (OsPath.join (subdir state) [name +:+ "Config.cmake"]) in
                open_error (OsPath.join (build_dir state) [fst ofile; snd ofile] +:+ "~")
                = None)
       /\ kwargs !! "install_dir" = None
       /\ (exists conf_id conf, kwargs !! "configuration" = Some (PConf conf_id conf))
       /\ option_prefix state <> "").
Proof.
  split.
  - intros (w' & res & H). unfold configure_package_config_file in H.
    destruct args; [|unfold raise in H; congruence].
    split; [reflexivity|].
    unfold bind in H.
    pose proof (input_file_pure from_source_file state kwargs w) as Hpure.
    destruct (input state kwargs w) as [w1 [e1|f]]; cbn [fst] in Hpure; subst w1;
      [congruence|].
    destruct (configure_from_success _ _ _ _ _ _ H) as (Hn & Hd & Hc & Hp & Hf).
    repeat split; eauto.
  - intros (-> & (f & Hi & [fin Hf]) & (name & Hn & Ho) & Hd & (conf_id & conf & Hc) & Hp).
    unfold configure_package_config_file, bind. rewrite Hi.
    destruct (configure_from_runs state kwargs f w name conf_id conf fin Hn Hd Hc Hp Hf Ho)
      as (rel & _ & ->).
    eexists _, _. reflexivity.
Qed.

(** The state and the result of a call that ends well. *)
Lemma configure_ends_well (state : ModuleState) (args : list pyval)
    (kwargs : gmap string pyval) (w w' : World) (res : Data) :
  cfg state args kwargs w = (w', inr res) ->
  exists f name conf_id conf fs,
    input state kwargs w = (w, inr f)
    /\ kwargs !! "name" = Some (PStr name)
    /\ kwargs !! "configuration" = Some (PConf conf_id conf)
    /\ (let ofile := OsPath.split (OsPath.join (subdir state) [name +:+ "Config.cmake"]) in
        let ofile_abs := OsPath.join (build_dir state) [fst ofile; snd ofile] in
        res = mk_Data (mk_File true (fst ofile) (snd ofile))
                      (OsPath.join (option_libdir state) ["cmake"; name])
        /\ is_Some (fs !! ofile_abs)
        /\ fs !! (ofile_abs +:+ "~") = None
        /\ (forall p, p <> ofile_abs -> p <> ofile_abs +:+ "~" -> fs !! p = files w !! p))
    /\ w' = configured w fs (OsPath.normpath (relative_name f)) res conf_id.
Proof.
  intros H. unfold configure_package_config_file in H.
  destruct args; [|unfold raise in H; congruence].
  unfold bind in H.
  pose proof (input_file_pure from_source_file state kwargs w) as Hpure.
  destruct (input state kwargs w) as [w1 [e1|f]] eqn:Hi; cbn [fst] in Hpure; subst w1;
    [congruence|].
  destruct (configure_from_success _ _ _ _ _ _ H)
    as ((name & Hn & Hopen) & Hd & (conf_id & conf & Hc) & Hp & [fin Hf]).
  destruct (configure_from_runs state kwargs f w name conf_id conf fin Hn Hd Hc Hp Hf
              Hopen) as (rel & _ & E).
  rewrite E in H. injection H as <- <-.
  eexists f, name, conf_id, conf, _.
  split; [reflexivity|]. split; [exact Hn|]. split; [exact Hc|].
  split; [|reflexivity].
  cbv zeta. split; [reflexivity|]. split; [|split].
  - rewrite lookup_insert_eq. eexists; reflexivity.
  - rewrite lookup_insert_ne by (apply tmp_path_differs). apply lookup_delete_eq.
  - intros p Ho Ht. rewrite lookup_insert_ne by (intros Ep; apply Ho; symmetry; exact Ep).
    now rewrite lookup_delete_ne by (intros Ep; apply Ht; symmetry; exact Ep).
Qed.

(** X10: a call that ends well returns the data it has appended to
    the data of the build, installs it to [<libdir>/cmake/<name>],
    marks its configuration as used, and has the normalised name of
    its input among the build definition files, added at the end when
    it was not there and not added again when it was; nothing else of
    the state but the files is changed. *)
Theorem configure_registers_its_result (state : ModuleState) (args : list pyval)
    (kwargs : gmap string pyval) (w w' : World) (res : Data) :
  cfg state args kwargs w = (w', inr res) ->
  build_data w' = build_data w ++ [res]
  /\ is_built (data_file res) = true
  /\ (exists name, kwargs !! "name" = Some (PStr name)
        /\ data_install_dir res = OsPath.join (option_libdir state) ["cmake"; name])
  /\ (exists conf_id conf, kwargs !! "configuration" = Some (PConf conf_id conf)
        /\ used_confs w' = used_confs w ++ [conf_id])
  /\ (exists f, input state kwargs w = (w, inr f)
        /\ let conffile := OsPath.normpath (relative_name f) in
           conffile ∈ build_def_files w'
           /\ (conffile ∈ build_def_files w -> build_def_files w' = build_def_files w)
           /\ (conffile ∉ build_def_files w ->
               build_def_files w' = build_def_files w ++ [conffile]))
  /\ (NoDup (build_def_files w) -> NoDup (build_def_files w'))
  /\ (cwd w', cmake_detected w', cmake_root w', cmake_runs w', sizeof_runs w', mlog w')
     = (cwd w, cmake_detected w, cmake_root w, cmake_runs w, sizeof_runs w, mlog w).
Proof.
  intros H.
  destruct (configure_ends_well _ _ _ _ _ _ H)
    as (f & name & conf_id & conf & fs & Hi & Hn & Hc & (Hres & _) & ->).
  unfold configured. cbn [build_data used_confs build_def_files cwd cmake_detected
                          cmake_root cmake_runs sizeof_runs mlog].
  split; [reflexivity|]. split; [now rewrite Hres|].
  split; [exists name; split; [exact Hn | now rewrite Hres]|].
  split; [exists conf_id, conf; split; [exact Hc | reflexivity]|].
  split; [|split; [|reflexivity]].
  - exists f. split; [exact Hi|]. cbv zeta.
    destruct (bool_decide (OsPath.normpath (relative_name f) ∈ build_def_files w)) eqn:E.
    + apply bool_decide_eq_true_1 in E. split; [exact E|]. split; [reflexivity|].
      intros Hnot. contradiction.
    + apply bool_decide_eq_false_1 in E. split; [|split; [contradiction | reflexivity]].
      apply elem_of_app. right. apply list_elem_of_singleton. reflexivity.
  - intros Hnd.
    destruct (bool_decide (OsPath.normpath (relative_name f) ∈ build_def_files w)) eqn:E;
      [exact Hnd|].
    apply bool_decide_eq_false_1 in E.
    apply NoDup_app. split; [exact Hnd|]. split; [|apply NoDup_singleton].
    intros x Hx Hx'. apply list_elem_of_singleton in Hx'. now subst.
Qed.

(** X11: with a name without a slash and a subdirectory that does not
    end in one, the file is written to [<name>Config.cmake] in that
    subdirectory of the build directory, nothing is left at the
    temporary path beside it, every other path holds what it held, and
    the file returned is that name in that subdirectory. *)
Theorem output_lands_in_build_subdir (state : ModuleState) (args : list pyval)
    (kwargs : gmap string pyval) (w w' : World) (res : Data) (name : string) :
  cfg state args kwargs w = (w', inr res) ->
  kwargs !! "name" = Some (PStr name) ->
  slash_free name ->
  Str.endswith_char OsPath.sep (subdir state) = false ->
  let ofile_fname := name +:+ "Config.cmake" in
  let ofile_abs := OsPath.join (build_dir state) [subdir state; ofile_fname] in
  res = mk_Data (mk_File true (subdir state) ofile_fname)
                (OsPath.join (option_libdir state) ["cmake"; name])
  /\ is_Some (files w' !! ofile_abs)
  /\ files w' !! (ofile_abs +:+ "~") = None
  /\ (forall p, p <> ofile_abs -> p <> ofile_abs +:+ "~" ->
        files w' !! p = files w !! p).
Proof.
  intros H Hn Hfree Hsub ofile_fname ofile_abs.
  destruct (configure_ends_well _ _ _ _ _ _ H)
    as (f & name' & conf_id & conf & fs & _ & Hn' & _ & Hout & ->).
  rewrite Hn in Hn'. injection Hn' as <-.
  fold ofile_fname in Hout.
  assert (Hsplit : OsPath.split (OsPath.join (subdir state) [ofile_fname])
                   = (subdir state, ofile_fname)).
  { apply split_join_name; [exact Hsub | |].
    - unfold ofile_fname. destruct name; discriminate.
    - unfold slash_free, ofile_fname in *. rewrite all_chars_app, Hfree. reflexivity. }
  rewrite Hsplit in Hout. cbn [fst snd] in Hout. fold ofile_abs in Hout.
  exact Hout.
Qed.

End ConfigureCall.

Lemma configure_fails_before_it_acts_witness :
  let kwargs : gmap string pyval :=
    <["input" := PStr "FooConfig.cmake.in"]>
      (<["name" := PStr "sub/Foo"]> (<["configuration" := PConf 7 ∅]> ∅)) in
  fst (configure_package_config_file Sample.default_mode Sample.open_error Sample.str_other
         Sample.from_source_file Sample.absolute_path Sample.relative_name
         Sample.read_error_text Sample.state [] kwargs Sample.w0)
  = Sample.w0.
Proof.
  intros kwargs.
  apply (configure_fails_before_it_acts Sample.default_mode Sample.open_error Sample.str_other
           Sample.from_source_file Sample.absolute_path Sample.relative_name
           Sample.read_error_text Sample.state [] kwargs Sample.w0 _
           (OSError "No such file or directory: /build/sub/FooConfig.cmake~")).
  vm_compute. reflexivity.
Defined.

Lemma configure_registers_its_result_witness :
  let r := configure_package_config_file Sample.default_mode Sample.open_error Sample.str_other
             Sample.from_source_file Sample.absolute_path Sample.relative_name
             Sample.read_error_text Sample.state [] SampleCall.kwargs Sample.w0 in
  used_confs (fst r) = [7] /\ build_def_files (fst r) = ["FooConfig.cmake.in"].
Proof.
  intros r.
  assert (H : r = (fst r, inr (mk_Data (mk_File true "" "FooConfig.cmake") "lib/cmake/Foo")))
    by (vm_compute; reflexivity).
  destruct (configure_registers_its_result _ _ _ _ _ _ _ _ _ _ _ _ _ H)
    as (_ & _ & _ & (conf_id & conf & Hc & Hu) & (f & Hi & _ & _ & Hd) & _).
  split.
  - rewrite Hu. injection Hc as <- _. reflexivity.
  - injection Hi as <-. apply Hd. vm_compute. inversion 1.
Defined.

Lemma output_lands_in_build_subdir_witness :
  let r := configure_package_config_file Sample.default_mode Sample.open_error Sample.str_other
             Sample.from_source_file Sample.absolute_path Sample.relative_name
             Sample.read_error_text Sample.state [] SampleCall.kwargs Sample.w0 in
  is_Some (files (fst r) !! "/build/FooConfig.cmake")
  /\ files (fst r) !! "/src/FooConfig.cmake.in" = Some Sample.template.
Proof.
  intros r.
  assert (H : r = (fst r, inr (mk_Data (mk_File true "" "FooConfig.cmake") "lib/cmake/Foo")))
    by (vm_compute; reflexivity).
  destruct (output_lands_in_build_subdir _ _ _ _ _ _ _ _ _ _ _ _ _ "Foo" H eq_refl eq_refl
              eq_refl) as (_ & Hout & _ & Hrest).
  split; [exact Hout|].
  rewrite Hrest by discriminate. reflexivity.
Defined.

(** ** Reading the root of [cmake] from its output *)

Lemma startswith_long (p x y : string) :
  String.length p <= String.length x ->
  Str.startswith p (x +:+ y) = Str.startswith p x.
Proof.
  revert x. induction p as [|a p IH]; intros x H; [reflexivity|].
  destruct x as [|c x]; [simpl in H; lia|].
  simpl. destruct (Ascii.eqb a c); [|reflexivity]. apply IH. simpl in H. lia.
Qed.

(** A text that is shorter than a pattern and is followed by a
    character the pattern does not have cannot start with it. *)
Lemma startswith_short (h : ascii) (p x r : string) :
  all_chars (fun c => negb (Ascii.eqb c h)) p = true ->
  String.length x < String.length p ->
  Str.startswith p (x +:+ String h r) = false.
Proof.
  revert x. induction p as [|a p IH]; intros x Hp Hx; [simpl in Hx; lia|].
  simpl in Hp. apply andb_true_iff in Hp as [Ha Hp]. apply negb_true_iff in Ha.
  destruct x as [|c x].
  - simpl. now rewrite Ha.
  - simpl. destruct (Ascii.eqb a c); [|reflexivity]. apply IH; [exact Hp|].
    simpl in Hx. lia.
Qed.

(** A pattern whose first character does not come back in it is found
    in front of itself only where it is found in what is in front. *)
Lemma startswith_no_straddle (h : ascii) (t x r : string) :
  all_chars (fun c => negb (Ascii.eqb c h)) t = true ->
  x <> "" ->
  Str.startswith (String h t) (x +:+ String h t +:+ r) = Str.startswith (String h t) x.
Proof.
  intros Ht Hx.
  destruct (le_lt_dec (String.length (String h t)) (String.length x)) as [L|L].
  - now apply startswith_long.
  - destruct x as [|c x]; [contradiction|].
    change (String h t +:+ r) with (String h (t +:+ r)).
    simpl in L. simpl. destruct (Ascii.eqb h c); [|reflexivity].
    rewrite (startswith_short h t x (t +:+ r) Ht) by lia.
    symmetry. clear Hx. revert x L. induction t as [|a t IH]; intros x L; [simpl in L; lia|].
    destruct x as [|d x]; [reflexivity|].
    simpl in Ht. apply andb_true_iff in Ht as [_ Ht].
    simpl. destruct (Ascii.eqb a d); [|reflexivity].
    apply IH; [exact Ht|]. simpl in L. lia.
Qed.

Lemma cmake_root_regex_needs_head (s : string) :
  Str.startswith CMAKE_ROOT_HEAD s = false -> Re.cmake_root_regex s = None.
Proof.
  intros H. unfold Re.cmake_root_regex. cbv zeta.
  change (Str.nl +:+ "CMAKE_ROOT " +:+ Str.dq) with CMAKE_ROOT_HEAD. now rewrite H.
Qed.

(** Where the start of the line is not found, the search finds
    nothing. *)
Lemma search_needs_head (s : string) :
  Str.contains CMAKE_ROOT_HEAD s = false ->
  Re.search Re.cmake_root_regex s = None.
Proof.
  induction s as [|c s IH]; intros H.
  - reflexivity.
  - change (Str.startswith CMAKE_ROOT_HEAD (String c s) || Str.contains CMAKE_ROOT_HEAD s
            = false) in H.
    apply orb_false_iff in H as [H1 H2].
    change (match Re.cmake_root_regex (String c s) with
            | Some m => Some m
            | None => Re.search Re.cmake_root_regex s
            end = None).
    rewrite (cmake_root_regex_needs_head _ H1). now apply IH.
Qed.

Lemma search_found_has_head (s : string) (m : Re.re_match) :
  Re.search Re.cmake_root_regex s = Some m -> Str.contains CMAKE_ROOT_HEAD s = true.
Proof.
  intros H. destruct (Str.contains CMAKE_ROOT_HEAD s) eqn:E; [reflexivity|].
  rewrite (search_needs_head s E) in H. discriminate.
Qed.

(** The line that names the root, matched where it starts. *)
Lemma cmake_root_regex_line (root post : string) :
  root <> "" -> all_chars Re.not_quote root = true ->
  Re.cmake_root_regex (CMAKE_ROOT_HEAD +:+ root +:+ Str.dq +:+ Str.nl +:+ post)
  = Some (Re.mk_match (CMAKE_ROOT_HEAD +:+ root +:+ Str.dq +:+ Str.nl) (Some root)).
Proof.
  intros Hne Hq. unfold Re.cmake_root_regex. cbv zeta.
  change (Str.nl +:+ "CMAKE_ROOT " +:+ Str.dq) with CMAKE_ROOT_HEAD.
  rewrite startswith_append, drop_append.
  rewrite (plus_then_complete Re.not_quote _ root (Str.dq +:+ Str.nl +:+ post) Hne Hq);
    reflexivity.
Qed.

Lemma search_here (regex : Re.pattern) (s : string) (m : Re.re_match) :
  regex s = Some m -> Re.search regex s = Some m.
Proof. intros H. destruct s; simpl; now rewrite H. Qed.

(** The search passes over what is in front of the first line that
    names the root. *)
Lemma search_skips (pre rest : string) (m : Re.re_match) :
  Str.contains CMAKE_ROOT_HEAD pre = false ->
  Re.cmake_root_regex (CMAKE_ROOT_HEAD +:+ rest) = Some m ->
  Re.search Re.cmake_root_regex (pre +:+ CMAKE_ROOT_HEAD +:+ rest) = Some m.
Proof.
  intros Hpre Hm. induction pre as [|c pre IH].
  - change ("" +:+ CMAKE_ROOT_HEAD +:+ rest) with (CMAKE_ROOT_HEAD +:+ rest).
    now apply search_here.
  - change (Str.startswith CMAKE_ROOT_HEAD (String c pre)
            || Str.contains CMAKE_ROOT_HEAD pre = false) in Hpre.
    apply orb_false_iff in Hpre as [H1 H2].
    change (match Re.cmake_root_regex (String c pre +:+ CMAKE_ROOT_HEAD +:+ rest) with
            | Some m' => Some m'
            | None => Re.search Re.cmake_root_regex (pre +:+ CMAKE_ROOT_HEAD +:+ rest)
            end = Some m).
    rewrite cmake_root_regex_needs_head; [now apply IH|].
    rewrite <- H1.
    apply (startswith_no_straddle (ascii_of_nat 10) ("CMAKE_ROOT " +:+ Str.dq));
      [reflexivity | discriminate].
Qed.

Lemma filter_parts_proper (l : list string) :
  Forall proper_component l ->
  filter (fun x => (OsPath.nonempty x && negb (String.eqb x ".")) = true) l = l.
Proof.
  induction 1 as [|x l (Hx & Hd & _ & _) _ IH]; [reflexivity|].
  rewrite filter_cons_True, IH; [reflexivity|].
  unfold OsPath.nonempty. apply String.eqb_neq in Hx, Hd. now rewrite Hx, Hd.
Qed.

(** The parts of an absolute path of plain components, and the path
    they are joined to again. *)
Lemma purepath_parts_abs (comps : list string) :
  comps <> [] -> Forall proper_component comps ->
  OsPath.purepath_parts ("/" +:+ Str.join "/" comps) = "/" :: comps.
Proof.
  intros Hne Hc. unfold OsPath.purepath_parts.
  assert (Hs : Str.startswith "/" (Str.join "/" comps) = false)
    by (now apply join_no_start).
  assert (Hi : OsPath.initial_slashes ("/" +:+ Str.join "/" comps) = 1).
  { unfold OsPath.initial_slashes.
    change (Str.startswith "/" ("/" +:+ Str.join "/" comps)) with true.
    change (Str.startswith "//" ("/" +:+ Str.join "/" comps))
      with (Str.startswith "/" (Str.join "/" comps)).
    now rewrite Hs. }
  rewrite Hi. cbv zeta.
  change ("/" +:+ Str.join "/" comps) with ("" +:+ String OsPath.sep (Str.join "/" comps)).
  rewrite split_app_sep, split_join;
    [|exact Hne | eapply Forall_impl; [exact Hc|]; now intros w (_ & _ & _ & H)].
  change (Str.split OsPath.sep "") with [""].
  change ([""] ++ comps) with ("" :: comps).
  rewrite filter_cons_False by (intros H; discriminate H).
  now rewrite filter_parts_proper.
Qed.

Lemma join_parts_abs (comps : list string) :
  comps <> [] -> Forall proper_component comps ->
  OsPath.join "/" comps = "/" +:+ Str.join "/" comps.
Proof.
  intros Hne Hc. destruct comps as [|a rest]; [contradiction|].
  inversion Hc as [|? ? Ha Hrest]; subst.
  destruct Ha as (Hane & _ & _ & Hfree).
  unfold OsPath.join. simpl fold_left. unfold OsPath.join_step at 2.
  rewrite (slash_free_no_start a Hane Hfree).
  change (String.eqb "/" "" || Str.endswith_char OsPath.sep "/") with true. cbv iota.
  change (fold_left OsPath.join_step rest ("/" +:+ a)) with (OsPath.join ("/" +:+ a) rest).
  rewrite join_components.
  - destruct rest as [|b rest]; [reflexivity|].
    change (Str.join "/" (a :: b :: rest)) with (a +:+ "/" +:+ Str.join "/" (b :: rest)).
    now rewrite append_assoc.
  - now apply proper_is_joinable.
  - discriminate.
  - rewrite endswith_append by exact Hane. now apply slash_free_no_end.
Qed.

Section Detection.

Variable run_cmake : nat -> exn + Completed.
Variable str_other : pyval -> string.

Local Abbreviation detect := (detect_cmake run_cmake str_other).

(** X12: when the stripped output of [cmake] has a line
    [CMAKE_ROOT], a quoted absolute path of plain components, that is
    neither its first nor its last line, and no such start of a line
    before it, the root is that very path: [detect_cmake] answers
    [True] and keeps it. *)
Theorem cmake_root_is_read_from_the_output (w : World) (p : Completed)
    (pre post : string) (comps : list string) :
  cmake_detected w = false ->
  run_cmake (cmake_runs w) = inr p ->
  returncode p = 0%Z ->
  comps <> [] -> Forall proper_component comps ->
  all_chars Re.not_quote (Str.join "/" comps) = true ->
  let root := "/" +:+ Str.join "/" comps in
  Str.strip (stdout p)
  = pre +:+ Str.nl +:+ "CMAKE_ROOT " +:+ Str.dq +:+ root +:+ Str.dq +:+ Str.nl +:+ post ->
  Str.contains (Str.nl +:+ "CMAKE_ROOT " +:+ Str.dq) pre = false ->
  detect w = (set_detected root (count_cmake_run w), inr true).
Proof.
  intros Hd Hrun Hrc Hne Hc Hq root Hout Hpre.
  unfold detect_cmake. unfold bind at 1, get at 1. cbv beta iota zeta. cbn [fst snd].
  rewrite Hd. unfold bind at 1. cbv beta iota zeta. cbn [fst snd]. rewrite Hrun, Hrc.
  change (negb (0 =? 0)%Z) with false. cbv iota.
  rewrite Hout.
  change (pre +:+ Str.nl +:+ "CMAKE_ROOT " +:+ Str.dq +:+ root +:+ Str.dq +:+ Str.nl +:+ post)
    with (pre +:+ CMAKE_ROOT_HEAD +:+ (root +:+ Str.dq +:+ Str.nl +:+ post)).
  rewrite (search_skips pre _ _ Hpre
             (cmake_root_regex_line root post ltac:(discriminate) Hq)).
  cbn [Re.group1 default].
  change (id root) with ("/" +:+ Str.join "/" comps).
  rewrite (purepath_parts_abs comps Hne Hc).
  rewrite (join_parts_abs comps Hne Hc). reflexivity.
Qed.

(** X13: [detect_cmake] finds a root only behind a newline: when the
    stripped output of a [cmake] that ran well has no newline followed
    by [CMAKE_ROOT], a blank and a quote, as when that line is its
    first, the answer is [False] with one line in the log and nothing
    kept; and an answer [True] of a module that had not detected
    [cmake] means that [cmake] ran well and that start of a line is in
    its stripped output. *)
Theorem cmake_root_line_must_follow_a_newline (w : World) :
  cmake_detected w = false ->
  (forall p, run_cmake (cmake_runs w) = inr p -> returncode p = 0%Z ->
     Str.contains (Str.nl +:+ "CMAKE_ROOT " +:+ Str.dq) (Str.strip (stdout p)) = false ->
     detect w = (log "unable to determine cmake root" (count_cmake_run w), inr false))
  /\ (forall w', detect w = (w', inr true) ->
      exists p, run_cmake (cmake_runs w) = inr p /\ returncode p = 0%Z
                /\ Str.contains (Str.nl +:+ "CMAKE_ROOT " +:+ Str.dq)
                                (Str.strip (stdout p)) = true).
Proof.
  intros Hd. split.
  - intros p Hrun Hrc Hno.
    unfold detect_cmake. unfold bind at 1, get at 1. cbv beta iota zeta. cbn [fst snd].
    rewrite Hd. unfold bind at 1. cbv beta iota zeta. cbn [fst snd]. rewrite Hrun, Hrc.
    change (negb (0 =? 0)%Z) with false. cbv iota.
    now rewrite (search_needs_head _ Hno).
  - intros w'. unfold detect_cmake. unfold bind at 1, get at 1.
    cbv beta iota zeta. cbn [fst snd].
    rewrite Hd. unfold bind at 1. cbv beta iota zeta. cbn [fst snd].
    destruct (run_cmake (cmake_runs w)) as [e|p]; [discriminate|].
    destruct (returncode p =? 0)%Z eqn:Hrc; [|discriminate].
    apply Z.eqb_eq in Hrc. cbn [negb]. cbv iota.
    destruct (Re.search Re.cmake_root_regex (Str.strip (stdout p))) as [m|] eqn:Hs;
      [|discriminate].
    intros _. exists p. split; [reflexivity|]. split; [exact Hrc|].
    exact (search_found_has_head _ _ Hs).
Qed.

End Detection.

Lemma cmake_root_is_read_from_the_output_witness :
  detect_cmake Sample.cmake_ok Sample.str_other Sample.w0
  = (set_detected "/usr/share/cmake-3.14" (count_cmake_run Sample.w0), inr true).
Proof.
  refine (cmake_root_is_read_from_the_output Sample.cmake_ok Sample.str_other Sample.w0
            (mk_Completed 0 Sample.system_information "")
            "CMAKE_VERSION 3.14" "CMAKE_SYSTEM Linux" ["usr"; "share"; "cmake-3.14"]
            eq_refl eq_refl eq_refl _ _ eq_refl eq_refl eq_refl).
  - discriminate.
  - repeat constructor; discriminate.
Defined.

Lemma cmake_root_line_must_follow_a_newline_witness :
  detect_cmake root_on_first_line Sample.str_other Sample.w0
  = (log "unable to determine cmake root" (count_cmake_run Sample.w0), inr false).
Proof.
  exact (proj1 (cmake_root_line_must_follow_a_newline root_on_first_line Sample.str_other
                  Sample.w0 eq_refl) _ eq_refl eq_refl eq_refl).
Defined.

(** ** What [write_basic_package_version_file] does as a whole *)

Section VersionCall.

Variable default_mode : N.
Variable run_cmake : nat -> exn + Completed.
Variable str_other : pyval -> string.
Variable read_error_text : string -> string.

Local Abbreviation wv :=
  (write_basic_package_version_file default_mode run_cmake str_other read_error_text).
Local Abbreviation detect := (detect_cmake run_cmake str_other).

(** What [detect_cmake] never touches. *)
Lemma detect_cmake_frame (w : World) :
  let w1 := fst (detect w) in
  files w1 = files w /\ cwd w1 = cwd w /\ sizeof_runs w1 = sizeof_runs w
  /\ build_def_files w1 = build_def_files w /\ build_data w1 = build_data w
  /\ used_confs w1 = used_confs w.
Proof.
  unfold detect_cmake, bind, get, modify, ret, raise. simpl.
  destruct (cmake_detected w); [repeat split|].
  destruct (run_cmake (cmake_runs w)) as [e|p]; simpl; [repeat split|].
  destruct (negb (returncode p =? 0)%Z); simpl; [repeat split|].
  destruct (Re.search Re.cmake_root_regex (Str.strip (stdout p))) as [m|]; simpl;
    [|repeat split].
  destruct (OsPath.purepath_parts (default "" (Re.group1 m))); repeat split.
Qed.

Lemma detect_cmake_true (w : World) :
  snd (detect w) = inr true -> cmake_detected (fst (detect w)) = true.
Proof.
  intros H. destruct (cmake_detected w) eqn:D.
  - now rewrite (detect_cmake_detected run_cmake str_other w D).
  - destruct (detect_cmake_undetected run_cmake str_other w D) as (_ & Ht & _).
    now apply Ht.
Qed.

(** With a template to read, [do_conf_file] ends well and the
    destination holds the rendered lines. *)
Lemma do_conf_file_runs (src dst : string) (confdata : gmap string (string * string))
    (w : World) (fin : FileEntry) :
  files w !! src = Some fin ->
  do_conf_file default_mode read_error_text src dst confdata w
  = (set_files
       (<[dst :=
            mk_FileEntry
              (Str.concat
                 (map (fun line => fst (do_replacement Re.placeholder_regex line confdata))
                      (readlines (text fin))))
              (mode fin)]>
          (delete (dst +:+ "~") (files w))) w,
     inr tt).
Proof.
  intros Hin. unfold do_conf_file, bind, get. cbv beta iota zeta.
  cbn [fst snd]. rewrite Hin. unfold run_plan.
  destruct (write_steps_run default_mode (fun _ => None) src dst
              (map (fun line => fst (do_replacement Re.placeholder_regex line confdata))
                   (readlines (text fin)))
              (files w) fin Hin eq_refl) as [_ Hall].
  cbv zeta in Hall. now rewrite Hall.
Qed.

Lemma detect_voidp_size_cases (state : ModuleState) (w : World) :
  (exists e, detect_voidp_size state w = (w, inl e))
  \/ (exists r, detect_voidp_size state w = (count_sizeof_run w, r)).
Proof.
  unfold detect_voidp_size.
  destruct (host_compilers state !! "c") as [c|].
  - right. eexists; reflexivity.
  - destruct (host_compilers state !! "cpp") as [c|].
    + right. eexists; reflexivity.
    + left. eexists; reflexivity.
Qed.

(** The course of a call once its checks have passed: what it ends in
    and the state it leaves. *)
Lemma version_file_course (state : ModuleState) (args : list pyval)
    (kwargs : gmap string pyval) (w w' : World) (r : exn + ModuleReturnValue) :
  wv state args kwargs w = (w', r) ->
  (exists e, r = inl e /\ (w' = w \/ w' = fst (detect w)
                           \/ w' = count_sizeof_run (fst (detect w))))
  \/ (exists version name compat pkgroot root tmpl voidp,
        kwargs !! "version" = Some (PStr version)
        /\ kwargs !! "name" = Some (PStr name)
        /\ default (PStr "AnyNewerVersion") (kwargs !! "compatibility") = PStr compat
        /\ compat ∈ COMPATIBILITIES
        /\ snd (detect w) = inr true
        /\ cmake_root (fst (detect w)) = Some root
        /\ (let given := default PNone (kwargs !! "install_dir") in
            match given with
            | PNone => PStr (OsPath.join (option_libdir state) ["cmake"; name])
            | _ => given
            end) = PStr pkgroot
        /\ files w !! OsPath.join root
                        ["Modules"; "BasicConfigVersion-" +:+ compat +:+ ".cmake.in"]
           = Some tmpl
        /\ snd (detect_voidp_size state (fst (detect w))) = inr voidp
        /\ let version_file :=
             OsPath.join (scratch_dir state) [name +:+ "ConfigVersion.cmake"] in
           let res := mk_Data (mk_File true (scratch_dir state) version_file) pkgroot in
           r = inr (mk_ModuleReturnValue res [res])
           /\ w' = set_files
                     (<[version_file :=
                          mk_FileEntry
                            (Str.concat
                               (map (fun line =>
                                       fst (do_replacement Re.placeholder_regex line
                                              (<["CMAKE_SIZEOF_VOID_P" :=
                                                   (py_str str_other (PInt voidp), "")]>
                                                 (<["CVF_VERSION" := (version, "")]> ∅))))
                                    (readlines (text tmpl))))
                            (mode tmpl)]>
                        (delete (version_file +:+ "~") (files w)))
                     (count_sizeof_run (fst (detect w)))).
Proof.
  unfold write_basic_package_version_file.
  destruct (kwargs !! "version") as [[| | |version| | |]|];
    try (unfold raise; intros [= <- <-]; left; eexists; split; [reflexivity | now left]).
  destruct (kwargs !! "name") as [[| | |name| | |]|];
    try (unfold raise; intros [= <- <-]; left; eexists; split; [reflexivity | now left]).
  destruct (default (PStr "AnyNewerVersion") (kwargs !! "compatibility"))
    as [| | |compat| | |] eqn:Hc;
    try (unfold raise; intros [= <- <-]; left; eexists; split; [reflexivity | now left]).
  destruct (bool_decide (compat ∈ COMPATIBILITIES)) eqn:Hm; cbn [negb]; cbv iota;
    [|unfold raise; intros [= <- <-]; left; eexists; split; [reflexivity | now left]].
  apply bool_decide_eq_true_1 in Hm.
  unfold bind at 1.
  pose proof (detect_cmake_files run_cmake str_other w) as Hfiles.
  destruct (detect w) as [w1 [e|detected]] eqn:Hd; cbn [fst snd] in *.
  { intros [= <- <-]. left. eexists; split; [reflexivity | now right; left]. }
  destruct detected; cbn [negb]; cbv iota;
    [|unfold raise; intros [= <- <-]; left; eexists; split;
      [reflexivity | now right; left]].
  cbv zeta.
  destruct (match default PNone (kwargs !! "install_dir") with
            | PNone => PStr (OsPath.join (option_libdir state) ["cmake"; name])
            | _ => default PNone (kwargs !! "install_dir")
            end) as [| | |pkgroot| | |] eqn:Hp;
    try (unfold raise; intros [= <- <-]; left; eexists; split;
         [reflexivity | now right; left]).
  unfold bind at 1, get at 1. cbv beta iota zeta. cbn [fst snd].
  destruct (cmake_root w1) as [root|] eqn:Hr;
    [|unfold raise; intros [= <- <-]; left; eexists; split;
      [reflexivity | now right; left]].
  destruct (files w1 !! OsPath.join root
                          ["Modules"; "BasicConfigVersion-" +:+ compat +:+ ".cmake.in"])
    as [tmpl|] eqn:Ht.
  2: { rewrite bool_decide_eq_false_2 by (intros [? ?]; discriminate).
       cbn [negb]. unfold raise. intros [= <- <-]. left.
       eexists; split; [reflexivity | now right; left]. }
  rewrite bool_decide_eq_true_2 by (eexists; reflexivity). cbn [negb]. cbv iota.
  unfold bind at 1.
  destruct (detect_voidp_size_cases state w1) as [[e Hv] | [rv Hv]]; rewrite Hv.
  { intros [= <- <-]. left. eexists; split; [reflexivity | now right; left]. }
  destruct rv as [e|voidp].
  { intros [= <- <-]. left. eexists; split; [reflexivity | now right; right]. }
  unfold bind at 1.
  rewrite (do_conf_file_runs _ _ _ (count_sizeof_run w1) tmpl Ht).
  unfold ret. intros [= <- <-]. right.
  exists version, name, compat, pkgroot, root, tmpl, voidp.
  rewrite <- Hfiles.
  repeat (split; [first [reflexivity | assumption]|]).
  split; reflexivity.
Qed.

(** X14: a call of [write_basic_package_version_file] that ends in an
    exception has written no file, and has left the working directory
    and the lists of the interpreter alone, whatever it has learnt of
    [cmake] on its way. *)
Theorem version_file_failure_writes_nothing (state : ModuleState) (args : list pyval)
    (kwargs : gmap string pyval) (w w' : World) (e : exn) :
  wv state args kwargs w = (w', inl e) ->
  files w' = files w /\ cwd w' = cwd w
  /\ build_def_files w' = build_def_files w /\ build_data w' = build_data w
  /\ used_confs w' = used_confs w.
Proof.
  intros H. destruct (detect_cmake_frame w) as (Hf & Hw & _ & Hb & Hd & Hu).
  cbv zeta in *.
  destruct (version_file_course _ _ _ _ _ _ H)
    as [(e' & _ & [-> | [-> | ->]]) | (? & ? & ? & ? & ? & ? & ? & Hr)].
  - repeat split.
  - repeat split; assumption.
  - repeat split; assumption.
  - destruct Hr as (_ & _ & _ & _ & _ & _ & _ & _ & _ & Hr & _). discriminate.
Qed.

(** X15: a call of [write_basic_package_version_file] that ends well
    returns, also as its one new object, the file
    [<name>ConfigVersion.cmake] joined to the scratch directory, marked
    as built in the scratch directory, to be installed to the
    [install_dir] it was given, or to [<libdir>/cmake/<name>] when that
    was left out or [None]; the file is there, no temporary file is
    left, every other path holds what it held, [cmake] is detected and
    the compiler has been asked once. *)
Theorem version_file_result (state : ModuleState) (args : list pyval)
    (kwargs : gmap string pyval) (w w' : World) (r : ModuleReturnValue) :
  wv state args kwargs w = (w', inr r) ->
  exists name pkgroot,
    kwargs !! "name" = Some (PStr name)
    /\ match kwargs !! "install_dir" with
       | Some (PStr d) => pkgroot = d
       | None | Some PNone => pkgroot = OsPath.join (option_libdir state) ["cmake"; name]
       | Some _ => False
       end
    /\ let version_file := OsPath.join (scratch_dir state) [name +:+ "ConfigVersion.cmake"] in
       let res := mk_Data (mk_File true (scratch_dir state) version_file) pkgroot in
       r = mk_ModuleReturnValue res [res]
       /\ is_Some (files w' !! version_file)
       /\ files w' !! (version_file +:+ "~") = None
       /\ (forall p, p <> version_file -> p <> version_file +:+ "~" ->
             files w' !! p = files w !! p)
       /\ cmake_detected w' = true
       /\ sizeof_runs w' = S (sizeof_runs w).
Proof.
  intros H. destruct (detect_cmake_frame w) as (_ & _ & Hs & _).
  cbv zeta in Hs.
  destruct (version_file_course _ _ _ _ _ _ H)
    as [(e' & He & _) | (version & name & compat & pkgroot & root & tmpl & voidp
                         & _ & Hn & _ & _ & Hd & _ & Hp & _ & _ & Hr & ->)];
    [discriminate|].
  injection Hr as ->.
  exists name, pkgroot. split; [exact Hn|]. split.
  { cbv zeta in Hp. destruct (kwargs !! "install_dir") as [[| | |d| | |]|];
      simpl in Hp; try discriminate; now injection Hp. }
  cbv zeta. cbn [files set_files cmake_detected sizeof_runs count_sizeof_run].
  split; [reflexivity|]. split; [|split; [|split; [|split]]].
  - rewrite lookup_insert_eq. eexists; reflexivity.
  - rewrite lookup_insert_ne by (apply tmp_path_differs). apply lookup_delete_eq.
  - intros p Ho Ht. rewrite lookup_insert_ne by (intros Ep; apply Ho; symmetry; exact Ep).
    now rewrite lookup_delete_ne by (intros Ep; apply Ht; symmetry; exact Ep).
  - now apply detect_cmake_true.
  - now rewrite Hs.
Qed.

End VersionCall.

Lemma version_file_failure_writes_nothing_witness :
  let r := write_basic_package_version_file Sample.default_mode Sample.cmake_ok
             Sample.str_other Sample.read_error_text Sample.state []
             SampleVersion.kwargs_exact Sample.w0 in
  files (fst r) = Sample.fs0 /\ cmake_detected (fst r) = true.
Proof.
  intros r.
  assert (H : r = (fst r, inl (MesonException
                "your cmake installation doesn't support the ExactVersion compatibility")))
    by (vm_compute; reflexivity).
  split; [|reflexivity].
  exact (proj1 (version_file_failure_writes_nothing _ _ _ _ _ _ _ _ _ _ H)).
Defined.

Lemma version_file_result_witness :
  let r := write_basic_package_version_file Sample.default_mode Sample.cmake_ok
             Sample.str_other Sample.read_error_text Sample.state []
             SampleVersion.kwargs Sample.w0 in
  is_Some (files (fst r) !! "/build/meson-private/FooConfigVersion.cmake")
  /\ sizeof_runs (fst r) = 1.
Proof.
  intros r.
  assert (H : r = (fst r,
                   inr (let res := mk_Data (mk_File true "/build/meson-private"
                                              "/build/meson-private/FooConfigVersion.cmake")
                                           "share/cmake/Foo" in
                        mk_ModuleReturnValue res [res])))
    by (vm_compute; reflexivity).
  destruct (version_file_result _ _ _ _ _ _ _ _ _ _ H)
    as (name & pkgroot & Hn & _ & _ & Hthere & _ & _ & _ & Hruns).
  injection Hn as <-. split; [exact Hthere | exact Hruns].
Defined.

(** ** The same call a second time *)

Section ConfigureTwice.

Variable default_mode : N.
Variable open_error : string -> option exn.
Variable str_other : pyval -> string.
Variable from_source_file :
  gmap string FileEntry -> string -> string -> string -> exn + File.
Variable absolute_path : File -> string -> string -> string.
Variable relative_name : File -> string.
Variable read_error_text : string -> string.

Local Abbreviation cfg :=
  (configure_package_config_file default_mode open_error str_other from_source_file
     absolute_path relative_name read_error_text).
Local Abbreviation input := (input_file from_source_file).
Local Abbreviation from :=
  (configure_from default_mode open_error str_other absolute_path relative_name read_error_text).

(** X16: the same call once more, with an input that is found again
    and is not the file written: it ends well with the same result and
    leaves the files and the build definition files as they are, but
    the result is appended to the data of the build a second time and
    the configuration is marked as used again. *)
Theorem configure_twice_registers_twice (state : ModuleState) (args : list pyval)
    (kwargs : gmap string pyval) (w w1 : World) (res : Data) (f : File) :
  cfg state args kwargs w = (w1, inr res) ->
  input state kwargs w = (w, inr f) ->
  input state kwargs w1 = (w1, inr f) ->
  (let ofile_abs := OsPath.join (build_dir state)
                      [file_subdir (data_file res); fname (data_file res)] in
   absolute_path f (source_dir state) (build_dir state) <> ofile_abs
   /\ absolute_path f (source_dir state) (build_dir state) <> ofile_abs +:+ "~") ->
  exists w2,
    cfg state args kwargs w1 = (w2, inr res)
    /\ files w2 = files w1
    /\ build_def_files w2 = build_def_files w1
    /\ build_data w2 = build_data w ++ [res; res]
    /\ exists conf_id conf,
         kwargs !! "configuration" = Some (PConf conf_id conf)
         /\ used_confs w2 = used_confs w ++ [conf_id; conf_id].
Proof.
  intros H Hi Hi1 Hneq.
  unfold configure_package_config_file in H |- *.
  destruct args; [|unfold raise in H; congruence].
  unfold bind in H |- *. rewrite Hi in H. rewrite Hi1.
  destruct (configure_from_success _ _ _ _ _ _ _ _ _ _ _ _ H)
    as ((name & Hn & Hopen) & Hd & (conf_id & conf & Hc) & Hp & [fin Hf]).
  destruct (configure_from_runs default_mode open_error str_other absolute_path
              relative_name read_error_text state kwargs f w name conf_id conf fin
              Hn Hd Hc Hp Hf Hopen)
    as (rel & Hrel & E).
  rewrite E in H.
  assert (Hw1 := f_equal fst H). assert (Hr := f_equal snd H).
  cbn [fst snd] in Hw1, Hr.
  assert (Hres : mk_Data
                   (mk_File true
                      (fst (OsPath.split (OsPath.join (subdir state) [name +:+ "Config.cmake"])))
                      (snd (OsPath.split (OsPath.join (subdir state) [name +:+ "Config.cmake"]))))
                   (OsPath.join (option_libdir state) ["cmake"; name]) = res)
    by congruence.
  clear H Hr. subst res. cbn [data_file file_subdir fname] in Hneq.
  cbv zeta in Hneq. destruct Hneq as [Ho Ht].
  assert (Hf1 : files w1 !! absolute_path f (source_dir state) (build_dir state)
                = Some fin).
  { rewrite <- Hw1. unfold configured. cbn [files].
    rewrite lookup_insert_ne by (intros Ep; apply Ho; symmetry; exact Ep).
    now rewrite lookup_delete_ne by (intros Ep; apply Ht; symmetry; exact Ep). }
  destruct (configure_from_runs default_mode open_error str_other absolute_path
              relative_name read_error_text state kwargs f w1 name conf_id conf fin
              Hn Hd Hc Hp Hf1 Hopen)
    as (rel1 & Hrel1 & E1).
  assert (Hcwd : cwd w1 = cwd w) by (now rewrite <- Hw1).
  rewrite Hcwd, Hrel in Hrel1.
  assert (Hsame : rel1 = rel) by congruence. subst rel1. clear Hrel1.
  rewrite E1. eexists. split; [reflexivity|].
  unfold configured at 1 2 3 4. cbn [files build_def_files build_data used_confs].
  split; [|split; [|split]].
  - rewrite <- Hw1. unfold configured. cbn [files].
    rewrite delete_insert_ne by (intros Ep; exact (tmp_path_differs _ (eq_sym Ep))).
    now rewrite delete_delete_eq, insert_insert_eq.
  - rewrite bool_decide_eq_true_2; [reflexivity|].
    rewrite <- Hw1. unfold configured. cbn [build_def_files].
    destruct (bool_decide (OsPath.normpath (relative_name f) ∈ build_def_files w)) eqn:B.
    + now apply bool_decide_eq_true_1 in B.
    + apply elem_of_app. right. apply list_elem_of_singleton. reflexivity.
  - rewrite <- Hw1. unfold configured. cbn [build_data]. now rewrite <- app_assoc.
  - exists conf_id, conf. split; [exact Hc|].
    rewrite <- Hw1. unfold configured. cbn [used_confs]. now rewrite <- app_assoc.
Qed.

End ConfigureTwice.

Lemma configure_twice_registers_twice_witness :
  let cfg := configure_package_config_file Sample.default_mode Sample.open_error Sample.str_other
               Sample.from_source_file Sample.absolute_path Sample.relative_name
               Sample.read_error_text Sample.state [] SampleCall.kwargs in
  let w1 := fst (cfg Sample.w0) in
  exists w2, cfg w1 = (w2, inr (mk_Data (mk_File true "" "FooConfig.cmake") "lib/cmake/Foo"))
             /\ files w2 = files w1
             /\ build_def_files w2 = build_def_files w1.
Proof.
  intros cfg w1.
  assert (H : cfg Sample.w0
              = (w1, inr (mk_Data (mk_File true "" "FooConfig.cmake") "lib/cmake/Foo")))
    by (vm_compute; reflexivity).
  destruct (configure_twice_registers_twice Sample.default_mode Sample.open_error Sample.str_other
              Sample.from_source_file Sample.absolute_path Sample.relative_name
              Sample.read_error_text Sample.state [] SampleCall.kwargs Sample.w0 w1 _
              (mk_File false "" "FooConfig.cmake.in") H eq_refl)
    as (w2 & E & Hfiles & Hdefs & _).
  - vm_compute. reflexivity.
  - split; discriminate.
  - exists w2. split; [exact E|]. split; [exact Hfiles | exact Hdefs].
Defined.
